(** * Adaptive Session Engine of the assessment platform

    A shallow embedding of the adaptive engine (src/analytics/adaptive-engine.ts),
    the scoring engine (src/analytics/scoring-engine.ts), the session handlers
    (src/lambda/handlers/sessions.ts) and the assessment handlers
    (src/lambda/handlers/assessments.ts), with the properties of the
    specification stated and proved over it, and further properties of the
    code in the last part. The scoring engine embedded
    here is the copy whose role-fit score multiplies the weights of the
    role-critical areas; the repository holds a second copy, which adds an
    adjustment instead (module [SecondCopy]).

    Conventions of the embedding.
    - A JavaScript [number] is an exact rational [Q] (IEEE rounding is not
      modelled); a number that the code only uses as an integer (a difficulty
      level, a count) is a [Z] or a [nat].
    - A JavaScript string is a [string]; its characters are the code units
      below 256.
    - A TypeScript string enum is an inductive type.
    - A plain object used as a dictionary is a [gmap] when only lookups
      matter and an insertion-ordered association list when the code
      enumerates it.
    - DynamoDB tables are [gmap]s from (partition key, sort key) to items;
      handlers are functions from a store to a store and a response. A
      query or a scan returns its items in the order in which the table is
      enumerated; pages are not modelled. The clock, the random source, the
      fresh identifiers, the token verifier and the question and insight
      providers are explicit arguments. *)

From Stdlib Require Import ZArith QArith Qabs Qround Lqa List String Ascii Bool Lia.
From stdpp Require Import gmap strings list.
Import ListNotations.

Local Open Scope string_scope.
Local Open Scope Z_scope.

(** ** src/shared/types.ts *)

Inductive KnowledgeArea :=
  | PROGRAMMING_LANGUAGE
  | ALGORITHMS_DATA_STRUCTURES
  | ANALYTICAL_REASONING
  | QUANTITATIVE_MATH
  | SYSTEM_SCENARIO_DESIGN
  | PSYCHOMETRIC_BEHAVIORAL.

Inductive SeniorityLevel := JUNIOR | MID | SENIOR | LEAD.

Inductive QuestionType := MCQ | CODING | PROBLEM_SOLVING | NUMERICAL | SCENARIO_BASED.

Inductive UserRole := ADMIN | TENANT | CANDIDATE.

Inductive SessionStatus := IN_PROGRESS | COMPLETED | ABANDONED.

#[global] Instance KnowledgeArea_eq_dec : EqDecision KnowledgeArea.
Proof. solve_decision. Defined.

#[global] Instance SeniorityLevel_eq_dec : EqDecision SeniorityLevel.
Proof. solve_decision. Defined.

#[global] Instance UserRole_eq_dec : EqDecision UserRole.
Proof. solve_decision. Defined.

#[global] Instance SessionStatus_eq_dec : EqDecision SessionStatus.
Proof. solve_decision. Defined.

Definition KnowledgeArea_index (a : KnowledgeArea) : nat :=
  match a with
  | PROGRAMMING_LANGUAGE => 0
  | ALGORITHMS_DATA_STRUCTURES => 1
  | ANALYTICAL_REASONING => 2
  | QUANTITATIVE_MATH => 3
  | SYSTEM_SCENARIO_DESIGN => 4
  | PSYCHOMETRIC_BEHAVIORAL => 5
  end%nat.

Definition KnowledgeArea_of_index (n : nat) : KnowledgeArea :=
  match n with
  | 0 => PROGRAMMING_LANGUAGE
  | 1 => ALGORITHMS_DATA_STRUCTURES
  | 2 => ANALYTICAL_REASONING
  | 3 => QUANTITATIVE_MATH
  | 4 => SYSTEM_SCENARIO_DESIGN
  | _ => PSYCHOMETRIC_BEHAVIORAL
  end%nat.

#[global] Instance KnowledgeArea_countable : Countable KnowledgeArea.
Proof.
  refine (inj_countable' KnowledgeArea_index KnowledgeArea_of_index _).
  intros a; destruct a; reflexivity.
Defined.

(** [type DifficultyLevel = 1 | 2 | 3 | 4 | 5]: a number at run time. *)
Abbreviation DifficultyLevel := Z.

(** [string | string[]], the type of an answer and of an answer key. *)
Inductive Answer :=
  | AnswerString (s : string)
  | AnswerArray (l : list string).

Module KnowledgeAreaConfig.
Record t := mk {
  area : KnowledgeArea;
  percentage : Q;
  programmingLanguage : option string
}.
End KnowledgeAreaConfig.

Module TargetRole.
Record t := mk {
  name : string;
  seniorityLevel : SeniorityLevel
}.
End TargetRole.

Module Assessment.
Record t := mk {
  assessmentId : string;
  tenantId : string;
  title : string;
  description : option string;
  targetRole : TargetRole.t;
  knowledgeAreaMix : list KnowledgeAreaConfig.t;
  initialDifficulty : DifficultyLevel;
  durationMinutes : option Q;
  maxQuestions : option Q;
  passThreshold : option Q;
  createdAt : string;
  updatedAt : string;
  createdBy : string;
  isActive : bool
}.
End Assessment.

(** The question as the session handlers read it, from the session's
    [currentQuestion] or from the Questions table. *)
Module Question.
Record t := mk {
  questionId : string;
  questionText : string;
  questionType : QuestionType;
  knowledgeArea : KnowledgeArea;
  difficulty : DifficultyLevel;
  options : option (list string);
  correctAnswer : Answer;
  explanation : string
}.
End Question.

(** A log entry; the last five fields are the question details that
    [submitAnswer] stores with it. *)
Module QuestionResponse.
Record t := mk {
  questionId : string;
  knowledgeArea : KnowledgeArea;
  difficulty : DifficultyLevel;
  answer : Answer;
  isCorrect : bool;
  timeSpentSeconds : Q;
  answeredAt : string;
  questionText : option string;
  questionType : option QuestionType;
  options : option (list string);
  correctAnswer : option Answer;
  explanation : option string
}.
End QuestionResponse.

Module CandidateSession.
Record t := mk {
  sessionId : string;
  assessmentId : string;
  tenantId : string;
  candidateEmail : option string;
  candidateName : option string;
  startedAt : string;
  submittedAt : option string;
  currentDifficulty : gmap KnowledgeArea DifficultyLevel;
  questionsAnswered : list QuestionResponse.t;
  status : SessionStatus;
  currentQuestion : option Question.t
}.
End CandidateSession.

Module AreaScore.
Record t := mk {
  score : Q;
  questionsAnswered : nat;
  correctAnswers : nat;
  avgDifficultyReached : Q;
  avgTimePerQuestion : Q
}.
End AreaScore.

(** ** JavaScript primitives used by the code *)

(** A natural number as a JavaScript number. *)
Definition num (n : nat) : Q := inject_Z (Z.of_nat n).

Definition Qlt_bool (a b : Q) : bool := negb (Qle_bool b a).

(** [Math.round]: the nearest integer, halves towards plus infinity. *)
Definition Math_round (x : Q) : Z := Qfloor (x + (1 # 2)).

Definition Math_min (a b : Q) : Q := if Qle_bool a b then a else b.
Definition Math_max (a b : Q) : Q := if Qle_bool a b then b else a.

(** [arr.slice(-n)]: the last [n] elements, the whole array when it is shorter. *)
Definition slice_last {A : Type} (n : nat) (l : list A) : list A :=
  skipn (length l - n) l.

(** ** src/shared/constants.ts *)

Definition MAX_DIFFICULTY : Z := 5.
Definition MIN_DIFFICULTY : Z := 1.
Definition DIFFICULTY_INCREASE_THRESHOLD : Q := 8 # 10.
Definition DIFFICULTY_DECREASE_THRESHOLD : Q := 4 # 10.
Definition DIFFICULTY_STABLE_WINDOW : nat := 3.

(** ** src/analytics/adaptive-engine.ts *)

Definition inArea (knowledgeArea : KnowledgeArea) (r : QuestionResponse.t) : bool :=
  bool_decide (QuestionResponse.knowledgeArea r = knowledgeArea).

Definition calculateNextDifficulty (currentDifficulty : DifficultyLevel)
    (knowledgeArea : KnowledgeArea) (recentResponses : list QuestionResponse.t)
    : DifficultyLevel :=
  let areaResponses := List.filter (inArea knowledgeArea) recentResponses in
  if (length areaResponses <? DIFFICULTY_STABLE_WINDOW)%nat then currentDifficulty
  else
    (* the overall [accuracy] that the source computes here is never read *)
    let recentPerformance := slice_last DIFFICULTY_STABLE_WINDOW areaResponses in
    let recentCorrect := length (List.filter QuestionResponse.isCorrect recentPerformance) in
    let recentAccuracy := (num recentCorrect / num (length recentPerformance))%Q in
    if Qle_bool DIFFICULTY_INCREASE_THRESHOLD recentAccuracy
       && (currentDifficulty <? MAX_DIFFICULTY)
    then currentDifficulty + 1
    else if Qlt_bool recentAccuracy DIFFICULTY_DECREASE_THRESHOLD
            && (currentDifficulty >? MIN_DIFFICULTY)
    then currentDifficulty - 1
    else currentDifficulty.

(** [x || d] on a numeric property that may be missing: [undefined] and [0]
    are falsy. *)
Definition or_default (o : option Z) (d : Z) : Z :=
  match o with
  | Some v => if v =? 0 then d else v
  | None => d
  end.

(** [new Set(arr)] enumerated: the distinct elements, in order of first
    occurrence. *)
Fixpoint Set_from (l : list KnowledgeArea) : list KnowledgeArea :=
  match l with
  | [] => []
  | x :: l' => x :: List.filter (fun y => negb (bool_decide (y = x))) (Set_from l')
  end.

Definition updateSessionDifficulties (session : CandidateSession.t)
    : gmap KnowledgeArea DifficultyLevel :=
  let knowledgeAreas :=
    Set_from (List.map QuestionResponse.knowledgeArea
                (CandidateSession.questionsAnswered session)) in
  let updatedDifficulties :=
    foldl (fun (updated : gmap KnowledgeArea DifficultyLevel) area =>
             let currentDifficulty :=
               or_default (CandidateSession.currentDifficulty session !! area) 3 in
             <[area := calculateNextDifficulty currentDifficulty area
                         (CandidateSession.questionsAnswered session)]> updated)
          ∅ knowledgeAreas in
  (* { ...session.currentDifficulty, ...updatedDifficulties } *)
  updatedDifficulties ∪ CandidateSession.currentDifficulty session.

(** The loop of [weightedRandomSelection]; [None] when it runs off the end. *)
Fixpoint weightedWalk (knowledgeAreaMix : list KnowledgeAreaConfig.t) (random : Q)
    : option KnowledgeArea :=
  match knowledgeAreaMix with
  | [] => None
  | config :: rest =>
      let random' := (random - KnowledgeAreaConfig.percentage config)%Q in
      if Qle_bool random' 0 then Some (KnowledgeAreaConfig.area config)
      else weightedWalk rest random'
  end.

(** [Math_random] is the value that [Math.random()] returns. The result is
    [None] when the source throws a TypeError ([knowledgeAreaMix[0]] of an
    empty mix). *)
Definition weightedRandomSelection (knowledgeAreaMix : list KnowledgeAreaConfig.t)
    (Math_random : Q) : option KnowledgeArea :=
  let total :=
    foldl (fun sum config => (sum + KnowledgeAreaConfig.percentage config)%Q)
          0%Q knowledgeAreaMix in
  match weightedWalk knowledgeAreaMix (Math_random * total)%Q with
  | Some a => Some a
  | None => option_map KnowledgeAreaConfig.area (head knowledgeAreaMix)
  end.

(** [arr.sort((a, b) => b.deficit - a.deficit)]: a stable sort, largest
    deficit first. *)
Fixpoint insertByDeficit (x : KnowledgeArea * Q) (l : list (KnowledgeArea * Q))
    : list (KnowledgeArea * Q) :=
  match l with
  | [] => [x]
  | y :: l' =>
      if Qlt_bool (snd x) (snd y) then y :: insertByDeficit x l' else x :: y :: l'
  end.

Definition sortByDeficit (l : list (KnowledgeArea * Q)) : list (KnowledgeArea * Q) :=
  foldr insertByDeficit [] l.

Definition initAreaCounts (knowledgeAreaMix : list KnowledgeAreaConfig.t)
    : gmap KnowledgeArea nat :=
  foldl (fun (areaCounts : gmap KnowledgeArea nat) config =>
           <[KnowledgeAreaConfig.area config := 0%nat]> areaCounts)
        ∅ knowledgeAreaMix.

Definition countAnswered (areaCounts : gmap KnowledgeArea nat)
    (questionsAnswered : list QuestionResponse.t) : gmap KnowledgeArea nat :=
  foldl (fun (areaCounts : gmap KnowledgeArea nat) response =>
           match areaCounts !! QuestionResponse.knowledgeArea response with
           | Some n => <[QuestionResponse.knowledgeArea response := S n]> areaCounts
           | None => areaCounts
           end)
        areaCounts questionsAnswered.

(** Every configured area has a count, so the default of the lookup below
    is never taken. *)
Definition selectNextKnowledgeArea (knowledgeAreaMix : list KnowledgeAreaConfig.t)
    (questionsAnswered : list QuestionResponse.t)
    (currentDifficulties : gmap KnowledgeArea DifficultyLevel)
    (Math_random : Q) : option KnowledgeArea :=
  let areaCounts := countAnswered (initAreaCounts knowledgeAreaMix) questionsAnswered in
  let totalAnswered := length questionsAnswered in
  let underTargetAreas :=
    foldl (fun underTargetAreas config =>
             let currentPercentage :=
               if (0 <? totalAnswered)%nat
               then (num (default 0%nat (areaCounts !! KnowledgeAreaConfig.area config))
                     / num totalAnswered * 100)%Q
               else 0%Q in
             let deficit := (KnowledgeAreaConfig.percentage config - currentPercentage)%Q in
             if Qlt_bool 0 deficit
             then (underTargetAreas ++ [(KnowledgeAreaConfig.area config, deficit)])%list
             else underTargetAreas)
          [] knowledgeAreaMix in
  match sortByDeficit underTargetAreas with
  | top :: _ => Some (fst top)
  | [] => weightedRandomSelection knowledgeAreaMix Math_random
  end.

(** ** src/analytics/scoring-engine.ts *)

(** A plain object keyed by knowledge area that the code enumerates
    ([Object.entries], [Object.values]): the keys in insertion order. *)
Definition JsObject (V : Type) : Type := list (KnowledgeArea * V).

Fixpoint obj_get {V : Type} (o : JsObject V) (k : KnowledgeArea) : option V :=
  match o with
  | [] => None
  | (k', v) :: o' => if bool_decide (k' = k) then Some v else obj_get o' k
  end.

Fixpoint obj_set {V : Type} (o : JsObject V) (k : KnowledgeArea) (v : V) : JsObject V :=
  match o with
  | [] => [(k, v)]
  | (k', v') :: o' =>
      if bool_decide (k' = k) then (k, v) :: o' else (k', v') :: obj_set o' k v
  end.

Definition Qsum (l : list Q) : Q := foldl Qplus 0%Q l.

Module PerformanceMetrics.
Record t := mk {
  sessionId : string;
  assessmentId : string;
  tenantId : string;
  overallScore : Q;
  roleFitScore : Z;
  passed : bool;
  knowledgeAreaScores : JsObject AreaScore.t;
  strengths : list KnowledgeArea;
  weaknesses : list KnowledgeArea;
  completedAt : string
}.
End PerformanceMetrics.

Definition getDefaultPassThreshold (seniorityLevel : SeniorityLevel) : Q :=
  match seniorityLevel with
  | JUNIOR => 50
  | MID => 60
  | SENIOR => 70
  | LEAD => 75
  end%Q.

(** [areaScore && areaScore.questionsAnswered > 0] *)
Definition answeredScore (areaScores : JsObject AreaScore.t) (a : KnowledgeArea)
    : option AreaScore.t :=
  match obj_get areaScores a with
  | Some areaScore =>
      if (0 <? AreaScore.questionsAnswered areaScore)%nat then Some areaScore else None
  | None => None
  end.

Definition calculateWeightedScore (areaScores : JsObject AreaScore.t)
    (knowledgeAreaMix : list KnowledgeAreaConfig.t) : Q :=
  let '(totalWeightedScore, totalWeight) :=
    foldl (fun '(totalWeightedScore, totalWeight) config =>
             match answeredScore areaScores (KnowledgeAreaConfig.area config) with
             | Some areaScore =>
                 let weight := (KnowledgeAreaConfig.percentage config / 100)%Q in
                 ((totalWeightedScore + AreaScore.score areaScore * weight)%Q,
                  (totalWeight + weight)%Q)
             | None => (totalWeightedScore, totalWeight)
             end)
          (0%Q, 0%Q) knowledgeAreaMix in
  if Qlt_bool 0 totalWeight then (totalWeightedScore / totalWeight)%Q else 0%Q.

(** The role-specific multipliers that [calculateRoleFitScore] applies to
    the weight of a configured area. *)
Definition applyRoleMultiplier (seniorityLevel : SeniorityLevel) (a : KnowledgeArea)
    (weight : Q) : Q :=
  match seniorityLevel with
  | SENIOR | LEAD =>
      match a with
      | SYSTEM_SCENARIO_DESIGN => weight * (15 # 10)
      | ALGORITHMS_DATA_STRUCTURES => weight * (13 # 10)
      | _ => weight
      end
  | _ =>
      match a with
      | PROGRAMMING_LANGUAGE => weight * (15 # 10)
      | ANALYTICAL_REASONING => weight * (13 # 10)
      | _ => weight
      end
  end%Q.

(** The loop of [calculateRoleFitScore]: [(totalWeightedScore, totalWeight)]. *)
Definition roleFitTotals (areaScores : JsObject AreaScore.t)
    (targetRole : TargetRole.t) (knowledgeAreaMix : list KnowledgeAreaConfig.t) : Q * Q :=
  foldl (fun '(totalWeightedScore, totalWeight) config =>
           match answeredScore areaScores (KnowledgeAreaConfig.area config) with
           | Some areaScore =>
               let weight := (KnowledgeAreaConfig.percentage config / 100)%Q in
               let weight :=
                 applyRoleMultiplier (TargetRole.seniorityLevel targetRole)
                                     (KnowledgeAreaConfig.area config) weight in
               ((totalWeightedScore + AreaScore.score areaScore * weight)%Q,
                (totalWeight + weight)%Q)
           | None => (totalWeightedScore, totalWeight)
           end)
        (0%Q, 0%Q) knowledgeAreaMix.

Definition calculateRoleFitScore (areaScores : JsObject AreaScore.t)
    (targetRole : TargetRole.t) (knowledgeAreaMix : list KnowledgeAreaConfig.t) : Z :=
  let '(totalWeightedScore, totalWeight) :=
    roleFitTotals areaScores targetRole knowledgeAreaMix in
  if Qeq_bool totalWeight 0 then 0
  else
    let roleFitScore := (totalWeightedScore / totalWeight)%Q in
    Math_round (Math_min 100 (Math_max 0 roleFitScore)).

Definition identifyStrengthsAndWeaknesses (areaScores : JsObject AreaScore.t)
    (knowledgeAreaMix : list KnowledgeAreaConfig.t)
    : list KnowledgeArea * list KnowledgeArea :=
  let scores :=
    List.map AreaScore.score
      (List.filter (fun s => (0 <? AreaScore.questionsAnswered s)%nat)
                   (List.map snd areaScores)) in
  let avgScore :=
    if (0 <? length scores)%nat then (Qsum scores / num (length scores))%Q else 0%Q in
  let strengthThreshold := (avgScore + 10)%Q in
  let weaknessThreshold := (avgScore - 15)%Q in
  foldl (fun '(strengths, weaknesses) config =>
           match answeredScore areaScores (KnowledgeAreaConfig.area config) with
           | Some areaScore =>
               if Qle_bool strengthThreshold (AreaScore.score areaScore)
               then ((strengths ++ [KnowledgeAreaConfig.area config])%list, weaknesses)
               else if Qle_bool (AreaScore.score areaScore) weaknessThreshold
               then (strengths, (weaknesses ++ [KnowledgeAreaConfig.area config])%list)
               else (strengths, weaknesses)
           | None => (strengths, weaknesses)
           end)
        ([], []) knowledgeAreaMix.

Definition groupByArea (knowledgeAreaMix : list KnowledgeAreaConfig.t)
    (questionsAnswered : list QuestionResponse.t) : JsObject (list QuestionResponse.t) :=
  let areaGroups :=
    foldl (fun areaGroups config => obj_set areaGroups (KnowledgeAreaConfig.area config) [])
          [] knowledgeAreaMix in
  foldl (fun areaGroups response =>
           match obj_get areaGroups (QuestionResponse.knowledgeArea response) with
           | Some responses =>
               obj_set areaGroups (QuestionResponse.knowledgeArea response)
                       (responses ++ [response])%list
           | None => areaGroups
           end)
        areaGroups questionsAnswered.

Definition scoreArea (responses : list QuestionResponse.t) : AreaScore.t :=
  let correctAnswers := length (List.filter QuestionResponse.isCorrect responses) in
  let totalTime := Qsum (List.map QuestionResponse.timeSpentSeconds responses) in
  let difficulties := List.map QuestionResponse.difficulty responses in
  let avgDifficulty :=
    (Qsum (List.map inject_Z difficulties) / num (length difficulties))%Q in
  {| AreaScore.score := (num correctAnswers / num (length responses) * 100)%Q;
     AreaScore.questionsAnswered := length responses;
     AreaScore.correctAnswers := correctAnswers;
     AreaScore.avgDifficultyReached := avgDifficulty;
     AreaScore.avgTimePerQuestion := (totalTime / num (length responses))%Q |}.

Definition scoreAreas (areaGroups : JsObject (list QuestionResponse.t))
    : JsObject AreaScore.t :=
  foldl (fun knowledgeAreaScores '(a, responses) =>
           if (length responses =? 0)%nat then knowledgeAreaScores
           else obj_set knowledgeAreaScores a (scoreArea responses))
        [] areaGroups.

(** [x || y] on an optional string: [undefined] and the empty string are falsy. *)
Definition string_or (o : option string) (d : string) : string :=
  match o with
  | Some s => if bool_decide (s = "") then d else s
  | None => d
  end.

(** [x || y] on an optional number: [undefined] and [0] are falsy. *)
Definition number_or (o : option Q) (d : Q) : Q :=
  match o with
  | Some q => if Qeq_bool q 0 then d else q
  | None => d
  end.

(** [x || null] on an optional string and on an optional number. *)
Definition truthyString (o : option string) : option string :=
  match o with
  | Some s => if bool_decide (s = "") then None else Some s
  | None => None
  end.

Definition truthyNumber (o : option Q) : option Q :=
  match o with
  | Some q => if Qeq_bool q 0 then None else Some q
  | None => None
  end.

(** [now] is the value of [new Date().toISOString()] at the time of the call. *)
Definition calculatePerformanceMetrics (session : CandidateSession.t)
    (assessment : Assessment.t) (now : string) : PerformanceMetrics.t :=
  let areaGroups :=
    groupByArea (Assessment.knowledgeAreaMix assessment)
                (CandidateSession.questionsAnswered session) in
  let knowledgeAreaScores := scoreAreas areaGroups in
  let overallScore :=
    calculateWeightedScore knowledgeAreaScores (Assessment.knowledgeAreaMix assessment) in
  let roleFitScore :=
    calculateRoleFitScore knowledgeAreaScores (Assessment.targetRole assessment)
                          (Assessment.knowledgeAreaMix assessment) in
  let '(strengths, weaknesses) :=
    identifyStrengthsAndWeaknesses knowledgeAreaScores
                                   (Assessment.knowledgeAreaMix assessment) in
  let passThreshold :=
    number_or (Assessment.passThreshold assessment)
              (getDefaultPassThreshold
                 (TargetRole.seniorityLevel (Assessment.targetRole assessment))) in
  let passed := Qle_bool passThreshold (inject_Z roleFitScore) in
  {| PerformanceMetrics.sessionId := CandidateSession.sessionId session;
     PerformanceMetrics.assessmentId := CandidateSession.assessmentId session;
     PerformanceMetrics.tenantId := CandidateSession.tenantId session;
     PerformanceMetrics.overallScore := overallScore;
     PerformanceMetrics.roleFitScore := roleFitScore;
     PerformanceMetrics.passed := passed;
     PerformanceMetrics.knowledgeAreaScores := knowledgeAreaScores;
     PerformanceMetrics.strengths := strengths;
     PerformanceMetrics.weaknesses := weaknesses;
     PerformanceMetrics.completedAt :=
       string_or (CandidateSession.submittedAt session) now |}.

(** The second copy of the scoring engine in the repository computes the
    role-fit score as the weighted score plus an additive adjustment. *)
Module SecondCopy.

Definition scoreOrZero (areaScores : JsObject AreaScore.t) (a : KnowledgeArea) : Q :=
  match obj_get areaScores a with
  | Some areaScore => AreaScore.score areaScore
  | None => 0%Q
  end.

Definition calculateRoleFitScore (areaScores : JsObject AreaScore.t)
    (targetRole : TargetRole.t) (knowledgeAreaMix : list KnowledgeAreaConfig.t) : Z :=
  let baseScore := calculateWeightedScore areaScores knowledgeAreaMix in
  let adjustment :=
    match TargetRole.seniorityLevel targetRole with
    | SENIOR | LEAD =>
        let systemDesignScore := scoreOrZero areaScores SYSTEM_SCENARIO_DESIGN in
        let algorithmsScore := scoreOrZero areaScores ALGORITHMS_DATA_STRUCTURES in
        ((systemDesignScore * (15 # 100) + algorithmsScore * (1 # 10)) * (3 # 10))%Q
    | _ =>
        let programmingScore := scoreOrZero areaScores PROGRAMMING_LANGUAGE in
        let analyticalScore := scoreOrZero areaScores ANALYTICAL_REASONING in
        ((programmingScore * (15 # 100) + analyticalScore * (1 # 10)) * (3 # 10))%Q
    end in
  let roleFitScore := Math_min 100 (Math_max 0 (baseScore + adjustment)) in
  Math_round roleFitScore.

End SecondCopy.

(** ** String primitives *)

(** White space and line terminators of ECMAScript among the code units
    below 256: U+0009 to U+000D, U+0020 and U+00A0. *)
Definition isWhiteSpace (c : ascii) : bool :=
  let n := nat_of_ascii c in
  ((9 <=? n) && (n <=? 13) || (n =? 32) || (n =? 160))%nat.

Fixpoint trimStart (s : string) : string :=
  match s with
  | EmptyString => EmptyString
  | String c s' => if isWhiteSpace c then trimStart s' else s
  end.

Fixpoint trimEnd (s : string) : string :=
  match s with
  | EmptyString => EmptyString
  | String c s' =>
      match trimEnd s' with
      | EmptyString => if isWhiteSpace c then EmptyString else String c EmptyString
      | t => String c t
      end
  end.

(** [String.prototype.trim] *)
Definition trim (s : string) : string := trimEnd (trimStart s).

(** Lower case of a code unit below 256: A to Z, and U+00C0 to U+00DE
    without the multiplication sign U+00D7. *)
Definition lowerChar (c : ascii) : ascii :=
  let n := nat_of_ascii c in
  if ((65 <=? n) && (n <=? 90) || (192 <=? n) && (n <=? 222) && negb (n =? 215))%nat
  then ascii_of_nat (n + 32)
  else c.

(** [String.prototype.toLowerCase] *)
Fixpoint toLowerCase (s : string) : string :=
  match s with
  | EmptyString => EmptyString
  | String c s' => String (lowerChar c) (toLowerCase s')
  end.

(** [arr.join(',')], which is [String(arr)] on an array of strings. *)
Fixpoint join_comma (l : list string) : string :=
  match l with
  | [] => ""
  | [x] => x
  | x :: l' => x ++ "," ++ join_comma l'
  end.

(** [String(v)] on a [string | string[]]. *)
Definition String_of (a : Answer) : string :=
  match a with
  | AnswerString s => s
  | AnswerArray l => join_comma l
  end.

(** [arr.includes(x)] on an array of strings. *)
Definition includes (l : list string) (x : string) : bool :=
  existsb (fun y => bool_decide (y = x)) l.

(** [!s] on an optional string. *)
Definition blank (o : option string) : bool :=
  match o with
  | Some s => bool_decide (s = "")
  | None => true
  end.

(** [s.replace(pat, '')]: the first occurrence of [pat] is removed. *)
Fixpoint removeFirst (pat s : string) : string :=
  if String.prefix pat s
  then String.substring (String.length pat) (String.length s - String.length pat) s
  else match s with
       | EmptyString => EmptyString
       | String c s' => String c (removeFirst pat s')
       end.

(** ** src/shared/errors.ts *)

(** What a handler can throw: the platform's error classes, and
    [OtherError] for any other exception. *)
Inductive PlatformError :=
  | AuthenticationError (message : string)
  | AuthorizationError (message : string)
  | TenantIsolationError (message : string)
  | ValidationError (message : string)
  | NotFoundError (resource : string)
  | ConflictError (message : string)
  | OtherError (message : string).

Definition errorStatusCode (e : PlatformError) : Z :=
  match e with
  | AuthenticationError _ => 401
  | AuthorizationError _ => 403
  | TenantIsolationError _ => 403
  | ValidationError _ => 400
  | NotFoundError _ => 404
  | ConflictError _ => 409
  | OtherError _ => 500
  end.

Definition errorCode (e : PlatformError) : string :=
  match e with
  | AuthenticationError _ => "AUTHENTICATION_ERROR"
  | AuthorizationError _ => "AUTHORIZATION_ERROR"
  | TenantIsolationError _ => "TENANT_ISOLATION_ERROR"
  | ValidationError _ => "VALIDATION_ERROR"
  | NotFoundError _ => "NOT_FOUND_ERROR"
  | ConflictError _ => "CONFLICT_ERROR"
  | OtherError _ => "INTERNAL_ERROR"
  end.

Definition errorMessage (e : PlatformError) : string :=
  match e with
  | AuthenticationError m | AuthorizationError m | TenantIsolationError m
  | ValidationError m | ConflictError m | OtherError m => m
  | NotFoundError resource => resource ++ " not found"
  end.

Module ErrorResponse.
Record t := mk {
  statusCode : Z;
  code : string;
  message : string
}.
End ErrorResponse.

Definition formatErrorResponse (e : PlatformError) : ErrorResponse.t :=
  {| ErrorResponse.statusCode := errorStatusCode e;
     ErrorResponse.code := errorCode e;
     ErrorResponse.message := errorMessage e |}.

(** The result of a handler: a success status with its body, or the
    formatted error. *)
Inductive APIGatewayProxyResult (A : Type) :=
  | Success (statusCode : Z) (body : A)
  | Failure (error : ErrorResponse.t).
Arguments Success {A} statusCode body.
Arguments Failure {A} error.

(** ** src/shared/dynamodb.ts *)

Module MetricsItem.
Record t := mk {
  tenantId : string;
  sessionId : string;
  assessmentId : string;
  overallScore : Q;
  roleFitScore : Z;
  knowledgeAreaScores : JsObject AreaScore.t;
  strengths : list KnowledgeArea;
  weaknesses : list KnowledgeArea;
  completedAt : string
}.
End MetricsItem.

Module AIInsight.
Record t := mk {
  sessionId : string;
  assessmentId : string;
  tenantId : string;
  roleFitAssessment : string;
  strengthAreas : list (KnowledgeArea * string);
  weakAreas : list (KnowledgeArea * string);
  trainingRecommendations : list string;
  generatedAt : string
}.
End AIInsight.

(** The tables, each keyed by (tenantId, sort key). *)
Module Store.
Record t := mk {
  SESSIONS : gmap (string * string) CandidateSession.t;
  QUESTIONS : gmap (string * string) Question.t;
  ASSESSMENTS : gmap (string * string) Assessment.t;
  METRICS : gmap (string * string) MetricsItem.t;
  INSIGHTS : gmap (string * string) AIInsight.t
}.
End Store.

Inductive Outcome (A : Type) :=
  | Return (a : A)
  | Throw (e : PlatformError).
Arguments Return {A} a.
Arguments Throw {A} e.

(** A computation of a handler: it reads and writes the tables, and returns
    or throws. *)
Definition Handler (A : Type) : Type := Store.t -> Store.t * Outcome A.

Definition ret {A : Type} (a : A) : Handler A := fun st => (st, Return a).

Definition throw {A : Type} (e : PlatformError) : Handler A := fun st => (st, Throw e).

Definition bind {A B : Type} (m : Handler A) (k : A -> Handler B) : Handler B :=
  fun st =>
    match m st with
    | (st', Return a) => k a st'
    | (st', Throw e) => (st', Throw e)
    end.

Notation "'let*' x ':=' m 'in' k" := (bind m (fun x => k))
  (at level 10, x name, m at level 100, k at level 200).
Notation "'do*' m 'in' k" := (bind m (fun _ => k))
  (at level 10, m at level 100, k at level 200).

(** [if (b) throw e;] *)
Definition throwIf (b : bool) (e : PlatformError) : Handler unit :=
  if b then throw e else ret tt.

(** [try { ... return {statusCode, body} } catch (error) { return formatErrorResponse(error) }] *)
Definition respond {A : Type} (statusCode : Z) (m : Handler A)
    : Store.t -> Store.t * APIGatewayProxyResult A :=
  fun st =>
    match m st with
    | (st', Return a) => (st', Success statusCode a)
    | (st', Throw e) => (st', Failure (formatErrorResponse e))
    end.

Definition getItem {T : Type} (table : Store.t -> gmap (string * string) T)
    (tenantId sortKey : string) : Handler (option T) :=
  fun st => (st, Return (table st !! (tenantId, sortKey))).

(** [!tenantId || tenantId.trim() === ''] *)
Definition invalidTenantId (tenantId : string) : bool :=
  bool_decide (tenantId = "") || bool_decide (trim tenantId = "").

Definition setSESSIONS (f : gmap (string * string) CandidateSession.t ->
                            gmap (string * string) CandidateSession.t)
    (st : Store.t) : Store.t :=
  {| Store.SESSIONS := f (Store.SESSIONS st);
     Store.QUESTIONS := Store.QUESTIONS st;
     Store.ASSESSMENTS := Store.ASSESSMENTS st;
     Store.METRICS := Store.METRICS st;
     Store.INSIGHTS := Store.INSIGHTS st |}.

Definition setASSESSMENTS (f : gmap (string * string) Assessment.t ->
                               gmap (string * string) Assessment.t)
    (st : Store.t) : Store.t :=
  {| Store.SESSIONS := Store.SESSIONS st;
     Store.QUESTIONS := Store.QUESTIONS st;
     Store.ASSESSMENTS := f (Store.ASSESSMENTS st);
     Store.METRICS := Store.METRICS st;
     Store.INSIGHTS := Store.INSIGHTS st |}.

Definition setMETRICS (f : gmap (string * string) MetricsItem.t ->
                           gmap (string * string) MetricsItem.t)
    (st : Store.t) : Store.t :=
  {| Store.SESSIONS := Store.SESSIONS st;
     Store.QUESTIONS := Store.QUESTIONS st;
     Store.ASSESSMENTS := Store.ASSESSMENTS st;
     Store.METRICS := f (Store.METRICS st);
     Store.INSIGHTS := Store.INSIGHTS st |}.

Definition setINSIGHTS (f : gmap (string * string) AIInsight.t ->
                            gmap (string * string) AIInsight.t)
    (st : Store.t) : Store.t :=
  {| Store.SESSIONS := Store.SESSIONS st;
     Store.QUESTIONS := Store.QUESTIONS st;
     Store.ASSESSMENTS := Store.ASSESSMENTS st;
     Store.METRICS := Store.METRICS st;
     Store.INSIGHTS := f (Store.INSIGHTS st) |}.

(** [updateItem(TABLES.SESSIONS, tenantId, sortKey, ...)]: [update] is the
    effect of the update expression on the item. The handlers update the
    key of the session that they have just read. *)
Definition updateSession (tenantId sortKey : string)
    (update : CandidateSession.t -> CandidateSession.t) : Handler unit :=
  fun st =>
    if invalidTenantId tenantId
    then (st, Throw (OtherError "Cannot update item: tenantId is empty or invalid"))
    else (setSESSIONS (alter update (trim tenantId, sortKey)) st, Return tt).

(** An attribute that [putItem] leaves out because it is blank reads back
    as undefined: the empty string of the typed item. *)
Definition dropBlank (s : string) : string :=
  if bool_decide (trim s = "") then "" else s.

Definition dropBlankOpt (o : option string) : option string :=
  match o with
  | Some s => if bool_decide (trim s = "") then None else Some s
  | None => None
  end.

(** [putItem(table, item)]: [key] is the item's sort key and [stored] the
    item without its blank attributes. *)
Definition putItem {T : Type}
    (set : (gmap (string * string) T -> gmap (string * string) T) -> Store.t -> Store.t)
    (tenantId key : string) (stored : string -> T) : Handler unit :=
  fun st =>
    if invalidTenantId tenantId
    then (st, Throw (OtherError "Cannot save item: tenantId is empty or invalid"))
    else (set (insert (trim tenantId, key) (stored (trim tenantId))) st, Return tt).

(** ** src/lambda/handlers/sessions.ts *)

Definition checkAnswer (userAnswer correctAnswer : Answer) : bool :=
  match correctAnswer with
  | AnswerArray correct =>
      match userAnswer with
      | AnswerArray user =>
          forallb (fun ans => includes user ans) correct
          && forallb (fun ans => includes correct ans) user
      | AnswerString _ => false
      end
  | AnswerString _ =>
      bool_decide (toLowerCase (trim (String_of userAnswer))
                   = toLowerCase (trim (String_of correctAnswer)))
  end.

(** With a tenant id the session is read by its key; without one the code
    queries the partition of the empty tenant id and searches it for the
    session id, which is the sort key. *)
Definition findSessionById (sessionId : string) (tenantId : option string)
    : Handler (option CandidateSession.t) :=
  match tenantId with
  | Some t => if bool_decide (t = "") then getItem Store.SESSIONS "" sessionId
              else getItem Store.SESSIONS t sessionId
  | None => getItem Store.SESSIONS "" sessionId
  end.

Module AnswerEvent.
Record t := mk {
  sessionId : option string;        (* pathParameters.sessionId *)
  tenantId : option string;         (* queryStringParameters.tenantId *)
  questionId : option string;       (* body *)
  answer : option Answer;
  timeSpentSeconds : option Q
}.
End AnswerEvent.

Module AnswerResult.
Record t := mk {
  isCorrect : bool;
  explanation : string;
  nextQuestionAvailable : bool;
  questionsAnswered : nat;
  maxQuestions : Q
}.
End AnswerResult.

Definition makeResponse (questionId : string) (question : Question.t) (answer : Answer)
    (isCorrect : bool) (timeSpentSeconds : Q) (now : string) : QuestionResponse.t :=
  {| QuestionResponse.questionId := questionId;
     QuestionResponse.knowledgeArea := Question.knowledgeArea question;
     QuestionResponse.difficulty := Question.difficulty question;
     QuestionResponse.answer := answer;
     QuestionResponse.isCorrect := isCorrect;
     QuestionResponse.timeSpentSeconds := timeSpentSeconds;
     QuestionResponse.answeredAt := now;
     QuestionResponse.questionText := Some (Question.questionText question);
     QuestionResponse.questionType := Some (Question.questionType question);
     QuestionResponse.options := Question.options question;
     QuestionResponse.correctAnswer := Some (Question.correctAnswer question);
     QuestionResponse.explanation := Some (Question.explanation question) |}.

(** [{ ...session, questionsAnswered }] *)
Definition withQuestionsAnswered (session : CandidateSession.t)
    (questionsAnswered : list QuestionResponse.t) : CandidateSession.t :=
  {| CandidateSession.sessionId := CandidateSession.sessionId session;
     CandidateSession.assessmentId := CandidateSession.assessmentId session;
     CandidateSession.tenantId := CandidateSession.tenantId session;
     CandidateSession.candidateEmail := CandidateSession.candidateEmail session;
     CandidateSession.candidateName := CandidateSession.candidateName session;
     CandidateSession.startedAt := CandidateSession.startedAt session;
     CandidateSession.submittedAt := CandidateSession.submittedAt session;
     CandidateSession.currentDifficulty := CandidateSession.currentDifficulty session;
     CandidateSession.questionsAnswered := questionsAnswered;
     CandidateSession.status := CandidateSession.status session;
     CandidateSession.currentQuestion := CandidateSession.currentQuestion session |}.

(** [SET questionsAnswered = :questions, currentDifficulty = :difficulties
    REMOVE currentQuestion] *)
Definition setAnswered (questions : list QuestionResponse.t)
    (difficulties : gmap KnowledgeArea DifficultyLevel)
    (item : CandidateSession.t) : CandidateSession.t :=
  {| CandidateSession.sessionId := CandidateSession.sessionId item;
     CandidateSession.assessmentId := CandidateSession.assessmentId item;
     CandidateSession.tenantId := CandidateSession.tenantId item;
     CandidateSession.candidateEmail := CandidateSession.candidateEmail item;
     CandidateSession.candidateName := CandidateSession.candidateName item;
     CandidateSession.startedAt := CandidateSession.startedAt item;
     CandidateSession.submittedAt := CandidateSession.submittedAt item;
     CandidateSession.currentDifficulty := difficulties;
     CandidateSession.questionsAnswered := questions;
     CandidateSession.status := CandidateSession.status item;
     CandidateSession.currentQuestion := None |}.

(** [SET currentQuestion = :question] *)
Definition setCurrentQuestion (question : Question.t)
    (item : CandidateSession.t) : CandidateSession.t :=
  {| CandidateSession.sessionId := CandidateSession.sessionId item;
     CandidateSession.assessmentId := CandidateSession.assessmentId item;
     CandidateSession.tenantId := CandidateSession.tenantId item;
     CandidateSession.candidateEmail := CandidateSession.candidateEmail item;
     CandidateSession.candidateName := CandidateSession.candidateName item;
     CandidateSession.startedAt := CandidateSession.startedAt item;
     CandidateSession.submittedAt := CandidateSession.submittedAt item;
     CandidateSession.currentDifficulty := CandidateSession.currentDifficulty item;
     CandidateSession.questionsAnswered := CandidateSession.questionsAnswered item;
     CandidateSession.status := CandidateSession.status item;
     CandidateSession.currentQuestion := Some question |}.

(** [SET #status = :status, submittedAt = :submittedAt] *)
Definition setCompleted (submittedAt : string)
    (item : CandidateSession.t) : CandidateSession.t :=
  {| CandidateSession.sessionId := CandidateSession.sessionId item;
     CandidateSession.assessmentId := CandidateSession.assessmentId item;
     CandidateSession.tenantId := CandidateSession.tenantId item;
     CandidateSession.candidateEmail := CandidateSession.candidateEmail item;
     CandidateSession.candidateName := CandidateSession.candidateName item;
     CandidateSession.startedAt := CandidateSession.startedAt item;
     CandidateSession.submittedAt := Some submittedAt;
     CandidateSession.currentDifficulty := CandidateSession.currentDifficulty item;
     CandidateSession.questionsAnswered := CandidateSession.questionsAnswered item;
     CandidateSession.status := COMPLETED;
     CandidateSession.currentQuestion := CandidateSession.currentQuestion item |}.

(** The question of an answer: the session's [currentQuestion] when it has
    the submitted id, or else the pre-generated question of the Questions
    table. *)
Definition resolveQuestion (session : CandidateSession.t) (questionId : string)
    : Handler (option Question.t) :=
  match CandidateSession.currentQuestion session with
  | Some storedQuestion =>
      if bool_decide (Question.questionId storedQuestion = questionId)
      then
        if negb (bool_decide (Question.questionId storedQuestion = ""))
           && negb (bool_decide (Question.questionText storedQuestion = ""))
        then ret (Some storedQuestion)
        else throw (ValidationError "Invalid question data in session")
      else
        getItem Store.QUESTIONS (trim (CandidateSession.tenantId session))
                (CandidateSession.assessmentId session ++ "#" ++ questionId)
  | None =>
      getItem Store.QUESTIONS (trim (CandidateSession.tenantId session))
              (CandidateSession.assessmentId session ++ "#" ++ questionId)
  end.

Definition answered (questionId : string) (questionsAnswered : list QuestionResponse.t)
    : bool :=
  existsb (fun r => bool_decide (QuestionResponse.questionId r = questionId))
          questionsAnswered.

(** The body of the [try] block of [submitAnswer]; [now] is the clock. *)
Definition submitAnswer_try (event : AnswerEvent.t) (now : string)
    : Handler AnswerResult.t :=
  do* throwIf (blank (AnswerEvent.sessionId event)) (ValidationError "Session ID required") in
  let sessionId := default "" (AnswerEvent.sessionId event) in
  match AnswerEvent.questionId event, AnswerEvent.answer event,
        AnswerEvent.timeSpentSeconds event with
  | Some questionId, Some answer, Some timeSpentSeconds =>
      do* throwIf (bool_decide (questionId = ""))
        (ValidationError "Missing required fields: questionId, answer, timeSpentSeconds") in
      let* found := findSessionById sessionId (AnswerEvent.tenantId event) in
      match found with
      | None => throw (NotFoundError "Session")
      | Some session =>
          do* throwIf (negb (bool_decide (CandidateSession.status session = IN_PROGRESS)))
            (ValidationError "Session is not in progress") in
          let sessionTenantId := CandidateSession.tenantId session in
          do* throwIf (invalidTenantId sessionTenantId)
            (ValidationError "Session configuration error: tenantId is missing. Please contact support.") in
          let* resolved := resolveQuestion session questionId in
          match resolved with
          | None => throw (NotFoundError "Question")
          | Some question =>
              do* throwIf (answered questionId (CandidateSession.questionsAnswered session))
                (ValidationError "Question already answered") in
              let isCorrect := checkAnswer answer (Question.correctAnswer question) in
              let response :=
                makeResponse questionId question answer isCorrect timeSpentSeconds now in
              let updatedQuestions :=
                (CandidateSession.questionsAnswered session ++ [response])%list in
              let updatedDifficulties :=
                updateSessionDifficulties
                  (withQuestionsAnswered session updatedQuestions) in
              let* assessment := getItem Store.ASSESSMENTS (trim sessionTenantId)
                                         (CandidateSession.assessmentId session) in
              do* updateSession (trim sessionTenantId) sessionId
                                (setAnswered updatedQuestions updatedDifficulties) in
              let MAX_QUESTIONS :=
                number_or (assessment ≫= Assessment.maxQuestions) 10 in
              let questionsAnswered :=
                (length (CandidateSession.questionsAnswered session) + 1)%nat in
              let nextQuestionAvailable := Qlt_bool (num questionsAnswered) MAX_QUESTIONS in
              ret {| AnswerResult.isCorrect := isCorrect;
                     AnswerResult.explanation := Question.explanation question;
                     AnswerResult.nextQuestionAvailable := nextQuestionAvailable;
                     AnswerResult.questionsAnswered := questionsAnswered;
                     AnswerResult.maxQuestions := MAX_QUESTIONS |}
          end
      end
  | _, _, _ =>
      throw (ValidationError "Missing required fields: questionId, answer, timeSpentSeconds")
  end.

Definition submitAnswer (event : AnswerEvent.t) (now : string)
    : Store.t -> Store.t * APIGatewayProxyResult AnswerResult.t :=
  respond 200 (submitAnswer_try event now).

Module SessionEvent.
Record t := mk {
  sessionId : option string;        (* pathParameters.sessionId *)
  tenantId : option string          (* queryStringParameters.tenantId *)
}.
End SessionEvent.

(** The question without its [correctAnswer]. *)
Module QuestionForCandidate.
Record t := mk {
  questionId : string;
  questionText : string;
  questionType : QuestionType;
  knowledgeArea : KnowledgeArea;
  difficulty : DifficultyLevel;
  options : option (list string);
  explanation : string
}.
End QuestionForCandidate.

Module NextQuestionResult.
Record t := mk {
  question : QuestionForCandidate.t;
  sessionId : string;
  questionsAnswered : nat;
  maxQuestions : Q;
  durationMinutes : option Q;
  startedAt : option string
}.
End NextQuestionResult.

(** The Question Provider: [generateAdaptiveQuestion] of the question
    generator, which returns a question or throws an error message. *)
Definition QuestionProvider : Type :=
  Assessment.t -> KnowledgeArea -> DifficultyLevel -> option (nat * nat) ->
  string + Question.t.

Definition withoutCorrectAnswer (question : Question.t) : QuestionForCandidate.t :=
  {| QuestionForCandidate.questionId := Question.questionId question;
     QuestionForCandidate.questionText := Question.questionText question;
     QuestionForCandidate.questionType := Question.questionType question;
     QuestionForCandidate.knowledgeArea := Question.knowledgeArea question;
     QuestionForCandidate.difficulty := Question.difficulty question;
     QuestionForCandidate.options := Question.options question;
     QuestionForCandidate.explanation := Question.explanation question |}.

(** The body of the [try] block of [getNextQuestion]. *)
Definition getNextQuestion_try (event : SessionEvent.t)
    (generateAdaptiveQuestion : QuestionProvider) (Math_random : Q)
    : Handler NextQuestionResult.t :=
  do* throwIf (blank (SessionEvent.sessionId event)) (ValidationError "Session ID required") in
  let sessionId := default "" (SessionEvent.sessionId event) in
  let* found := findSessionById sessionId (SessionEvent.tenantId event) in
  match found with
  | None => throw (NotFoundError "Session")
  | Some session =>
      do* throwIf (negb (bool_decide (CandidateSession.status session = IN_PROGRESS)))
        (ValidationError "Session is not in progress") in
      let* found := getItem Store.ASSESSMENTS (CandidateSession.tenantId session)
                            (CandidateSession.assessmentId session) in
      match found with
      | None => throw (NotFoundError "Assessment")
      | Some assessment =>
          match selectNextKnowledgeArea (Assessment.knowledgeAreaMix assessment)
                  (CandidateSession.questionsAnswered session)
                  (CandidateSession.currentDifficulty session) Math_random with
          | None => throw (OtherError "TypeError")
          | Some nextArea =>
              let currentDifficulty :=
                or_default (CandidateSession.currentDifficulty session !! nextArea)
                           (Assessment.initialDifficulty assessment) in
              let recentResponses :=
                slice_last 10 (CandidateSession.questionsAnswered session) in
              let previousPerformance :=
                if (0 <? length recentResponses)%nat
                then Some (length (List.filter QuestionResponse.isCorrect recentResponses),
                           length recentResponses)
                else None in
              match generateAdaptiveQuestion assessment nextArea currentDifficulty
                      previousPerformance with
              | inl message => throw (OtherError message)
              | inr question =>
                  do* throwIf (bool_decide (Question.questionId question = "")
                               || bool_decide (Question.questionText question = ""))
                    (OtherError "Failed to generate question. Please try again.") in
                  do* updateSession (CandidateSession.tenantId session) sessionId
                                    (setCurrentQuestion question) in
                  ret {| NextQuestionResult.question := withoutCorrectAnswer question;
                         NextQuestionResult.sessionId := sessionId;
                         NextQuestionResult.questionsAnswered :=
                           length (CandidateSession.questionsAnswered session);
                         NextQuestionResult.maxQuestions :=
                           number_or (Assessment.maxQuestions assessment) 10;
                         NextQuestionResult.durationMinutes :=
                           truthyNumber (Assessment.durationMinutes assessment);
                         NextQuestionResult.startedAt :=
                           truthyString (Some (CandidateSession.startedAt session)) |}
              end
          end
      end
  end.

Definition getNextQuestion (event : SessionEvent.t)
    (generateAdaptiveQuestion : QuestionProvider) (Math_random : Q)
    : Store.t -> Store.t * APIGatewayProxyResult NextQuestionResult.t :=
  respond 200 (getNextQuestion_try event generateAdaptiveQuestion Math_random).

Module SubmitResult.
Record t := mk {
  sessionId : string;
  status : SessionStatus;
  overallScore : Q;
  roleFitScore : Z;
  insightsAvailable : bool
}.
End SubmitResult.

(** [generateInsights] of the insights generator: an insight, or [None]
    when it throws. *)
Definition InsightsProvider : Type :=
  PerformanceMetrics.t -> Assessment.t -> option AIInsight.t.

Definition metricsItem (metrics : PerformanceMetrics.t) (tenantId : string)
    : MetricsItem.t :=
  {| MetricsItem.tenantId := tenantId;
     MetricsItem.sessionId := PerformanceMetrics.sessionId metrics;
     MetricsItem.assessmentId := PerformanceMetrics.assessmentId metrics;
     MetricsItem.overallScore := PerformanceMetrics.overallScore metrics;
     MetricsItem.roleFitScore := PerformanceMetrics.roleFitScore metrics;
     MetricsItem.knowledgeAreaScores := PerformanceMetrics.knowledgeAreaScores metrics;
     MetricsItem.strengths := PerformanceMetrics.strengths metrics;
     MetricsItem.weaknesses := PerformanceMetrics.weaknesses metrics;
     MetricsItem.completedAt := dropBlank (PerformanceMetrics.completedAt metrics) |}.

Definition insightsItem (insights : AIInsight.t) (tenantId : string) : AIInsight.t :=
  {| AIInsight.sessionId := AIInsight.sessionId insights;
     AIInsight.assessmentId := dropBlank (AIInsight.assessmentId insights);
     AIInsight.tenantId := tenantId;
     AIInsight.roleFitAssessment := dropBlank (AIInsight.roleFitAssessment insights);
     AIInsight.strengthAreas := AIInsight.strengthAreas insights;
     AIInsight.weakAreas := AIInsight.weakAreas insights;
     AIInsight.trainingRecommendations := AIInsight.trainingRecommendations insights;
     AIInsight.generatedAt := dropBlank (AIInsight.generatedAt insights) |}.

(** [try { await putItem(TABLES.INSIGHTS, ...) } catch { }]: a failure of the
    write is logged and dropped. *)
Definition tryPutInsights (insights : AIInsight.t) (tenantId : string) : Handler unit :=
  fun st =>
    match putItem setINSIGHTS tenantId (AIInsight.sessionId insights)
                  (insightsItem insights) st with
    | (st', Return _) => (st', Return tt)
    | (st', Throw _) => (st', Return tt)
    end.

(** The body of the [try] block of [submitSession]; [now] is the clock at
    the scoring and [now'] the clock at the final update. *)
Definition submitSession_try (event : SessionEvent.t)
    (generateInsights : InsightsProvider) (now now' : string)
    : Handler SubmitResult.t :=
  do* throwIf (blank (SessionEvent.sessionId event)) (ValidationError "Session ID required") in
  let sessionId := default "" (SessionEvent.sessionId event) in
  let* found := findSessionById sessionId (SessionEvent.tenantId event) in
  match found with
  | None => throw (NotFoundError "Session")
  | Some session =>
      do* throwIf (negb (bool_decide (CandidateSession.status session = IN_PROGRESS)))
        (ValidationError "Session already submitted") in
      let* found := getItem Store.ASSESSMENTS (CandidateSession.tenantId session)
                            (CandidateSession.assessmentId session) in
      match found with
      | None => throw (NotFoundError "Assessment")
      | Some assessment =>
          let metrics := calculatePerformanceMetrics session assessment now in
          do* putItem setMETRICS (trim (CandidateSession.tenantId session))
                      (PerformanceMetrics.sessionId metrics) (metricsItem metrics) in
          let insights := generateInsights metrics assessment in
          do* match insights with
              | Some generated =>
                  tryPutInsights generated (trim (CandidateSession.tenantId session))
              | None => ret tt
              end in
          do* updateSession (CandidateSession.tenantId session) sessionId
                            (setCompleted now') in
          ret {| SubmitResult.sessionId := sessionId;
                 SubmitResult.status := COMPLETED;
                 SubmitResult.overallScore := PerformanceMetrics.overallScore metrics;
                 SubmitResult.roleFitScore := PerformanceMetrics.roleFitScore metrics;
                 SubmitResult.insightsAvailable := bool_decide (is_Some insights) |}
      end
  end.

Definition submitSession (event : SessionEvent.t)
    (generateInsights : InsightsProvider) (now now' : string)
    : Store.t -> Store.t * APIGatewayProxyResult SubmitResult.t :=
  respond 200 (submitSession_try event generateInsights now now').

(** ** src/lambda/handlers/assessments.ts *)

Module CognitoUserAttributes.
Record t := mk {
  sub : string;
  email : string;
  tenantId : option string;         (* custom:tenantId *)
  role : UserRole                   (* custom:role *)
}.
End CognitoUserAttributes.

Definition hasRole (user : CognitoUserAttributes.t) (requiredRole : UserRole) : bool :=
  bool_decide (CognitoUserAttributes.role user = requiredRole).

(** [userAttributes['custom:tenantId'] || null] *)
Definition getTenantId (user : CognitoUserAttributes.t) : option string :=
  truthyString (CognitoUserAttributes.tenantId user).

(** A field of the request body that should hold an array. *)
Inductive ArrayField (A : Type) :=
  | FieldMissing                      (* undefined, null or another falsy value *)
  | FieldArray (l : list A)
  | FieldNotArray.                    (* a truthy value that is not an array *)
Arguments FieldMissing {A}.
Arguments FieldArray {A} l.
Arguments FieldNotArray {A}.

(** A field of the request body that should hold a number. *)
Inductive NumberField :=
  | NumberUndefined
  | NumberValue (q : Q)
  | NotANumber.                       (* null, a string, an object, ... *)

Module AssessmentBody.
Record t := mk {
  title : option string;
  description : option string;
  targetRole : option TargetRole.t;
  knowledgeAreaMix : ArrayField KnowledgeAreaConfig.t;
  initialDifficulty : option DifficultyLevel;
  durationMinutes : option Q;
  maxQuestions : NumberField;
  tenantId : option string
}.
End AssessmentBody.

Module AssessmentEvent.
Record t := mk {
  authorization : option string;    (* headers.Authorization || headers.authorization *)
  body : option AssessmentBody.t    (* None: the body is not valid JSON *)
}.
End AssessmentEvent.

(** [getUserFromToken] of the Cognito utilities: the user of a token, or
    the error that it throws. *)
Definition TokenVerifier : Type := string -> PlatformError + CognitoUserAttributes.t.

(** [tenantId || body.tenantId || (hasRole(user, ADMIN) ? 'admin-default' : null)] *)
Definition finalTenantIdOf (user : CognitoUserAttributes.t) (bodyTenantId : option string)
    : option string :=
  match getTenantId user, truthyString bodyTenantId with
  | Some t, _ => Some t
  | None, Some t => Some t
  | None, None => if hasRole user ADMIN then Some "admin-default" else None
  end.

(** The body of the [try] block of [createAssessment]; [uuid] is the fresh
    identifier and [now] the clock. The questions of the new assessment
    are generated after the response, outside this computation. *)
Definition createAssessment_try (event : AssessmentEvent.t)
    (getUserFromToken : TokenVerifier) (uuid now : string)
    : Handler Assessment.t :=
  match AssessmentEvent.authorization event with
  | None => throw (AuthenticationError "Authentication required")
  | Some authHeader =>
    do* throwIf (bool_decide (authHeader = ""))
                (AuthenticationError "Authentication required") in
    let accessToken := removeFirst "Bearer " authHeader in
    match getUserFromToken accessToken with
    | inl e => throw e
    | inr user =>
      do* throwIf (negb (hasRole user TENANT) && negb (hasRole user ADMIN))
            (AuthorizationError "Only tenants and admins can create assessments") in
      let tenantId := getTenantId user in
      do* throwIf (negb (bool_decide (is_Some tenantId)) && negb (hasRole user ADMIN))
            (ValidationError "Tenant ID required") in
      match AssessmentEvent.body event with
      | None => throw (ValidationError "Invalid JSON in request body")
      | Some body =>
        let initialDifficulty := default 3 (AssessmentBody.initialDifficulty body) in
        let maxQuestions :=
          match AssessmentBody.maxQuestions body with
          | NumberUndefined => NumberValue 10
          | other => other
          end in
        let missingFields :=
          ValidationError "Missing required fields: title, targetRole, knowledgeAreaMix" in
        let notAnArray := ValidationError "knowledgeAreaMix must be a non-empty array" in
        let badMaxQuestions :=
          ValidationError "maxQuestions must be a number between 1 and 50" in
        match AssessmentBody.title body, AssessmentBody.targetRole body,
              AssessmentBody.knowledgeAreaMix body with
        | Some title, Some targetRole, FieldArray knowledgeAreaMix =>
          do* throwIf (bool_decide (title = "")) missingFields in
          do* throwIf (length knowledgeAreaMix =? 0)%nat notAnArray in
          match maxQuestions with
          | NumberValue maxQuestions =>
            do* throwIf (Qlt_bool maxQuestions 1 || Qlt_bool 50 maxQuestions)
                        badMaxQuestions in
            let totalPercentage :=
              foldl (fun sum config => (sum + KnowledgeAreaConfig.percentage config)%Q)
                    0%Q knowledgeAreaMix in
            do* throwIf (Qlt_bool (1 # 100) (Qabs (totalPercentage - 100)))
                  (ValidationError "Knowledge area percentages must sum to 100") in
            let assessmentId := uuid in
            match finalTenantIdOf user (AssessmentBody.tenantId body) with
            | None => throw (ValidationError "Tenant ID is required and cannot be empty")
            | Some finalTenantId =>
              do* throwIf (bool_decide (trim finalTenantId = ""))
                    (ValidationError "Tenant ID is required and cannot be empty") in
              let assessment :=
                {| Assessment.assessmentId := assessmentId;
                   Assessment.tenantId := finalTenantId;
                   Assessment.title := title;
                   Assessment.description := AssessmentBody.description body;
                   Assessment.targetRole := targetRole;
                   Assessment.knowledgeAreaMix := knowledgeAreaMix;
                   Assessment.initialDifficulty := initialDifficulty;
                   Assessment.durationMinutes := AssessmentBody.durationMinutes body;
                   Assessment.maxQuestions :=
                     Some (Math_max 1 (Math_min 50 maxQuestions));
                   Assessment.passThreshold := None;
                   Assessment.createdAt := now;
                   Assessment.updatedAt := now;
                   Assessment.createdBy := CognitoUserAttributes.sub user;
                   Assessment.isActive := true |} in
              do* putItem setASSESSMENTS (trim finalTenantId) assessmentId
                    (fun storedTenantId =>
                       {| Assessment.assessmentId := assessmentId;
                          Assessment.tenantId := storedTenantId;
                          Assessment.title := dropBlank title;
                          Assessment.description :=
                            dropBlankOpt (AssessmentBody.description body);
                          Assessment.targetRole := targetRole;
                          Assessment.knowledgeAreaMix := knowledgeAreaMix;
                          Assessment.initialDifficulty := initialDifficulty;
                          Assessment.durationMinutes := AssessmentBody.durationMinutes body;
                          Assessment.maxQuestions := Assessment.maxQuestions assessment;
                          Assessment.passThreshold := None;
                          Assessment.createdAt := dropBlank now;
                          Assessment.updatedAt := dropBlank now;
                          Assessment.createdBy :=
                            dropBlank (CognitoUserAttributes.sub user);
                          Assessment.isActive := true |}) in
              ret assessment
            end
          | _ => throw badMaxQuestions
          end
        | Some title, Some _, FieldNotArray =>
            do* throwIf (bool_decide (title = "")) missingFields in
            throw notAnArray
        | _, _, _ => throw missingFields
        end
      end
    end
  end.

Definition createAssessment (event : AssessmentEvent.t)
    (getUserFromToken : TokenVerifier) (uuid now : string)
    : Store.t -> Store.t * APIGatewayProxyResult Assessment.t :=
  respond 201 (createAssessment_try event getUserFromToken uuid now).


(** ** src/shared/auth.ts *)

Definition belongsToTenant (user : CognitoUserAttributes.t) (tenantId : string) : bool :=
  if bool_decide (CognitoUserAttributes.role user = ADMIN) then true
  else bool_decide (CognitoUserAttributes.tenantId user = Some tenantId).

(** ** src/shared/dynamodb.ts: queries and scans *)

(** [queryByPartitionKey(table, tenantId)]: the items of a partition.
    DynamoDB fixes the order of the items; here it is the order in which
    the table is enumerated. *)
Definition queryByPartitionKey {T : Type} (table : Store.t -> gmap (string * string) T)
    (tenantId : string) : Handler (list T) :=
  fun st =>
    (st, Return (List.map snd
                   (List.filter (fun kv => bool_decide (fst (fst kv) = tenantId))
                                (map_to_list (table st))))).

(** [scanTable(table, filter)]: the items of the table that pass the filter
    expression, [keep]. *)
Definition scanTable {T : Type} (table : Store.t -> gmap (string * string) T)
    (keep : T -> bool) : Handler (list T) :=
  fun st => (st, Return (List.filter keep (List.map snd (map_to_list (table st))))).

(** ** src/lambda/handlers/assessments.ts: reading assessments *)

Module ReadEvent.
Record t := mk {
  authorization : option string;    (* headers.Authorization || headers.authorization *)
  assessmentId : option string;     (* pathParameters.assessmentId *)
  tenantId : option string;         (* queryStringParameters.tenantId *)
  activeOnly : option string        (* queryStringParameters.activeOnly *)
}.
End ReadEvent.

(** The first steps of the handlers for tenants and admins: the header,
    the token and the role. *)
Definition authorize (authorization : option string) (getUserFromToken : TokenVerifier)
    : Handler CognitoUserAttributes.t :=
  match authorization with
  | None => throw (AuthenticationError "Authentication required")
  | Some authHeader =>
    do* throwIf (bool_decide (authHeader = ""))
                (AuthenticationError "Authentication required") in
    let accessToken := removeFirst "Bearer " authHeader in
    match getUserFromToken accessToken with
    | inl e => throw e
    | inr user =>
      do* throwIf (negb (hasRole user TENANT) && negb (hasRole user ADMIN))
            (AuthorizationError "Insufficient permissions") in
      ret user
    end
  end.

(** [event.queryStringParameters?.tenantId || tenantId] *)
Definition requestedTenantIdOf (queryTenantId tenantId : option string) : option string :=
  match truthyString queryTenantId with
  | Some t => Some t
  | None => tenantId
  end.

(** The check of tenant isolation of [getAssessment] and [listAssessments]. *)
Definition checkTenant (user : CognitoUserAttributes.t) (requestedTenantId : option string)
    : Handler unit :=
  do* throwIf (negb (bool_decide (is_Some requestedTenantId)) && negb (hasRole user ADMIN))
        (ValidationError "Tenant ID required") in
  match requestedTenantId with
  | Some t =>
      throwIf (negb (hasRole user ADMIN) && negb (belongsToTenant user t))
              (TenantIsolationError "Access denied: tenant isolation violation")
  | None => ret tt
  end.

(** The body of the [try] block of [getAssessment]. *)
Definition getAssessment_try (event : ReadEvent.t) (getUserFromToken : TokenVerifier)
    : Handler Assessment.t :=
  let* user := authorize (ReadEvent.authorization event) getUserFromToken in
  do* throwIf (blank (ReadEvent.assessmentId event))
        (ValidationError "Assessment ID required") in
  let assessmentId := default "" (ReadEvent.assessmentId event) in
  let tenantId := getTenantId user in
  do* throwIf (negb (bool_decide (is_Some tenantId)) && negb (hasRole user ADMIN))
        (ValidationError "Tenant ID required") in
  let requestedTenantId := requestedTenantIdOf (ReadEvent.tenantId event) tenantId in
  do* checkTenant user requestedTenantId in
  let* assessment :=
    match requestedTenantId with
    | Some t => getItem Store.ASSESSMENTS t assessmentId
    | None =>
        let* items :=
          scanTable Store.ASSESSMENTS
            (fun item => bool_decide (Assessment.assessmentId item = assessmentId)) in
        ret (head items)
    end in
  match assessment with
  | None => throw (ValidationError "Assessment not found")
  | Some assessment => ret assessment
  end.

Definition getAssessment (event : ReadEvent.t) (getUserFromToken : TokenVerifier)
    : Store.t -> Store.t * APIGatewayProxyResult Assessment.t :=
  respond 200 (getAssessment_try event getUserFromToken).

(** The body of the [try] block of [listAssessments]. *)
Definition listAssessments_try (event : ReadEvent.t) (getUserFromToken : TokenVerifier)
    : Handler (list Assessment.t) :=
  let* user := authorize (ReadEvent.authorization event) getUserFromToken in
  let tenantId := getTenantId user in
  let requestedTenantId := requestedTenantIdOf (ReadEvent.tenantId event) tenantId in
  do* checkTenant user requestedTenantId in
  let* assessments :=
    match requestedTenantId with
    | Some t => queryByPartitionKey Store.ASSESSMENTS t
    | None => scanTable Store.ASSESSMENTS (fun _ => true)
    end in
  let activeOnly := bool_decide (ReadEvent.activeOnly event = Some "true") in
  let filtered :=
    if activeOnly then List.filter Assessment.isActive assessments else assessments in
  ret filtered.

Definition listAssessments (event : ReadEvent.t) (getUserFromToken : TokenVerifier)
    : Store.t -> Store.t * APIGatewayProxyResult (list Assessment.t) :=
  respond 200 (listAssessments_try event getUserFromToken).

(** ** src/lambda/handlers/sessions.ts: starting and reading a session *)

(** Without a tenant id the code scans the table for the assessment id and
    takes the first item; the assessment that it returns then carries the
    trimmed tenant id and neither [maxQuestions] nor [passThreshold]. *)
Definition findAssessmentById (assessmentId : string) (tenantId : option string)
    : Handler (option Assessment.t) :=
  match truthyString tenantId with
  | Some t => getItem Store.ASSESSMENTS t assessmentId
  | None =>
      let* items :=
        scanTable Store.ASSESSMENTS
          (fun item => bool_decide (Assessment.assessmentId item = assessmentId)) in
      match head items with
      | None => ret None
      | Some item =>
          let extractedTenantId := Assessment.tenantId item in
          do* throwIf (bool_decide (extractedTenantId = "")
                       || bool_decide (trim extractedTenantId = ""))
                (ValidationError
                   ("Assessment " ++ assessmentId
                    ++ " has invalid or empty tenantId. Please contact support to fix this assessment.")) in
          let validTenantId := trim extractedTenantId in
          do* throwIf (bool_decide (validTenantId = ""))
                (ValidationError
                   ("Assessment " ++ assessmentId
                    ++ " has empty tenantId. Please contact support to fix this assessment.")) in
          ret (Some {| Assessment.assessmentId := Assessment.assessmentId item;
                       Assessment.tenantId := validTenantId;
                       Assessment.title := Assessment.title item;
                       Assessment.description := Assessment.description item;
                       Assessment.targetRole := Assessment.targetRole item;
                       Assessment.knowledgeAreaMix := Assessment.knowledgeAreaMix item;
                       Assessment.initialDifficulty := Assessment.initialDifficulty item;
                       Assessment.durationMinutes := Assessment.durationMinutes item;
                       Assessment.maxQuestions := None;
                       Assessment.passThreshold := None;
                       Assessment.createdAt := Assessment.createdAt item;
                       Assessment.updatedAt := Assessment.updatedAt item;
                       Assessment.createdBy := Assessment.createdBy item;
                       Assessment.isActive := Assessment.isActive item |})
      end
  end.

Module StartBody.
Record t := mk {
  assessmentId : option string;
  candidateEmail : option string;
  candidateName : option string;
  tenantId : option string
}.
End StartBody.

Module StartResult.
Record t := mk {
  sessionId : string;
  assessmentId : string;
  startedAt : string
}.
End StartResult.

(** The tenant of a new session: the trimmed tenant id of the request, or
    else the trimmed tenant id of the assessment; [None] when both are blank. *)
Definition sessionTenantIdOf (bodyTenantId : option string) (assessment : Assessment.t)
    : option string :=
  let ofAssessment :=
    if negb (bool_decide (Assessment.tenantId assessment = ""))
       && negb (bool_decide (trim (Assessment.tenantId assessment) = ""))
    then Some (trim (Assessment.tenantId assessment))
    else None in
  match truthyString bodyTenantId with
  | Some t => if negb (bool_decide (trim t = "")) then Some (trim t) else ofAssessment
  | None => ofAssessment
  end.

(** [assessment.knowledgeAreaMix.forEach(config =>
      initialDifficulties[config.area] = assessment.initialDifficulty)] *)
Definition initialDifficulties (assessment : Assessment.t)
    : gmap KnowledgeArea DifficultyLevel :=
  foldl (fun (initialDifficulties : gmap KnowledgeArea DifficultyLevel) config =>
           <[KnowledgeAreaConfig.area config := Assessment.initialDifficulty assessment]>
             initialDifficulties)
        ∅ (Assessment.knowledgeAreaMix assessment).

(** The body of the [try] block of [startSession]. [body] is the parsed
    request body, or the message of the SyntaxError of [JSON.parse]; [uuid]
    is the fresh identifier and [now] the clock. *)
Definition startSession_try (body : string + StartBody.t) (uuid now : string)
    : Handler StartResult.t :=
  match body with
  | inl message => throw (OtherError message)
  | inr body =>
    do* throwIf (blank (StartBody.assessmentId body))
          (ValidationError "Assessment ID required") in
    let assessmentId := default "" (StartBody.assessmentId body) in
    let bodyTenantId := StartBody.tenantId body in
    let* found := findAssessmentById assessmentId bodyTenantId in
    match found with
    | None => throw (NotFoundError "Assessment")
    | Some assessment =>
      do* throwIf (negb (Assessment.isActive assessment))
            (ValidationError "Assessment is not active") in
      match sessionTenantIdOf bodyTenantId assessment with
      | None =>
          throw (ValidationError "Assessment configuration error: tenantId is missing. Please contact the assessment administrator or use a link with tenantId included.")
      | Some sessionTenantId =>
        do* throwIf (invalidTenantId sessionTenantId)
              (ValidationError
                 ("Cannot create session: tenantId is empty after validation. Assessment ID: "
                  ++ Assessment.assessmentId assessment)) in
        let sessionId := uuid in
        do* throwIf (invalidTenantId sessionTenantId)
              (ValidationError
                 ("Cannot create session: tenantId is empty. Assessment ID: " ++ assessmentId
                  ++ ", Request tenantId: " ++ default "undefined" bodyTenantId
                  ++ ", Assessment tenantId: " ++ Assessment.tenantId assessment)) in
        do* throwIf (bool_decide (sessionId = "") || bool_decide (trim sessionId = ""))
              (ValidationError "Cannot create session: sessionId is empty") in
        do* putItem setSESSIONS sessionTenantId sessionId
              (fun storedTenantId =>
                 {| CandidateSession.sessionId := sessionId;
                    CandidateSession.assessmentId := dropBlank assessmentId;
                    CandidateSession.tenantId := storedTenantId;
                    CandidateSession.candidateEmail :=
                      dropBlankOpt (StartBody.candidateEmail body);
                    CandidateSession.candidateName :=
                      dropBlankOpt (StartBody.candidateName body);
                    CandidateSession.startedAt := dropBlank now;
                    CandidateSession.submittedAt := None;
                    CandidateSession.currentDifficulty := initialDifficulties assessment;
                    CandidateSession.questionsAnswered := [];
                    CandidateSession.status := IN_PROGRESS;
                    CandidateSession.currentQuestion := None |}) in
        ret {| StartResult.sessionId := sessionId;
               StartResult.assessmentId := assessmentId;
               StartResult.startedAt := now |}
      end
    end
  end.

Definition startSession (body : string + StartBody.t) (uuid now : string)
    : Store.t -> Store.t * APIGatewayProxyResult StartResult.t :=
  respond 201 (startSession_try body uuid now).

Module ResultsEvent.
Record t := mk {
  authorization : option string;    (* headers.Authorization || headers.authorization *)
  sessionId : option string         (* pathParameters.sessionId *)
}.
End ResultsEvent.

Module SessionResults.
Record t := mk {
  session : CandidateSession.t;
  metrics : option MetricsItem.t;
  insights : option AIInsight.t
}.
End SessionResults.

(** The body of the [try] block of [getSession]; the session is searched
    without a tenant id. *)
Definition getSession_try (event : ResultsEvent.t) (getUserFromToken : TokenVerifier)
    : Handler SessionResults.t :=
  let* user := authorize (ResultsEvent.authorization event) getUserFromToken in
  do* throwIf (blank (ResultsEvent.sessionId event)) (ValidationError "Session ID required") in
  let sessionId := default "" (ResultsEvent.sessionId event) in
  let* found := findSessionById sessionId None in
  match found with
  | None => throw (NotFoundError "Session")
  | Some session =>
      do* throwIf (negb (hasRole user ADMIN)
                   && negb (belongsToTenant user (CandidateSession.tenantId session)))
            (TenantIsolationError "Access denied: tenant isolation violation") in
      let* metrics := getItem Store.METRICS (CandidateSession.tenantId session) sessionId in
      let* insights := getItem Store.INSIGHTS (CandidateSession.tenantId session) sessionId in
      ret {| SessionResults.session := session;
             SessionResults.metrics := metrics;
             SessionResults.insights := insights |}
  end.

Definition getSession (event : ResultsEvent.t) (getUserFromToken : TokenVerifier)
    : Store.t -> Store.t * APIGatewayProxyResult SessionResults.t :=
  respond 200 (getSession_try event getUserFromToken).

(** * The notions of the specification *)

(** The responses of the log that belong to an area. *)
Definition responsesOf (a : KnowledgeArea) (log : list QuestionResponse.t)
    : list QuestionResponse.t :=
  List.filter (inArea a) log.

Definition answeredInArea (a : KnowledgeArea) (log : list QuestionResponse.t) : nat :=
  length (responsesOf a log).

Definition correctInArea (a : KnowledgeArea) (log : list QuestionResponse.t) : nat :=
  length (List.filter QuestionResponse.isCorrect (responsesOf a log)).

(** The last [n] elements of a list, counted from its end. *)
Definition lastN {A : Type} (n : nat) (l : list A) : list A := rev (firstn n (rev l)).

(** Section 4.2: [recentAccuracy = correct / window] over the last [window]
    responses of the area, with the window of 3. *)
Definition recentAccuracy (a : KnowledgeArea) (log : list QuestionResponse.t) : Q :=
  (num (length (List.filter QuestionResponse.isCorrect (lastN 3 (responsesOf a log)))) / 3)%Q.

(** Section 4.1: the deficit of a configured area is its target percentage
    minus [answeredInArea / totalAnswered * 100], the latter taken as 0 when
    nothing is answered yet. *)
Definition deficit (log : list QuestionResponse.t) (config : KnowledgeAreaConfig.t) : Q :=
  (KnowledgeAreaConfig.percentage config
   - (if (0 <? length log)%nat
      then num (answeredInArea (KnowledgeAreaConfig.area config) log)
           / num (length log) * 100
      else 0))%Q.

(** The entry that the Selector pushes for an area under its target. *)
Definition underTarget (log : list QuestionResponse.t) (config : KnowledgeAreaConfig.t)
    : KnowledgeArea * Q :=
  (KnowledgeAreaConfig.area config, deficit log config).


(** Section 3: the percentages of a mix sum to 100 within 0.01. *)
Definition sumsTo100 (mix : list KnowledgeAreaConfig.t) : Prop :=
  (Qabs (Qsum (List.map KnowledgeAreaConfig.percentage mix) - 100) <= 1 # 100)%Q.




(** Section 4.3, step 1: the score of an area is [correct / answered * 100]. *)
Definition areaScoreOf (a : KnowledgeArea) (log : list QuestionResponse.t) : Q :=
  (num (correctInArea a log) / num (answeredInArea a log) * 100)%Q.

(** Section 4.3, step 3: the boost of a role-critical area. *)
Definition roleBoost (seniorityLevel : SeniorityLevel) (a : KnowledgeArea) : Q :=
  match seniorityLevel with
  | SENIOR | LEAD =>
      match a with
      | SYSTEM_SCENARIO_DESIGN => 15 # 10
      | ALGORITHMS_DATA_STRUCTURES => 13 # 10
      | _ => 1
      end
  | JUNIOR | MID =>
      match a with
      | PROGRAMMING_LANGUAGE => 15 # 10
      | ANALYTICAL_REASONING => 13 # 10
      | _ => 1
      end
  end.

(** The boosted weight of a configured area: its percentage times its boost. *)
Definition roleWeight (seniorityLevel : SeniorityLevel) (config : KnowledgeAreaConfig.t) : Q :=
  (KnowledgeAreaConfig.percentage config
   * roleBoost seniorityLevel (KnowledgeAreaConfig.area config))%Q.

(** The configured areas that have at least one answer in the log. *)
Definition answeredConfigs (mix : list KnowledgeAreaConfig.t)
    (log : list QuestionResponse.t) : list KnowledgeAreaConfig.t :=
  List.filter (fun config => (0 <? answeredInArea (KnowledgeAreaConfig.area config) log)%nat)
              mix.

Definition Qtotal (l : list Q) : Q := fold_right Qplus 0%Q l.

(** The sum of the boosted weights of the answered areas. *)
Definition roleFitWeight (assessment : Assessment.t) (log : list QuestionResponse.t) : Q :=
  Qtotal (List.map
            (roleWeight (TargetRole.seniorityLevel (Assessment.targetRole assessment)))
            (answeredConfigs (Assessment.knowledgeAreaMix assessment) log)).

(** Section 4.3, step 3: the mean of the scores of the answered areas,
    weighted by the boosted weights and renormalized by their sum. *)
Definition roleFitMean (assessment : Assessment.t) (log : list QuestionResponse.t) : Q :=
  (Qtotal (List.map
             (fun config =>
                areaScoreOf (KnowledgeAreaConfig.area config) log
                * roleWeight (TargetRole.seniorityLevel (Assessment.targetRole assessment))
                             config)
             (answeredConfigs (Assessment.knowledgeAreaMix assessment) log))
   / roleFitWeight assessment log)%Q.



(** The request [event] is an answer that [submitAnswer] accepts: it is
    complete, it names the session [session], which the store holds under
    the tenant [t] and the id [sessionId] and which is IN_PROGRESS, and its
    question is resolved to [question] and is not yet in the answer log. *)
Record AcceptedAnswer (st : Store.t) (event : AnswerEvent.t)
    (t sessionId questionId : string) (answer : Answer) (timeSpentSeconds : Q)
    (session : CandidateSession.t) (question : Question.t) : Prop := {
  accepted_sessionId : AnswerEvent.sessionId event = Some sessionId;
  accepted_sessionId_given : sessionId <> "";
  accepted_questionId : AnswerEvent.questionId event = Some questionId;
  accepted_questionId_given : questionId <> "";
  accepted_answer : AnswerEvent.answer event = Some answer;
  accepted_timeSpentSeconds : AnswerEvent.timeSpentSeconds event = Some timeSpentSeconds;
  accepted_tenantId : AnswerEvent.tenantId event = Some t;
  accepted_session : Store.SESSIONS st !! (t, sessionId) = Some session;
  accepted_status : CandidateSession.status session = IN_PROGRESS;
  accepted_session_tenantId : CandidateSession.tenantId session = t;
  accepted_tenantId_given : t <> "";
  accepted_tenantId_trimmed : trim t = t;
  accepted_question : resolveQuestion session questionId st = (st, Return (Some question));
  accepted_fresh : answered questionId (CandidateSession.questionsAnswered session) = false
}.

(** The sum of the percentages of the answered areas of a mix. *)
Definition overallWeight (mix : list KnowledgeAreaConfig.t)
    (log : list QuestionResponse.t) : Q :=
  Qtotal (List.map KnowledgeAreaConfig.percentage (answeredConfigs mix log)).

(** The mean of the scores of the answered areas, weighted by their
    percentages and renormalized by the sum of these. *)
Definition overallMean (mix : list KnowledgeAreaConfig.t)
    (log : list QuestionResponse.t) : Q :=
  (Qtotal (List.map
             (fun config =>
                areaScoreOf (KnowledgeAreaConfig.area config) log
                * KnowledgeAreaConfig.percentage config)
             (answeredConfigs mix log))
   / overallWeight mix log)%Q.

(** The scores of the areas of an object that have an answer. *)
Definition answeredScores (areaScores : JsObject AreaScore.t) : list Q :=
  List.map AreaScore.score
    (List.filter (fun s => (0 <? AreaScore.questionsAnswered s)%nat)
                 (List.map snd areaScores)).


(** * Invariants of the store *)

(** Every session is stored under its own tenant id and session id, and
    the tenant id is trimmed and not empty, as [putItem] writes it. *)
Definition consistentSessions (st : Store.t) : Prop :=
  forall t sessionId session,
    Store.SESSIONS st !! (t, sessionId) = Some session ->
    CandidateSession.tenantId session = t
    /\ CandidateSession.sessionId session = sessionId
    /\ trim t = t /\ t <> "".

(** The difficulties of every session lie in 1..5. *)
Definition difficultiesInRange (st : Store.t) : Prop :=
  forall key session a d,
    Store.SESSIONS st !! key = Some session ->
    CandidateSession.currentDifficulty session !! a = Some d -> 1 <= d <= 5.

(** No session has two answers to the same question. *)
Definition distinctAnswers (st : Store.t) : Prop :=
  forall key session,
    Store.SESSIONS st !! key = Some session ->
    List.NoDup (List.map QuestionResponse.questionId
                  (CandidateSession.questionsAnswered session)).

(** The store after a successful [submitSession]: the metrics and, when
    there are any, the insights are written, and the session is marked. *)
Definition submitted (session : CandidateSession.t) (assessment : Assessment.t)
    (generateInsights : InsightsProvider) (sessionId now now' : string) (st : Store.t)
    : Store.t :=
  let t := trim (CandidateSession.tenantId session) in
  let metrics := calculatePerformanceMetrics session assessment now in
  let withMetrics :=
    setMETRICS (insert (t, PerformanceMetrics.sessionId metrics) (metricsItem metrics t)) st in
  let withInsights :=
    match generateInsights metrics assessment with
    | Some generated =>
        setINSIGHTS (insert (t, AIInsight.sessionId generated) (insightsItem generated t))
                    withMetrics
    | None => withMetrics
    end in
  setSESSIONS (alter (setCompleted now') (t, sessionId)) withInsights.

(** The session that [startSession] stores for an assessment. *)
Definition startedSession (body : StartBody.t) (assessment : Assessment.t)
    (tenantId sessionId now : string) : CandidateSession.t :=
  {| CandidateSession.sessionId := sessionId;
     CandidateSession.assessmentId := dropBlank (default "" (StartBody.assessmentId body));
     CandidateSession.tenantId := tenantId;
     CandidateSession.candidateEmail := dropBlankOpt (StartBody.candidateEmail body);
     CandidateSession.candidateName := dropBlankOpt (StartBody.candidateName body);
     CandidateSession.startedAt := dropBlank now;
     CandidateSession.submittedAt := None;
     CandidateSession.currentDifficulty := initialDifficulties assessment;
     CandidateSession.questionsAnswered := [];
     CandidateSession.status := IN_PROGRESS;
     CandidateSession.currentQuestion := None |}.

(** The initial difficulty of every assessment lies in 1..5. *)
Definition initialDifficultiesInRange (st : Store.t) : Prop :=
  forall key assessment,
    Store.ASSESSMENTS st !! key = Some assessment ->
    1 <= Assessment.initialDifficulty assessment <= 5.

(** * Sample data *)

Definition sampleResponse (questionId : string) (a : KnowledgeArea)
    (difficulty : DifficultyLevel) (isCorrect : bool) : QuestionResponse.t :=
  {| QuestionResponse.questionId := questionId;
     QuestionResponse.knowledgeArea := a;
     QuestionResponse.difficulty := difficulty;
     QuestionResponse.answer := AnswerString "A";
     QuestionResponse.isCorrect := isCorrect;
     QuestionResponse.timeSpentSeconds := 30%Q;
     QuestionResponse.answeredAt := "2024-05-01T10:00:00.000Z";
     QuestionResponse.questionText := None;
     QuestionResponse.questionType := None;
     QuestionResponse.options := None;
     QuestionResponse.correctAnswer := None;
     QuestionResponse.explanation := None |}.

(** Three correct answers in one area, with an answer of another area
    between them. *)
Definition threeCorrect : list QuestionResponse.t :=
  [ sampleResponse "q1" ALGORITHMS_DATA_STRUCTURES 3 true;
    sampleResponse "q2" PROGRAMMING_LANGUAGE 3 false;
    sampleResponse "q3" ALGORITHMS_DATA_STRUCTURES 3 true;
    sampleResponse "q4" ALGORITHMS_DATA_STRUCTURES 3 true ].

Definition sampleMix : list KnowledgeAreaConfig.t :=
  [ {| KnowledgeAreaConfig.area := ALGORITHMS_DATA_STRUCTURES;
       KnowledgeAreaConfig.percentage := 60;
       KnowledgeAreaConfig.programmingLanguage := None |};
    {| KnowledgeAreaConfig.area := PROGRAMMING_LANGUAGE;
       KnowledgeAreaConfig.percentage := 40;
       KnowledgeAreaConfig.programmingLanguage := Some "Python" |} ].

(** An assessment with a cap of three questions. *)
Definition sampleAssessment : Assessment.t :=
  {| Assessment.assessmentId := "a1";
     Assessment.tenantId := "acme";
     Assessment.title := "Backend engineer";
     Assessment.description := None;
     Assessment.targetRole :=
       {| TargetRole.name := "Backend engineer"; TargetRole.seniorityLevel := SENIOR |};
     Assessment.knowledgeAreaMix := sampleMix;
     Assessment.initialDifficulty := 3;
     Assessment.durationMinutes := None;
     Assessment.maxQuestions := Some 3%Q;
     Assessment.passThreshold := None;
     Assessment.createdAt := "2024-05-01T09:00:00.000Z";
     Assessment.updatedAt := "2024-05-01T09:00:00.000Z";
     Assessment.createdBy := "user-1";
     Assessment.isActive := true |}.

Definition sampleQuestion (questionId : string) (a : KnowledgeArea) : Question.t :=
  {| Question.questionId := questionId;
     Question.questionText := "Which option is right?";
     Question.questionType := MCQ;
     Question.knowledgeArea := a;
     Question.difficulty := 3;
     Question.options := Some ["A"; "B"; "C"; "D"];
     Question.correctAnswer := AnswerString "A";
     Question.explanation := "A is right." |}.

Definition sampleSession (status : SessionStatus) (log : list QuestionResponse.t)
    (currentQuestion : option Question.t) : CandidateSession.t :=
  {| CandidateSession.sessionId := "s1";
     CandidateSession.assessmentId := "a1";
     CandidateSession.tenantId := "acme";
     CandidateSession.candidateEmail := None;
     CandidateSession.candidateName := None;
     CandidateSession.startedAt := "2024-05-01T09:30:00.000Z";
     CandidateSession.submittedAt := None;
     CandidateSession.currentDifficulty :=
       {[ ALGORITHMS_DATA_STRUCTURES := 3; PROGRAMMING_LANGUAGE := 3 ]};
     CandidateSession.questionsAnswered := log;
     CandidateSession.status := status;
     CandidateSession.currentQuestion := currentQuestion |}.

(** A store with one session of the tenant "acme", its assessment, and four
    pre-generated questions: three on algorithms and one on programming. *)
Definition sampleStore (session : CandidateSession.t) : Store.t :=
  {| Store.SESSIONS := {[ ("acme", "s1") := session ]};
     Store.QUESTIONS :=
       {[ ("acme", "a1#q1") := sampleQuestion "q1" ALGORITHMS_DATA_STRUCTURES;
          ("acme", "a1#q2") := sampleQuestion "q2" ALGORITHMS_DATA_STRUCTURES;
          ("acme", "a1#q3") := sampleQuestion "q3" ALGORITHMS_DATA_STRUCTURES;
          ("acme", "a1#q4") := sampleQuestion "q4" PROGRAMMING_LANGUAGE ]};
     Store.ASSESSMENTS := {[ ("acme", "a1") := sampleAssessment ]};
     Store.METRICS := ∅;
     Store.INSIGHTS := ∅ |}.

Definition sampleSessionEvent (sessionId : string) : SessionEvent.t :=
  {| SessionEvent.sessionId := Some sessionId;
     SessionEvent.tenantId := Some "acme" |}.

(** The candidate answers [questionId] of the session "s1" with "a". *)
Definition sampleAnswerEvent (questionId : string) : AnswerEvent.t :=
  {| AnswerEvent.sessionId := Some "s1";
     AnswerEvent.tenantId := Some "acme";
     AnswerEvent.questionId := Some questionId;
     AnswerEvent.answer := Some (AnswerString "a");
     AnswerEvent.timeSpentSeconds := Some 20%Q |}.

Definition noInsights : InsightsProvider := fun _ _ => None.

(** Five answers, all on algorithms. *)
Definition fiveInAlgorithms : list QuestionResponse.t :=
  [ sampleResponse "q1" ALGORITHMS_DATA_STRUCTURES 3 true;
    sampleResponse "q2" ALGORITHMS_DATA_STRUCTURES 3 false;
    sampleResponse "q3" ALGORITHMS_DATA_STRUCTURES 3 true;
    sampleResponse "q4" ALGORITHMS_DATA_STRUCTURES 3 false;
    sampleResponse "q5" ALGORITHMS_DATA_STRUCTURES 3 true ].

Definition sampleClock : string := "2024-05-01T10:00:00.000Z".

Definition answerSample (questionId : string) (st : Store.t)
    : Store.t * APIGatewayProxyResult AnswerResult.t :=
  submitAnswer (sampleAnswerEvent questionId) sampleClock st.

(** The sample store of a fresh session after the given questions have been
    answered in turn. *)
Definition storeAfter (questionIds : list string) : Store.t :=
  foldl (fun st questionId => fst (answerSample questionId st))
        (sampleStore (sampleSession IN_PROGRESS [] None)) questionIds.

(** The difficulty that the store holds for an area of a session. *)
Definition storedDifficulty (st : Store.t) (tenantId sessionId : string)
    (a : KnowledgeArea) : option DifficultyLevel :=
  Store.SESSIONS st !! (tenantId, sessionId)
    ≫= fun session => CandidateSession.currentDifficulty session !! a.

(** The answer log that the store holds for a session. *)
Definition storedLog (st : Store.t) (tenantId sessionId : string)
    : option (list QuestionResponse.t) :=
  CandidateSession.questionsAnswered <$> Store.SESSIONS st !! (tenantId, sessionId).

(** The session "s1" of the tenant "acme" in a store. *)
Definition sampleSessionOf (st : Store.t) : CandidateSession.t :=
  default (sampleSession IN_PROGRESS [] None) (Store.SESSIONS st !! ("acme", "s1")).

(** The sample store after one answer, and after the three answers on
    algorithms, which reach the cap of the sample assessment. *)
Definition oneAnswered : Store.t := storeAfter ["q1"].
Definition threeAnswered : Store.t := storeAfter ["q1"; "q2"; "q3"].

(** A question that the provider generates, and a provider that returns it. *)
Definition generatedQuestion : Question.t := sampleQuestion "gen-1" PROGRAMMING_LANGUAGE.

Definition sampleProvider : QuestionProvider := fun _ _ _ _ => inr generatedQuestion.

(** A tenant user, and a verifier that accepts the token "token-1". *)
Definition sampleUser : CognitoUserAttributes.t :=
  {| CognitoUserAttributes.sub := "user-1";
     CognitoUserAttributes.email := "owner@acme.example";
     CognitoUserAttributes.tenantId := Some "acme";
     CognitoUserAttributes.role := TENANT |}.

Definition sampleVerifier : TokenVerifier :=
  fun token =>
    if bool_decide (token = "token-1") then inr sampleUser
    else inl (OtherError "NotAuthorizedException").

(** A request to create an assessment with the sample mix, a cap of 10 and
    the given initial difficulty. *)
Definition sampleCreateEvent (initialDifficulty : option DifficultyLevel)
    : AssessmentEvent.t :=
  {| AssessmentEvent.authorization := Some "Bearer token-1";
     AssessmentEvent.body :=
       Some {| AssessmentBody.title := Some "Backend engineer";
               AssessmentBody.description := None;
               AssessmentBody.targetRole :=
                 Some {| TargetRole.name := "Backend engineer";
                         TargetRole.seniorityLevel := SENIOR |};
               AssessmentBody.knowledgeAreaMix := FieldArray sampleMix;
               AssessmentBody.initialDifficulty := initialDifficulty;
               AssessmentBody.durationMinutes := None;
               AssessmentBody.maxQuestions := NumberValue 10;
               AssessmentBody.tenantId := None |} |}.

Definition emptyStore : Store.t :=
  {| Store.SESSIONS := ∅; Store.QUESTIONS := ∅; Store.ASSESSMENTS := ∅;
     Store.METRICS := ∅; Store.INSIGHTS := ∅ |}.

(** The example of section 8: a SENIOR role, the mix systems 40,
    algorithms 30, other 30, and the area scores 90, 80 and 50. *)
Definition seniorRole : TargetRole.t :=
  {| TargetRole.name := "Staff engineer"; TargetRole.seniorityLevel := SENIOR |}.

Definition seniorMix (other : KnowledgeArea) : list KnowledgeAreaConfig.t :=
  [ {| KnowledgeAreaConfig.area := SYSTEM_SCENARIO_DESIGN;
       KnowledgeAreaConfig.percentage := 40;
       KnowledgeAreaConfig.programmingLanguage := None |};
    {| KnowledgeAreaConfig.area := ALGORITHMS_DATA_STRUCTURES;
       KnowledgeAreaConfig.percentage := 30;
       KnowledgeAreaConfig.programmingLanguage := None |};
    {| KnowledgeAreaConfig.area := other;
       KnowledgeAreaConfig.percentage := 30;
       KnowledgeAreaConfig.programmingLanguage := None |} ].

Definition scoreOf (score : Q) (questionsAnswered correctAnswers : nat) : AreaScore.t :=
  {| AreaScore.score := score;
     AreaScore.questionsAnswered := questionsAnswered;
     AreaScore.correctAnswers := correctAnswers;
     AreaScore.avgDifficultyReached := 3;
     AreaScore.avgTimePerQuestion := 30 |}.

Definition seniorScores (other : KnowledgeArea) : JsObject AreaScore.t :=
  [ (SYSTEM_SCENARIO_DESIGN, scoreOf 90 10 9);
    (ALGORITHMS_DATA_STRUCTURES, scoreOf 80 5 4);
    (other, scoreOf 50 2 1) ].



(** A log with the scores of the example: 9 of 10 on systems, 4 of 5 on
    algorithms, 1 of 2 on quantitative reasoning. *)
Definition numbered (prefix : string) (a : KnowledgeArea) (outcomes : list bool)
    : list QuestionResponse.t :=
  imap (fun i isCorrect =>
          sampleResponse (prefix ++ String (ascii_of_nat (97 + i)) "") a 3 isCorrect)
       outcomes.

Definition seniorLog : list QuestionResponse.t :=
  (numbered "s" SYSTEM_SCENARIO_DESIGN
            [true; true; true; false; true; true; true; true; true; true]
   ++ numbered "a" ALGORITHMS_DATA_STRUCTURES [true; true; false; true; true]
   ++ numbered "m" QUANTITATIVE_MATH [false; true])%list.

Definition seniorAssessment : Assessment.t :=
  {| Assessment.assessmentId := "a2";
     Assessment.tenantId := "acme";
     Assessment.title := "Staff engineer";
     Assessment.description := None;
     Assessment.targetRole := seniorRole;
     Assessment.knowledgeAreaMix := seniorMix QUANTITATIVE_MATH;
     Assessment.initialDifficulty := 3;
     Assessment.durationMinutes := None;
     Assessment.maxQuestions := Some 20%Q;
     Assessment.passThreshold := None;
     Assessment.createdAt := "2024-05-01T09:00:00.000Z";
     Assessment.updatedAt := "2024-05-01T09:00:00.000Z";
     Assessment.createdBy := "user-1";
     Assessment.isActive := true |}.

(** A second log whose last three answers on algorithms are those of
    [threeCorrect], after an earlier wrong one. *)
Definition fourOnAlgorithms : list QuestionResponse.t :=
  [ sampleResponse "p1" ALGORITHMS_DATA_STRUCTURES 2 false;
    sampleResponse "p2" ALGORITHMS_DATA_STRUCTURES 2 true;
    sampleResponse "p3" QUANTITATIVE_MATH 3 false;
    sampleResponse "p4" ALGORITHMS_DATA_STRUCTURES 3 true;
    sampleResponse "p5" ALGORITHMS_DATA_STRUCTURES 4 true ].


(** A request to start a session on the sample assessment. *)
Definition sampleStartBody : StartBody.t :=
  {| StartBody.assessmentId := Some "a1";
     StartBody.candidateEmail := Some "candidate@example.org";
     StartBody.candidateName := None;
     StartBody.tenantId := Some "acme" |}.

(** * Properties *)

Arguments findSessionById : simpl never.
Arguments resolveQuestion : simpl never.
Arguments updateSessionDifficulties : simpl never.
Arguments checkAnswer : simpl never.
Arguments invalidTenantId : simpl never.
Arguments trim : simpl never.
Arguments number_or : simpl never.
Arguments calculatePerformanceMetrics : simpl never.
Arguments selectNextKnowledgeArea : simpl never.


(** ** Difficulty Adjuster *)

Lemma Qle_bool_false (x y : Q) : Qle_bool x y = false -> ~ (x <= y)%Q.
Proof.
  intros Hb Hle. apply Qle_bool_iff in Hle. congruence.
Qed.

Lemma Qlt_bool_true (x y : Q) : Qlt_bool x y = true -> (x < y)%Q.
Proof.
  unfold Qlt_bool. intros Hb. apply Qnot_le_lt. apply Qle_bool_false.
  destruct (Qle_bool y x); [discriminate | reflexivity].
Qed.

Lemma Qlt_bool_false (x y : Q) : Qlt_bool x y = false -> ~ (x < y)%Q.
Proof.
  unfold Qlt_bool. intros Hb Hlt. apply Qlt_not_le in Hlt. apply Hlt.
  apply Qle_bool_iff. destruct (Qle_bool y x); [reflexivity | discriminate].
Qed.

Lemma slice_last_lastN {A : Type} (n : nat) (l : list A) : slice_last n l = lastN n l.
Proof.
  unfold slice_last, lastN. rewrite firstn_rev, rev_involutive. reflexivity.
Qed.

Lemma slice_last_length {A : Type} (n : nat) (l : list A) :
  (n <= length l)%nat -> length (slice_last n l) = n.
Proof.
  intros Hn. unfold slice_last. rewrite length_skipn. lia.
Qed.

Lemma filter_length_le {A : Type} (f : A -> bool) (l : list A) :
  (length (List.filter f l) <= length l)%nat.
Proof.
  induction l as [|x l IH]; simpl; [lia|]. destruct (f x); simpl; lia.
Qed.

(** The four values that the recent accuracy of a full window can take, and
    on which side of the two thresholds each lies. *)
Lemma window_accuracy_cases (k : nat) :
  (k <= 3)%nat ->
  let acc := (num k / num 3)%Q in
  (k = 3%nat /\ Qle_bool DIFFICULTY_INCREASE_THRESHOLD acc = true
             /\ Qlt_bool acc DIFFICULTY_DECREASE_THRESHOLD = false)
  \/ (k = 2%nat /\ Qle_bool DIFFICULTY_INCREASE_THRESHOLD acc = false
               /\ Qlt_bool acc DIFFICULTY_DECREASE_THRESHOLD = false)
  \/ ((k <= 1)%nat /\ Qle_bool DIFFICULTY_INCREASE_THRESHOLD acc = false
                  /\ Qlt_bool acc DIFFICULTY_DECREASE_THRESHOLD = true).
Proof.
  intros Hk acc. subst acc.
  destruct k as [|[|[|[|k]]]]; try lia.
  - right; right. split; [lia | split; reflexivity].
  - right; right. split; [lia | split; reflexivity].
  - right; left. split; [reflexivity | split; reflexivity].
  - left. split; [reflexivity | split; reflexivity].
Qed.

(** C1. With fewer than 3 responses in the area the difficulty is returned
    unchanged; otherwise, with recentAccuracy = correct/3 over the last 3
    responses of the area, the result is difficulty+1 when recentAccuracy >=
    0.8 and difficulty < 5, difficulty-1 when recentAccuracy < 0.4 and
    difficulty > 1, and the difficulty itself in every other case. For a
    difficulty in 1..5 the result stays in 1..5 and differs from the input
    by at most 1. *)
Theorem calculateNextDifficulty_correct
    (d : DifficultyLevel) (a : KnowledgeArea) (log : list QuestionResponse.t) :
  1 <= d <= 5 ->
  let d' := calculateNextDifficulty d a log in
  let acc := recentAccuracy a log in
  ((answeredInArea a log < 3)%nat -> d' = d)
  /\ ((3 <= answeredInArea a log)%nat ->
        ((8 # 10 <= acc)%Q /\ d < 5 -> d' = d + 1)
        /\ ((acc < 4 # 10)%Q /\ d > 1 -> d' = d - 1)
        /\ (~ ((8 # 10 <= acc)%Q /\ d < 5) -> ~ ((acc < 4 # 10)%Q /\ d > 1) -> d' = d))
  /\ 1 <= d' <= 5
  /\ Z.abs (d' - d) <= 1.
Proof.
  intros Hd d' acc.
  unfold answeredInArea.
  assert (Hshort : (length (responsesOf a log) < 3)%nat -> d' = d).
  { intros Hlt. subst d'. unfold calculateNextDifficulty.
    fold (responsesOf a log).
    apply Nat.ltb_lt in Hlt. unfold DIFFICULTY_STABLE_WINDOW. rewrite Hlt. reflexivity. }
  destruct (Nat.lt_ge_cases (length (responsesOf a log)) 3) as [Hlt | Hge].
  - specialize (Hshort Hlt). rewrite Hshort.
    split; [reflexivity|]. split; [lia|]. split; [lia|]. lia.
  - split; [exact Hshort|].
    assert (Hnlt : (length (responsesOf a log) <? 3)%nat = false)
      by (apply Nat.ltb_ge; exact Hge).
    assert (Hlen : length (slice_last 3 (responsesOf a log)) = 3%nat)
      by (apply slice_last_length; exact Hge).
    pose (k := length (List.filter QuestionResponse.isCorrect
                                   (slice_last 3 (responsesOf a log)))).
    assert (Hk : (k <= 3)%nat).
    { subst k. rewrite <- Hlen at 2. apply filter_length_le. }
    assert (Hacc : acc = (num k / num 3)%Q).
    { subst acc k. unfold recentAccuracy. rewrite <- slice_last_lastN. reflexivity. }
    assert (Hd' : d' =
      if Qle_bool DIFFICULTY_INCREASE_THRESHOLD (num k / num 3)%Q && (d <? MAX_DIFFICULTY)
      then d + 1
      else if Qlt_bool (num k / num 3)%Q DIFFICULTY_DECREASE_THRESHOLD
              && (d >? MIN_DIFFICULTY)
      then d - 1 else d).
    { subst d' k. unfold calculateNextDifficulty. fold (responsesOf a log).
      unfold DIFFICULTY_STABLE_WINDOW at 1. rewrite Hnlt.
      unfold DIFFICULTY_STABLE_WINDOW. rewrite Hlen. reflexivity. }
    unfold MAX_DIFFICULTY, MIN_DIFFICULTY in Hd'.
    clearbody k. clear Hlen. subst acc.
    unfold DIFFICULTY_INCREASE_THRESHOLD, DIFFICULTY_DECREASE_THRESHOLD in *.
    destruct (window_accuracy_cases k Hk)
      as [(_ & Hi & Hdc) | [(_ & Hi & Hdc) | (_ & Hi & Hdc)]];
      unfold DIFFICULTY_INCREASE_THRESHOLD, DIFFICULTY_DECREASE_THRESHOLD in Hi, Hdc;
      rewrite Hi, Hdc in Hd'; simpl in Hd';
      first [ apply Qle_bool_iff in Hi | apply Qle_bool_false in Hi ];
      first [ apply Qlt_bool_true in Hdc | apply Qlt_bool_false in Hdc ].
    + destruct (Z.ltb_spec d 5) as [Hd5 | Hd5]; rewrite Hd', Hacc;
        (split; [ intros _ | lia ]);
        (split; [ intros [_ H]; lia | ]);
        (split; [ intros [H _]; contradiction | ]);
        intros Hn1 Hn2; try lia; exfalso; apply Hn1; split; assumption.
    + rewrite Hd', Hacc.
      split; [ intros _ | lia ].
      split; [ intros [H _]; contradiction | ].
      split; [ intros [H _]; contradiction | ].
      intros _ _; reflexivity.
    + destruct (Z.gtb_spec d 1) as [Hd1 | Hd1]; rewrite Hd', Hacc;
        (split; [ intros _ | lia ]);
        (split; [ intros [H _]; contradiction | ]);
        (split; [ intros [_ H]; lia | ]);
        intros Hn1 Hn2; try lia; exfalso; apply Hn2; split; [assumption | lia].
Qed.

Lemma calculateNextDifficulty_correct_witness :
  1 <= 3 <= 5
  /\ (3 <= answeredInArea ALGORITHMS_DATA_STRUCTURES threeCorrect)%nat
  /\ calculateNextDifficulty 3 ALGORITHMS_DATA_STRUCTURES threeCorrect = 3 + 1.
Proof.
  assert (Hd : 1 <= 3 <= 5) by lia.
  assert (Hn : (3 <= answeredInArea ALGORITHMS_DATA_STRUCTURES threeCorrect)%nat)
    by (vm_compute; lia).
  split; [exact Hd|]. split; [exact Hn|].
  pose proof (calculateNextDifficulty_correct 3 ALGORITHMS_DATA_STRUCTURES threeCorrect Hd)
    as (_ & Hfull & _).
  apply (proj1 (Hfull Hn)).
  split; [vm_compute; discriminate | lia].
Defined.

(** The examples of section 8: difficulty 3 with the last three responses
    correct gives 4, with the last three incorrect gives 2. *)
Example difficulty_examples :
  calculateNextDifficulty 3 QUANTITATIVE_MATH
    [ sampleResponse "a" QUANTITATIVE_MATH 3 true;
      sampleResponse "b" QUANTITATIVE_MATH 3 true;
      sampleResponse "c" QUANTITATIVE_MATH 3 true ] = 4
  /\ calculateNextDifficulty 3 QUANTITATIVE_MATH
    [ sampleResponse "a" QUANTITATIVE_MATH 3 false;
      sampleResponse "b" QUANTITATIVE_MATH 3 false;
      sampleResponse "c" QUANTITATIVE_MATH 3 false ] = 2.
Proof. split; reflexivity. Qed.

(** ** Answer grading *)

Lemma includes_In (l : list string) (x : string) : includes l x = true <-> In x l.
Proof.
  unfold includes. rewrite existsb_exists. split.
  - intros (y & Hy & Heq). apply bool_decide_eq_true in Heq. subst. exact Hy.
  - intros Hx. exists x. split; [exact Hx | apply bool_decide_eq_true; reflexivity].
Qed.

(** C9. Against a single expected value the answer is correct exactly when
    the submitted and the expected string are equal after trimming and
    lowercasing both (an array that is submitted is first converted to a
    string, as [String] does); against a multi-value expected answer it is
    correct exactly when the set of submitted answers equals the set of
    expected answers, and a submission that is not an array is incorrect. *)
Theorem checkAnswer_correct :
  (forall submitted expected : string,
      checkAnswer (AnswerString submitted) (AnswerString expected) = true
      <-> toLowerCase (trim submitted) = toLowerCase (trim expected))
  /\ (forall (submitted : list string) (expected : string),
      checkAnswer (AnswerArray submitted) (AnswerString expected) = true
      <-> toLowerCase (trim (String_of (AnswerArray submitted)))
          = toLowerCase (trim expected))
  /\ (forall submitted expected : list string,
      checkAnswer (AnswerArray submitted) (AnswerArray expected) = true
      <-> (list_to_set submitted : gset string) = list_to_set expected)
  /\ (forall (submitted : string) (expected : list string),
      checkAnswer (AnswerString submitted) (AnswerArray expected) = false).
Proof.
  split; [|split; [|split]].
  - intros submitted expected. unfold checkAnswer. simpl.
    apply bool_decide_eq_true.
  - intros submitted expected. unfold checkAnswer.
    apply bool_decide_eq_true.
  - intros submitted expected. unfold checkAnswer.
    rewrite andb_true_iff, !forallb_forall. split.
    + intros [Hexp Hsub]. apply set_eq. intros x.
      rewrite !elem_of_list_to_set, !list_elem_of_In. split; intros Hx.
      * apply includes_In. apply Hsub. exact Hx.
      * apply includes_In. apply Hexp. exact Hx.
    + intros Heq. split; intros x Hx; apply includes_In;
        apply list_elem_of_In; apply list_elem_of_In in Hx.
      * apply (elem_of_list_to_set (C := gset string)).
        rewrite Heq. apply elem_of_list_to_set. exact Hx.
      * apply (elem_of_list_to_set (C := gset string)).
        rewrite <- Heq. apply elem_of_list_to_set. exact Hx.
  - reflexivity.
Qed.

Example checkAnswer_examples :
  checkAnswer (AnswerString "  Binary Search ") (AnswerString "binary search") = true
  /\ checkAnswer (AnswerString "binary  search") (AnswerString "binary search") = false
  /\ checkAnswer (AnswerArray ["b"; "a"; "b"]) (AnswerArray ["a"; "b"]) = true
  /\ checkAnswer (AnswerArray ["a"]) (AnswerArray ["a"; "b"]) = false
  /\ checkAnswer (AnswerArray ["A"]) (AnswerArray ["a"]) = false
  /\ checkAnswer (AnswerString "a") (AnswerArray ["a"]) = false.
Proof. repeat split. Qed.

(** ** Session handlers *)

Lemma findSessionById_lookup (sessionId : string) (tenantId : option string)
    (st : Store.t) :
  findSessionById sessionId tenantId st
  = (st, Return (Store.SESSIONS st !! (default "" tenantId, sessionId))).
Proof.
  unfold findSessionById. destruct tenantId as [t|]; simpl; [|reflexivity].
  case_bool_decide; subst; reflexivity.
Qed.

Lemma blank_Some (s : string) : s <> "" -> blank (Some s) = false.
Proof.
  intros Hs. simpl. apply bool_decide_eq_false. exact Hs.
Qed.

(** C7. Submitting a session that is not IN_PROGRESS fails with the
    validation error "Session already submitted" (HTTP 400), submitting a
    session id that does not exist fails with the not-found error (HTTP 404);
    the two errors are distinct, and neither request changes the store. *)
Theorem submitSession_distinct_errors (st : Store.t) (event : SessionEvent.t)
    (generateInsights : InsightsProvider) (now now' sessionId : string) :
  SessionEvent.sessionId event = Some sessionId ->
  sessionId <> "" ->
  let key := (default "" (SessionEvent.tenantId event), sessionId) in
  let alreadySubmitted := formatErrorResponse (ValidationError "Session already submitted") in
  let notFound := formatErrorResponse (NotFoundError "Session") in
  (forall session,
      Store.SESSIONS st !! key = Some session ->
      CandidateSession.status session <> IN_PROGRESS ->
      submitSession event generateInsights now now' st = (st, Failure alreadySubmitted))
  /\ (Store.SESSIONS st !! key = None ->
      submitSession event generateInsights now now' st = (st, Failure notFound))
  /\ alreadySubmitted <> notFound
  /\ ErrorResponse.statusCode alreadySubmitted = 400
  /\ ErrorResponse.statusCode notFound = 404.
Proof.
  intros Hid Hne key alreadySubmitted notFound.
  split; [|split; [|split; [|split]]].
  - intros session Hfound Hstatus.
    unfold submitSession, respond, submitSession_try, bind.
    rewrite Hid, (blank_Some _ Hne). simpl.
    rewrite findSessionById_lookup. fold key. rewrite Hfound.
    unfold throwIf. rewrite bool_decide_eq_false_2 by exact Hstatus. reflexivity.
  - intros Hmissing.
    unfold submitSession, respond, submitSession_try, bind.
    rewrite Hid, (blank_Some _ Hne). simpl.
    rewrite findSessionById_lookup. fold key. rewrite Hmissing. reflexivity.
  - discriminate.
  - reflexivity.
  - reflexivity.
Qed.

Lemma submitSession_distinct_errors_witness :
  submitSession (sampleSessionEvent "s1") noInsights
                "2024-05-01T11:00:00.000Z" "2024-05-01T11:00:01.000Z"
                (sampleStore (sampleSession COMPLETED threeCorrect None))
  = (sampleStore (sampleSession COMPLETED threeCorrect None),
     Failure {| ErrorResponse.statusCode := 400;
                ErrorResponse.code := "VALIDATION_ERROR";
                ErrorResponse.message := "Session already submitted" |})
  /\ submitSession (sampleSessionEvent "unknown") noInsights
                "2024-05-01T11:00:00.000Z" "2024-05-01T11:00:01.000Z"
                (sampleStore (sampleSession COMPLETED threeCorrect None))
  = (sampleStore (sampleSession COMPLETED threeCorrect None),
     Failure {| ErrorResponse.statusCode := 404;
                ErrorResponse.code := "NOT_FOUND_ERROR";
                ErrorResponse.message := "Session not found" |}).
Proof.
  split.
  - refine (proj1 (submitSession_distinct_errors _ (sampleSessionEvent "s1") _ _ _ "s1"
                     eq_refl _) _ _ _).
    + discriminate.
    + reflexivity.
    + discriminate.
  - refine (proj1 (proj2 (submitSession_distinct_errors _ (sampleSessionEvent "unknown")
                            _ _ _ "unknown" eq_refl _)) _).
    + discriminate.
    + reflexivity.
Defined.

Lemma resolveQuestion_cases (session : CandidateSession.t) (questionId : string)
    (st : Store.t) :
  resolveQuestion session questionId st
  = (st, Throw (ValidationError "Invalid question data in session"))
  \/ exists found, resolveQuestion session questionId st = (st, Return found).
Proof.
  unfold resolveQuestion.
  destruct (CandidateSession.currentQuestion session) as [storedQuestion|].
  - destruct (bool_decide (Question.questionId storedQuestion = questionId)).
    + destruct (negb (bool_decide (Question.questionId storedQuestion = ""))
                && negb (bool_decide (Question.questionText storedQuestion = ""))).
      * right. eexists. reflexivity.
      * left. reflexivity.
    + right. eexists. reflexivity.
  - right. eexists. reflexivity.
Qed.

(** The branch of [submitAnswer] under consideration throws a validation
    error and leaves the store as it was; the side conditions of the last
    conjunct are closed by the hypotheses of the branch. *)
Ltac rejected_with_validation :=
  eexists; split; [reflexivity|];
  split; [left; eexists; reflexivity|];
  split; [discriminate|];
  first [ intros; reflexivity
        | intros; contradiction
        | intros; discriminate
        | intros ? _ _ [? ?]; discriminate
        | intros ? _ _ _ [? ?]; discriminate ].

(** C6, as the code has it. On an IN_PROGRESS session, an answer whose
    question id is already in the answer log is rejected and the store is
    left as it was: no log entry is appended and the difficulty map is
    unchanged. The error is a validation error (HTTP 400), "Question already
    answered" when the request is complete and the question is resolved, or
    the not-found error of the question when it is not resolved; it is
    never a conflict error. *)
Theorem duplicate_answer_rejected (st : Store.t) (event : AnswerEvent.t)
    (now sessionId questionId : string) (session : CandidateSession.t) :
  AnswerEvent.sessionId event = Some sessionId ->
  AnswerEvent.questionId event = Some questionId ->
  Store.SESSIONS st !! (default "" (AnswerEvent.tenantId event), sessionId)
    = Some session ->
  CandidateSession.status session = IN_PROGRESS ->
  answered questionId (CandidateSession.questionsAnswered session) = true ->
  exists e,
    submitAnswer event now st = (st, Failure (formatErrorResponse e))
    /\ ((exists message, e = ValidationError message) \/ e = NotFoundError "Question")
    /\ (forall message, e <> ConflictError message)
    /\ (forall question,
          sessionId <> "" -> questionId <> "" ->
          is_Some (AnswerEvent.answer event) ->
          is_Some (AnswerEvent.timeSpentSeconds event) ->
          invalidTenantId (CandidateSession.tenantId session) = false ->
          resolveQuestion session questionId st = (st, Return (Some question)) ->
          e = ValidationError "Question already answered").
Proof.
  intros Hsid Hqid Hfound Hstatus Hdup.
  unfold submitAnswer, respond, submitAnswer_try, bind, throwIf.
  rewrite Hsid, Hqid.
  change (blank (Some sessionId)) with (bool_decide (sessionId = "")).
  destruct (bool_decide_reflect (sessionId = "")) as [Hs | Hs];
    [rejected_with_validation|].
  simpl.
  destruct (AnswerEvent.answer event) as [answer|];
    [|rejected_with_validation].
  destruct (AnswerEvent.timeSpentSeconds event) as [timeSpentSeconds|];
    [|rejected_with_validation].
  destruct (bool_decide_reflect (questionId = "")) as [Hq | Hq];
    [rejected_with_validation|].
  simpl. rewrite findSessionById_lookup, Hfound, Hstatus.
  rewrite bool_decide_eq_true_2 by reflexivity. simpl.
  destruct (invalidTenantId (CandidateSession.tenantId session)) eqn:Htenant;
    [rejected_with_validation|].
  simpl.
  destruct (resolveQuestion_cases session questionId st) as [Hr | [found Hr]]; rewrite Hr;
    [rejected_with_validation|].
  destruct found as [question|].
  - rewrite Hdup. simpl. rejected_with_validation.
  - eexists. split; [reflexivity|]. split; [right; reflexivity|].
    split; [discriminate|]. intros; discriminate.
Qed.

(** ** Knowledge Area Selector *)

Lemma initAreaCounts_lookup_gen (mix : list KnowledgeAreaConfig.t)
    (acc : gmap KnowledgeArea nat) (a : KnowledgeArea) :
  In a (List.map KnowledgeAreaConfig.area mix) \/ acc !! a = Some 0%nat ->
  foldl (fun (areaCounts : gmap KnowledgeArea nat) config =>
           <[KnowledgeAreaConfig.area config := 0%nat]> areaCounts) acc mix !! a
  = Some 0%nat.
Proof.
  revert acc. induction mix as [|config mix IH]; intros acc H; simpl.
  - destruct H as [[] | H]. exact H.
  - apply IH.
    destruct (decide (KnowledgeAreaConfig.area config = a)) as [Heq | Hne].
    + right. subst a. apply lookup_insert_eq.
    + rewrite lookup_insert_ne by exact Hne.
      destruct H as [[Heq | Hin] | H]; [contradiction | left; exact Hin | right; exact H].
Qed.

Lemma initAreaCounts_lookup (mix : list KnowledgeAreaConfig.t) (config : KnowledgeAreaConfig.t) :
  In config mix ->
  initAreaCounts mix !! KnowledgeAreaConfig.area config = Some 0%nat.
Proof.
  intros Hin. unfold initAreaCounts. apply initAreaCounts_lookup_gen.
  left. apply in_map. exact Hin.
Qed.

Lemma answeredInArea_cons (a : KnowledgeArea) (r : QuestionResponse.t)
    (log : list QuestionResponse.t) :
  answeredInArea a (r :: log)
  = if bool_decide (QuestionResponse.knowledgeArea r = a)
    then S (answeredInArea a log) else answeredInArea a log.
Proof.
  unfold answeredInArea, responsesOf, inArea. simpl.
  destruct (bool_decide (QuestionResponse.knowledgeArea r = a)); reflexivity.
Qed.

Lemma countAnswered_lookup (log : list QuestionResponse.t)
    (areaCounts : gmap KnowledgeArea nat) (a : KnowledgeArea) :
  countAnswered areaCounts log !! a
  = (fun n => (n + answeredInArea a log)%nat) <$> (areaCounts !! a).
Proof.
  revert areaCounts. induction log as [|r log IH]; intros areaCounts.
  - simpl. destruct (areaCounts !! a); simpl; [f_equal; unfold answeredInArea; simpl; lia | reflexivity].
  - unfold countAnswered in *. simpl. rewrite IH. rewrite answeredInArea_cons.
    destruct (decide (QuestionResponse.knowledgeArea r = a)) as [Heq | Hne].
    + rewrite bool_decide_eq_true_2 by exact Heq. subst a.
      destruct (areaCounts !! QuestionResponse.knowledgeArea r) as [n|] eqn:Hn.
      * rewrite lookup_insert_eq. simpl. f_equal. lia.
      * rewrite Hn. reflexivity.
    + rewrite bool_decide_eq_false_2 by exact Hne.
      destruct (areaCounts !! QuestionResponse.knowledgeArea r) as [n|]; [|reflexivity].
      rewrite lookup_insert_ne by exact Hne. reflexivity.
Qed.

(** The count that the Selector keeps for a configured area is the number
    of answers of the log in that area. *)
Lemma areaCounts_answeredInArea (mix : list KnowledgeAreaConfig.t)
    (log : list QuestionResponse.t) (config : KnowledgeAreaConfig.t) :
  In config mix ->
  default 0%nat (countAnswered (initAreaCounts mix) log !! KnowledgeAreaConfig.area config)
  = answeredInArea (KnowledgeAreaConfig.area config) log.
Proof.
  intros Hin. rewrite countAnswered_lookup, (initAreaCounts_lookup _ _ Hin). reflexivity.
Qed.

Lemma underTargetAreas_filter (mix : list KnowledgeAreaConfig.t)
    (log : list QuestionResponse.t) (l : list KnowledgeAreaConfig.t)
    (acc : list (KnowledgeArea * Q)) :
  incl l mix ->
  foldl (fun underTargetAreas config =>
           let currentPercentage :=
             if (0 <? length log)%nat
             then (num (default 0%nat (countAnswered (initAreaCounts mix) log
                                         !! KnowledgeAreaConfig.area config))
                   / num (length log) * 100)%Q
             else 0%Q in
           let deficit := (KnowledgeAreaConfig.percentage config - currentPercentage)%Q in
           if Qlt_bool 0 deficit
           then (underTargetAreas ++ [(KnowledgeAreaConfig.area config, deficit)])%list
           else underTargetAreas)
        acc l
  = (acc ++ List.map (underTarget log)
              (List.filter (fun config => Qlt_bool 0 (deficit log config)) l))%list.
Proof.
  revert acc. induction l as [|config l IH]; intros acc Hincl; simpl.
  - rewrite app_nil_r. reflexivity.
  - assert (Hin : In config mix) by (apply Hincl; left; reflexivity).
    assert (Hl : incl l mix) by (intros x Hx; apply Hincl; right; exact Hx).
    rewrite (areaCounts_answeredInArea mix log config Hin).
    fold (deficit log config).
    destruct (Qlt_bool 0 (deficit log config)); rewrite (IH _ Hl).
    + simpl. rewrite <- app_assoc. reflexivity.
    + reflexivity.
Qed.

Lemma insertByDeficit_head (x : KnowledgeArea * Q) (l : list (KnowledgeArea * Q)) :
  head (insertByDeficit x l)
  = match head l with
    | Some y => if Qlt_bool (snd x) (snd y) then Some y else Some x
    | None => Some x
    end.
Proof.
  destruct l as [|y l]; simpl; [reflexivity|].
  destruct (Qlt_bool (snd x) (snd y)); reflexivity.
Qed.

(** The first element of the sorted array is an element of the array of
    maximal deficit. *)
Lemma sortByDeficit_head (l : list (KnowledgeArea * Q)) :
  match head (sortByDeficit l) with
  | Some top => In top l /\ forall x, In x l -> (snd x <= snd top)%Q
  | None => l = []
  end.
Proof.
  induction l as [|x l IH]; simpl; [reflexivity|].
  rewrite insertByDeficit_head.
  destruct (head (sortByDeficit l)) as [y|].
  - destruct IH as [Hy Hmax].
    destruct (Qlt_bool (snd x) (snd y)) eqn:Hlt.
    + apply Qlt_bool_true in Hlt. split; [right; exact Hy|].
      intros z [Hz | Hz]; [subst z; apply Qlt_le_weak; exact Hlt | apply Hmax; exact Hz].
    + apply Qlt_bool_false in Hlt. apply Qnot_lt_le in Hlt. split; [left; reflexivity|].
      intros z [Hz | Hz]; [subst z; apply Qle_refl|].
      apply Qle_trans with (snd y); [apply Hmax; exact Hz | exact Hlt].
  - subst l. split; [left; reflexivity|].
    intros z [Hz | []]. subst z. apply Qle_refl.
Qed.

Lemma weightedWalk_In (mix : list KnowledgeAreaConfig.t) (random : Q) (a : KnowledgeArea) :
  weightedWalk mix random = Some a -> In a (List.map KnowledgeAreaConfig.area mix).
Proof.
  revert random. induction mix as [|config mix IH]; intros random; simpl; [discriminate|].
  destruct (Qle_bool _ 0).
  - intros [= <-]. left; reflexivity.
  - intros Hw. right. exact (IH _ Hw).
Qed.

Lemma weightedRandomSelection_In (mix : list KnowledgeAreaConfig.t) (Math_random : Q) :
  mix <> [] ->
  exists a, weightedRandomSelection mix Math_random = Some a
            /\ In a (List.map KnowledgeAreaConfig.area mix).
Proof.
  intros Hne. unfold weightedRandomSelection.
  destruct (weightedWalk mix _) as [a|] eqn:Hw.
  - exists a. split; [reflexivity | exact (weightedWalk_In _ _ _ Hw)].
  - destruct mix as [|config mix]; [contradiction|].
    exists (KnowledgeAreaConfig.area config). split; [reflexivity | left; reflexivity].
Qed.

(** What the Selector returns on a mix that is not empty. *)
Lemma selectNextKnowledgeArea_cases (mix : list KnowledgeAreaConfig.t)
    (log : list QuestionResponse.t) (diffs : gmap KnowledgeArea DifficultyLevel)
    (Math_random : Q) :
  mix <> [] ->
  exists a,
    selectNextKnowledgeArea mix log diffs Math_random = Some a
    /\ In a (List.map KnowledgeAreaConfig.area mix)
    /\ ((exists config, In config mix /\ (0 < deficit log config)%Q) ->
        exists config,
          In config mix /\ KnowledgeAreaConfig.area config = a
          /\ forall config', In config' mix -> (deficit log config' <= deficit log config)%Q).
Proof.
  intros Hne. unfold selectNextKnowledgeArea. cbv zeta.
  pose proof (underTargetAreas_filter mix log mix [] (incl_refl mix)) as Hunder.
  cbv zeta in Hunder. rewrite Hunder. clear Hunder. simpl app.
  set (under := List.filter (fun config => Qlt_bool 0 (deficit log config)) mix).
  pose proof (sortByDeficit_head (List.map (underTarget log) under)) as Hhead.
  destruct (sortByDeficit (List.map (underTarget log) under)) as [|top sorted]; simpl in Hhead.
  - destruct (weightedRandomSelection_In mix Math_random Hne) as (a & Ha & Hin).
    exists a. split; [exact Ha|]. split; [exact Hin|].
    intros (config & Hc & Hpos). exfalso.
    assert (Hu : In config under).
    { apply filter_In. split; [exact Hc|].
      unfold Qlt_bool. apply negb_true_iff. apply not_true_is_false.
      intros Hle. apply Qle_bool_iff in Hle. apply Qlt_not_le in Hpos. contradiction. }
    apply (in_map (underTarget log)) in Hu. rewrite Hhead in Hu. exact Hu.
  - destruct Hhead as [Htop Hmax].
    apply in_map_iff in Htop as (config & Heq & Hu).
    apply filter_In in Hu as [Hc Hpos]. apply Qlt_bool_true in Hpos.
    exists (fst top). split; [reflexivity|].
    subst top. simpl. split; [apply in_map; exact Hc|].
    intros _. exists config. split; [exact Hc|]. split; [reflexivity|].
    intros config' Hc'.
    destruct (Qlt_le_dec 0 (deficit log config')) as [Hpos' | Hneg'].
    + apply (Hmax (underTarget log config')).
      apply in_map. apply filter_In. split; [exact Hc'|].
      unfold Qlt_bool. apply negb_true_iff. apply not_true_is_false.
      intros Hle. apply Qle_bool_iff in Hle. apply Qlt_not_le in Hpos'. contradiction.
    + apply Qle_trans with 0%Q; [exact Hneg' | apply Qlt_le_weak; exact Hpos].
Qed.




(** The example of section 8: with the mix 60/40 and five answers all in
    the first area, the Selector returns the second area; on an empty log
    it returns the area of the largest target. *)
Example selector_examples :
  selectNextKnowledgeArea sampleMix fiveInAlgorithms ∅ (1 # 2) = Some PROGRAMMING_LANGUAGE
  /\ selectNextKnowledgeArea sampleMix [] ∅ (1 # 2) = Some ALGORITHMS_DATA_STRUCTURES.
Proof. split; vm_compute; reflexivity. Qed.

(** ** Answering *)

Lemma invalidTenantId_false (t : string) :
  t <> "" -> trim t = t -> invalidTenantId t = false.
Proof.
  intros Hne Htrim. unfold invalidTenantId. rewrite Htrim.
  rewrite bool_decide_eq_false_2 by exact Hne. reflexivity.
Qed.

(** The request that [submitAnswer] accepts, and what it does then. *)
Lemma submitAnswer_accepts (st : Store.t) (event : AnswerEvent.t)
    (now sessionId questionId t : string) (answer : Answer) (timeSpentSeconds : Q)
    (session : CandidateSession.t) (question : Question.t) :
  AcceptedAnswer st event t sessionId questionId answer timeSpentSeconds session question ->
  let log := CandidateSession.questionsAnswered session in
  let response :=
    makeResponse questionId question answer
                 (checkAnswer answer (Question.correctAnswer question))
                 timeSpentSeconds now in
  let log' := (log ++ [response])%list in
  let difficulties := updateSessionDifficulties (withQuestionsAnswered session log') in
  let MAX_QUESTIONS :=
    number_or (Store.ASSESSMENTS st !! (t, CandidateSession.assessmentId session)
                 ≫= Assessment.maxQuestions) 10 in
  submitAnswer event now st
  = (setSESSIONS (alter (setAnswered log' difficulties) (t, sessionId)) st,
     Success 200
       {| AnswerResult.isCorrect := checkAnswer answer (Question.correctAnswer question);
          AnswerResult.explanation := Question.explanation question;
          AnswerResult.nextQuestionAvailable :=
            Qlt_bool (num (length log + 1)) MAX_QUESTIONS;
          AnswerResult.questionsAnswered := (length log + 1)%nat;
          AnswerResult.maxQuestions := MAX_QUESTIONS |}).
Proof.
  intros [Hsid Hs Hqid Hq Hans Htime Htid Hfound Hstatus Htenant Ht Htrim Hres Hnew].
  intros log response log' difficulties MAX_QUESTIONS.
  unfold submitAnswer, respond, submitAnswer_try, bind, throwIf.
  rewrite Hsid, Hqid, Hans, Htime, Htid.
  rewrite (blank_Some _ Hs). simpl.
  rewrite (bool_decide_eq_false_2 _ Hq). simpl.
  rewrite findSessionById_lookup. simpl. rewrite Hfound, Hstatus.
  rewrite bool_decide_eq_true_2 by reflexivity. simpl.
  rewrite Htenant, (invalidTenantId_false _ Ht Htrim). simpl.
  rewrite Hres. rewrite Hnew. simpl.
  unfold updateSession, getItem. rewrite !Htrim.
  rewrite (invalidTenantId_false _ Ht Htrim).
  reflexivity.
Qed.

(** ** Difficulties after an answer *)

Lemma foldl_insert_lookup (f : KnowledgeArea -> DifficultyLevel)
    (areas : list KnowledgeArea) (acc : gmap KnowledgeArea DifficultyLevel)
    (b : KnowledgeArea) :
  foldl (fun (updated : gmap KnowledgeArea DifficultyLevel) area =>
           <[area := f area]> updated) acc areas !! b
  = if bool_decide (b ∈ areas) then Some (f b) else acc !! b.
Proof.
  revert acc. induction areas as [|x areas IH]; intros acc; cbn [foldl].
  - rewrite bool_decide_eq_false_2 by apply not_elem_of_nil. reflexivity.
  - rewrite IH. destruct (decide (b ∈ areas)) as [Hin | Hnin].
    + rewrite !bool_decide_eq_true_2; [reflexivity | right; exact Hin | exact Hin].
    + rewrite (bool_decide_eq_false_2 _ Hnin).
      destruct (decide (x = b)) as [-> | Hne].
      * rewrite lookup_insert_eq, bool_decide_eq_true_2 by left. reflexivity.
      * rewrite lookup_insert_ne by exact Hne.
        rewrite bool_decide_eq_false_2; [reflexivity|].
        intros Hb. apply elem_of_cons in Hb as [Hb | Hb]; [congruence | contradiction].
Qed.

Lemma Set_from_elem_of (l : list KnowledgeArea) (b : KnowledgeArea) :
  b ∈ Set_from l <-> b ∈ l.
Proof.
  induction l as [|x l IH]; simpl; [reflexivity|].
  rewrite !elem_of_cons, <- IH.
  rewrite !list_elem_of_In, filter_In, <- !list_elem_of_In.
  destruct (decide (b = x)) as [-> | Hne].
  - split; intros _; left; reflexivity.
  - rewrite negb_true_iff, bool_decide_eq_false. tauto.
Qed.

Lemma answered_area_elem_of (log : list QuestionResponse.t) (b : KnowledgeArea) :
  b ∈ List.map QuestionResponse.knowledgeArea log <-> (0 < answeredInArea b log)%nat.
Proof.
  induction log as [|r log IH]; simpl.
  - unfold answeredInArea. simpl. split; [intros H; inversion H | lia].
  - rewrite elem_of_cons, IH, answeredInArea_cons.
    destruct (decide (QuestionResponse.knowledgeArea r = b)) as [Heq | Hne].
    + rewrite bool_decide_eq_true_2 by exact Heq. split; [lia | left; congruence].
    + rewrite bool_decide_eq_false_2 by exact Hne.
      split; [intros [Hb | Hb]; [congruence | exact Hb] | right; assumption].
Qed.

(** After [updateSessionDifficulties], the difficulty of an area with
    responses in the log is the Adjuster's result for that area, and the
    difficulty of every other area is the one that the session had. *)
Lemma updateSessionDifficulties_lookup (session : CandidateSession.t) (b : KnowledgeArea) :
  updateSessionDifficulties session !! b
  = if (0 <? answeredInArea b (CandidateSession.questionsAnswered session))%nat
    then Some (calculateNextDifficulty
                 (or_default (CandidateSession.currentDifficulty session !! b) 3) b
                 (CandidateSession.questionsAnswered session))
    else CandidateSession.currentDifficulty session !! b.
Proof.
  unfold updateSessionDifficulties. cbv zeta.
  rewrite lookup_union.
  rewrite (foldl_insert_lookup
             (fun area => calculateNextDifficulty
                            (or_default (CandidateSession.currentDifficulty session !! area) 3)
                            area (CandidateSession.questionsAnswered session))).
  rewrite lookup_empty.
  destruct (Nat.ltb_spec 0 (answeredInArea b (CandidateSession.questionsAnswered session)))
    as [Hpos | Hzero].
  - rewrite bool_decide_eq_true_2
      by (apply Set_from_elem_of, answered_area_elem_of; exact Hpos).
    destruct (CandidateSession.currentDifficulty session !! b); reflexivity.
  - rewrite bool_decide_eq_false_2.
    + destruct (CandidateSession.currentDifficulty session !! b); reflexivity.
    + intros Hin. apply Set_from_elem_of, answered_area_elem_of in Hin. lia.
Qed.

Lemma responsesOf_other_area (b : KnowledgeArea) (log : list QuestionResponse.t)
    (r : QuestionResponse.t) :
  QuestionResponse.knowledgeArea r <> b ->
  responsesOf b (log ++ [r]) = responsesOf b log.
Proof.
  intros Hne. unfold responsesOf. rewrite List.filter_app. simpl.
  unfold inArea at 2. rewrite bool_decide_eq_false_2 by exact Hne.
  apply app_nil_r.
Qed.

(** The Adjuster reads only the responses of the area that it is asked about. *)
Lemma calculateNextDifficulty_other_area (d : DifficultyLevel) (b : KnowledgeArea)
    (log : list QuestionResponse.t) (r : QuestionResponse.t) :
  QuestionResponse.knowledgeArea r <> b ->
  calculateNextDifficulty d b (log ++ [r]) = calculateNextDifficulty d b log.
Proof.
  intros Hne. unfold calculateNextDifficulty.
  fold (responsesOf b (log ++ [r])). fold (responsesOf b log).
  rewrite (responsesOf_other_area b log r Hne). reflexivity.
Qed.

(** C2, as the code has it. When an answer in area a is accepted on an
    IN_PROGRESS session, the Adjuster is re-run for every area that has a
    response in the log. For every other area b, the stored difficulty after
    the answer is the Adjuster's result for b on the previous log, from b's
    previous difficulty (3 when it is missing), when b has a response in the
    log, and is the previous value when b has none: it depends on b's own
    responses and difficulty only. *)
Theorem answer_reruns_adjuster_per_area (st : Store.t) (event : AnswerEvent.t)
    (now sessionId questionId t : string) (answer : Answer) (timeSpentSeconds : Q)
    (session : CandidateSession.t) (question : Question.t) :
  AcceptedAnswer st event t sessionId questionId answer timeSpentSeconds session question ->
  let log := CandidateSession.questionsAnswered session in
  let st' := fst (submitAnswer event now st) in
  (exists body, snd (submitAnswer event now st) = Success 200 body)
  /\ forall b, b <> Question.knowledgeArea question ->
       storedDifficulty st' t sessionId b
       = if (0 <? answeredInArea b log)%nat
         then Some (calculateNextDifficulty
                      (or_default (CandidateSession.currentDifficulty session !! b) 3)
                      b log)
         else storedDifficulty st t sessionId b.
Proof.
  intros Haccepted log st'. subst st'.
  rewrite (submitAnswer_accepts st event now sessionId questionId t answer
             timeSpentSeconds session question Haccepted).
  pose proof (accepted_session _ _ _ _ _ _ _ _ _ Haccepted) as Hfound.
  split; [eexists; reflexivity|].
  intros b Hb. unfold storedDifficulty. simpl.
  rewrite lookup_alter_eq, Hfound. simpl.
  rewrite updateSessionDifficulties_lookup. simpl.
  fold log.
  set (r := makeResponse questionId question answer _ timeSpentSeconds now).
  assert (Hr : QuestionResponse.knowledgeArea r <> b) by (intros Heq; apply Hb; rewrite <- Heq; reflexivity).
  unfold answeredInArea.
  rewrite (responsesOf_other_area b log r Hr), (calculateNextDifficulty_other_area _ b log r Hr).
  reflexivity.
Qed.

(** The answer to the programming question "q4", after the three answers
    on algorithms, is one that [submitAnswer] accepts. *)
Lemma sample_answer_accepted :
  AcceptedAnswer threeAnswered (sampleAnswerEvent "q4") "acme" "s1" "q4"
                 (AnswerString "a") 20%Q (sampleSessionOf threeAnswered)
                 (sampleQuestion "q4" PROGRAMMING_LANGUAGE).
Proof.
  constructor; try discriminate; try reflexivity; vm_compute; reflexivity.
Qed.

(** The claim C2 as stated fails: after three correct answers on algorithms
    (difficulty 3 to 4), an accepted answer on programming moves the stored
    difficulty of algorithms from 4 to 5. *)
Lemma answer_changes_another_area :
  Question.knowledgeArea (sampleQuestion "q4" PROGRAMMING_LANGUAGE) = PROGRAMMING_LANGUAGE
  /\ snd (answerSample "q4" threeAnswered)
     = Success 200 {| AnswerResult.isCorrect := true;
                      AnswerResult.explanation := "A is right.";
                      AnswerResult.nextQuestionAvailable := false;
                      AnswerResult.questionsAnswered := 4;
                      AnswerResult.maxQuestions := 3 |}
  /\ storedDifficulty threeAnswered "acme" "s1" ALGORITHMS_DATA_STRUCTURES = Some 4
  /\ storedDifficulty (fst (answerSample "q4" threeAnswered)) "acme" "s1"
                      ALGORITHMS_DATA_STRUCTURES = Some 5.
Proof.
  split; [reflexivity|]. split; [vm_compute; reflexivity|].
  split; vm_compute; reflexivity.
Qed.

Lemma answer_reruns_adjuster_per_area_witness :
  AcceptedAnswer threeAnswered (sampleAnswerEvent "q4") "acme" "s1" "q4"
                 (AnswerString "a") 20%Q (sampleSessionOf threeAnswered)
                 (sampleQuestion "q4" PROGRAMMING_LANGUAGE)
  /\ storedDifficulty threeAnswered "acme" "s1" ALGORITHMS_DATA_STRUCTURES = Some 4
  /\ storedDifficulty (fst (answerSample "q4" threeAnswered)) "acme" "s1"
                      ALGORITHMS_DATA_STRUCTURES
     = Some (calculateNextDifficulty 4 ALGORITHMS_DATA_STRUCTURES
               (CandidateSession.questionsAnswered (sampleSessionOf threeAnswered)))
  /\ storedDifficulty (fst (answerSample "q4" threeAnswered)) "acme" "s1"
                      QUANTITATIVE_MATH
     = storedDifficulty threeAnswered "acme" "s1" QUANTITATIVE_MATH.
Proof.
  split; [exact sample_answer_accepted|].
  split; [vm_compute; reflexivity|].
  pose proof (answer_reruns_adjuster_per_area threeAnswered (sampleAnswerEvent "q4")
                sampleClock "s1" "q4" "acme" (AnswerString "a") 20%Q
                (sampleSessionOf threeAnswered) (sampleQuestion "q4" PROGRAMMING_LANGUAGE)
                sample_answer_accepted) as [_ Hframe].
  unfold answerSample. split.
  - rewrite (Hframe ALGORITHMS_DATA_STRUCTURES) by discriminate.
    vm_compute. reflexivity.
  - rewrite (Hframe QUANTITATIVE_MATH) by discriminate.
    vm_compute. reflexivity.
Defined.

(** The claim C6 as stated fails: the duplicate is rejected and the store
    is unchanged, but the error is the validation error, HTTP 400, and not
    a conflict error. *)
Lemma duplicate_answer_is_validation_error :
  answered "q1" (CandidateSession.questionsAnswered (sampleSessionOf oneAnswered)) = true
  /\ answerSample "q1" oneAnswered
     = (oneAnswered,
        Failure {| ErrorResponse.statusCode := 400;
                   ErrorResponse.code := "VALIDATION_ERROR";
                   ErrorResponse.message := "Question already answered" |})
  /\ forall message,
       snd (answerSample "q1" oneAnswered)
       <> Failure (formatErrorResponse (ConflictError message)).
Proof.
  split; [vm_compute; reflexivity|].
  assert (H : answerSample "q1" oneAnswered
     = (oneAnswered,
        Failure {| ErrorResponse.statusCode := 400;
                   ErrorResponse.code := "VALIDATION_ERROR";
                   ErrorResponse.message := "Question already answered" |}))
    by (vm_compute; reflexivity).
  split; [exact H|].
  intros message. rewrite H. discriminate.
Qed.

Lemma duplicate_answer_rejected_witness :
  CandidateSession.status (sampleSessionOf oneAnswered) = IN_PROGRESS
  /\ answered "q1" (CandidateSession.questionsAnswered (sampleSessionOf oneAnswered)) = true
  /\ exists e,
    submitAnswer (sampleAnswerEvent "q1") sampleClock oneAnswered
    = (oneAnswered, Failure (formatErrorResponse e))
    /\ ((exists message, e = ValidationError message) \/ e = NotFoundError "Question")
    /\ (forall message, e <> ConflictError message)
    /\ (forall question,
          "s1" <> "" -> "q1" <> "" ->
          is_Some (AnswerEvent.answer (sampleAnswerEvent "q1")) ->
          is_Some (AnswerEvent.timeSpentSeconds (sampleAnswerEvent "q1")) ->
          invalidTenantId (CandidateSession.tenantId (sampleSessionOf oneAnswered)) = false ->
          resolveQuestion (sampleSessionOf oneAnswered) "q1" oneAnswered
          = (oneAnswered, Return (Some question)) ->
          e = ValidationError "Question already answered").
Proof.
  assert (Hfound : Store.SESSIONS oneAnswered
                     !! (default "" (AnswerEvent.tenantId (sampleAnswerEvent "q1")), "s1")
                   = Some (sampleSessionOf oneAnswered))
    by (vm_compute; reflexivity).
  assert (Hstatus : CandidateSession.status (sampleSessionOf oneAnswered) = IN_PROGRESS)
    by (vm_compute; reflexivity).
  assert (Hdup : answered "q1" (CandidateSession.questionsAnswered
                                  (sampleSessionOf oneAnswered)) = true)
    by (vm_compute; reflexivity).
  split; [exact Hstatus|]. split; [exact Hdup|].
  exact (duplicate_answer_rejected oneAnswered (sampleAnswerEvent "q1") sampleClock
           "s1" "q1" (sampleSessionOf oneAnswered) eq_refl eq_refl Hfound Hstatus Hdup).
Defined.

(** A question that was served from the session's [currentQuestion] is
    removed from the session by the answer; a second answer to it is
    rejected as not found. *)
Example duplicate_adaptive_answer_not_found :
  let st := sampleStore (sampleSession IN_PROGRESS [] (Some generatedQuestion)) in
  let st' := fst (answerSample "gen-1" st) in
  (exists body, snd (answerSample "gen-1" st) = Success 200 body)
  /\ answerSample "gen-1" st'
     = (st', Failure {| ErrorResponse.statusCode := 404;
                        ErrorResponse.code := "NOT_FOUND_ERROR";
                        ErrorResponse.message := "Question not found" |}).
Proof.
  split; [eexists; vm_compute; reflexivity | vm_compute; reflexivity].
Qed.

(** ** The question cap *)

Lemma submitAnswer_appends (st : Store.t) (t sessionId : string)
    (session : CandidateSession.t) (log' : list QuestionResponse.t)
    (difficulties : gmap KnowledgeArea DifficultyLevel) :
  Store.SESSIONS st !! (t, sessionId) = Some session ->
  storedLog (setSESSIONS (alter (setAnswered log' difficulties) (t, sessionId)) st)
            t sessionId = Some log'.
Proof.
  intros Hfound. unfold storedLog. simpl.
  rewrite lookup_alter_eq, Hfound. reflexivity.
Qed.

(** C10. The cap is reported and never enforced. An answer to a resolved
    question that is not yet in the log of an IN_PROGRESS session is
    accepted and appended whatever the number of answers already in the
    log: the cap only determines the flag nextQuestionAvailable, which is
    false once the log has reached the cap. A request for the next question
    on an IN_PROGRESS session is served whenever the provider returns a
    question, whatever the number of answers in the log. *)
Theorem cap_reported_not_enforced :
  (forall (st : Store.t) (event : AnswerEvent.t) (now sessionId questionId t : string)
          (answer : Answer) (timeSpentSeconds : Q)
          (session : CandidateSession.t) (question : Question.t),
      AcceptedAnswer st event t sessionId questionId answer timeSpentSeconds
                     session question ->
      let log := CandidateSession.questionsAnswered session in
      let cap :=
        number_or (Store.ASSESSMENTS st !! (t, CandidateSession.assessmentId session)
                     ≫= Assessment.maxQuestions) 10 in
      exists response body,
        submitAnswer event now st
        = (fst (submitAnswer event now st), Success 200 body)
        /\ storedLog (fst (submitAnswer event now st)) t sessionId
           = Some (log ++ [response])%list
        /\ QuestionResponse.questionId response = questionId
        /\ AnswerResult.questionsAnswered body = (length log + 1)%nat
        /\ AnswerResult.maxQuestions body = cap
        /\ AnswerResult.nextQuestionAvailable body
           = Qlt_bool (num (length log + 1)) cap
        /\ ((cap <= num (length log))%Q ->
            AnswerResult.nextQuestionAvailable body = false))
  /\ (forall (st : Store.t) (event : SessionEvent.t)
             (generateAdaptiveQuestion : QuestionProvider) (Math_random : Q)
             (sessionId t : string) (session : CandidateSession.t)
             (assessment : Assessment.t) (question : Question.t),
      SessionEvent.sessionId event = Some sessionId -> sessionId <> "" ->
      SessionEvent.tenantId event = Some t ->
      Store.SESSIONS st !! (t, sessionId) = Some session ->
      CandidateSession.status session = IN_PROGRESS ->
      CandidateSession.tenantId session = t -> t <> "" -> trim t = t ->
      Store.ASSESSMENTS st !! (t, CandidateSession.assessmentId session)
        = Some assessment ->
      Assessment.knowledgeAreaMix assessment <> [] ->
      (forall a d performance,
          generateAdaptiveQuestion assessment a d performance = inr question) ->
      Question.questionId question <> "" ->
      Question.questionText question <> "" ->
      getNextQuestion event generateAdaptiveQuestion Math_random st
      = (setSESSIONS (alter (setCurrentQuestion question) (t, sessionId)) st,
         Success 200
           {| NextQuestionResult.question := withoutCorrectAnswer question;
              NextQuestionResult.sessionId := sessionId;
              NextQuestionResult.questionsAnswered :=
                length (CandidateSession.questionsAnswered session);
              NextQuestionResult.maxQuestions :=
                number_or (Assessment.maxQuestions assessment) 10;
              NextQuestionResult.durationMinutes :=
                truthyNumber (Assessment.durationMinutes assessment);
              NextQuestionResult.startedAt :=
                truthyString (Some (CandidateSession.startedAt session)) |})).
Proof.
  split.
  - intros st event now sessionId questionId t answer timeSpentSeconds session question
           Haccepted log cap.
    rewrite (submitAnswer_accepts st event now sessionId questionId t answer
               timeSpentSeconds session question Haccepted).
    pose proof (accepted_session _ _ _ _ _ _ _ _ _ Haccepted) as Hfound.
    cbn [fst].
    eexists. eexists. split; [reflexivity|].
    split; [apply (submitAnswer_appends st t sessionId session); exact Hfound|].
    split; [reflexivity|]. split; [reflexivity|]. split; [reflexivity|].
    split; [reflexivity|].
    intros Hcap. cbn [AnswerResult.nextQuestionAvailable].
    fold log. fold cap.
    unfold Qlt_bool. apply negb_false_iff. apply Qle_bool_iff.
    apply Qle_trans with (num (length log)); [exact Hcap|].
    unfold num. rewrite <- Zle_Qle. lia.
  - intros st event generateAdaptiveQuestion Math_random sessionId t session assessment
           question Hsid Hs Htid Hfound Hstatus Htenant Ht Htrim Hassessment Hmix
           Hprovider Hqid Hqtext.
    destruct (selectNextKnowledgeArea_cases (Assessment.knowledgeAreaMix assessment)
                (CandidateSession.questionsAnswered session)
                (CandidateSession.currentDifficulty session) Math_random Hmix)
      as (nextArea & Hnext & _).
    unfold getNextQuestion, respond, getNextQuestion_try, bind, throwIf.
    rewrite Hsid, Htid. rewrite (blank_Some _ Hs). simpl.
    rewrite findSessionById_lookup. simpl. rewrite Hfound, Hstatus.
    rewrite bool_decide_eq_true_2 by reflexivity. simpl.
    unfold getItem. rewrite Htenant, Hassessment, Hnext, Hprovider.
    rewrite (bool_decide_eq_false_2 _ Hqid), (bool_decide_eq_false_2 _ Hqtext). simpl.
    unfold updateSession. rewrite (invalidTenantId_false _ Ht Htrim), Htrim.
    reflexivity.
Qed.

Lemma cap_reported_not_enforced_witness :
  (exists body,
      answerSample "q4" threeAnswered
      = (fst (answerSample "q4" threeAnswered), Success 200 body)
      /\ length (CandidateSession.questionsAnswered (sampleSessionOf threeAnswered)) = 3%nat
      /\ AnswerResult.questionsAnswered body = 4%nat
      /\ AnswerResult.maxQuestions body = 3%Q
      /\ AnswerResult.nextQuestionAvailable body = false)
  /\ (exists st' body,
        getNextQuestion (sampleSessionEvent "s1") sampleProvider (1 # 2) threeAnswered
        = (st', Success 200 body)
        /\ NextQuestionResult.questionsAnswered body = 3%nat
        /\ NextQuestionResult.maxQuestions body = 3%Q).
Proof.
  destruct cap_reported_not_enforced as [Hanswer Hnext].
  split.
  - destruct (Hanswer threeAnswered (sampleAnswerEvent "q4") sampleClock "s1" "q4" "acme"
                (AnswerString "a") 20%Q (sampleSessionOf threeAnswered)
                (sampleQuestion "q4" PROGRAMMING_LANGUAGE) sample_answer_accepted)
      as (response & body & Hok & _ & _ & Hcount & Hmax & _ & Hflag).
    exists body. split; [exact Hok|].
    split; [vm_compute; reflexivity|].
    split; [rewrite Hcount; vm_compute; reflexivity|].
    split; [rewrite Hmax; vm_compute; reflexivity|].
    apply Hflag. vm_compute. discriminate.
  - eexists. eexists. split.
    + apply (Hnext threeAnswered (sampleSessionEvent "s1") sampleProvider (1 # 2) "s1" "acme"
               (sampleSessionOf threeAnswered) sampleAssessment generatedQuestion).
      * reflexivity.
      * discriminate.
      * reflexivity.
      * vm_compute; reflexivity.
      * vm_compute; reflexivity.
      * vm_compute; reflexivity.
      * discriminate.
      * reflexivity.
      * vm_compute; reflexivity.
      * discriminate.
      * intros a d performance. reflexivity.
      * discriminate.
      * discriminate.
    + split; vm_compute; reflexivity.
Defined.

(** ** Assessment creation *)

Lemma trimEnd_cons (c : ascii) (s : string) :
  trimEnd (String c s)
  = match trimEnd s with
    | EmptyString => if isWhiteSpace c then EmptyString else String c EmptyString
    | t => String c t
    end.
Proof. reflexivity. Qed.

Lemma trimEnd_idempotent (s : string) : trimEnd (trimEnd s) = trimEnd s.
Proof.
  induction s as [|c s IH]; [reflexivity|].
  rewrite trimEnd_cons. destruct (trimEnd s) as [|d t] eqn:Ht.
  - destruct (isWhiteSpace c) eqn:Hc; [reflexivity|].
    rewrite trimEnd_cons. cbn [trimEnd]. rewrite Hc. reflexivity.
  - rewrite trimEnd_cons, IH. reflexivity.
Qed.

Lemma trimStart_head (s : string) :
  trimStart s = "" \/ exists c s', trimStart s = String c s' /\ isWhiteSpace c = false.
Proof.
  induction s as [|c s IH]; [left; reflexivity|].
  cbn [trimStart]. destruct (isWhiteSpace c) eqn:Hc; [exact IH|].
  right. exists c, s. split; [reflexivity | exact Hc].
Qed.

Lemma trim_idempotent (s : string) : trim (trim s) = trim s.
Proof.
  unfold trim.
  destruct (trimStart_head s) as [-> | (c & s' & -> & Hc)]; [reflexivity|].
  assert (Hstart : trimStart (trimEnd (String c s')) = trimEnd (String c s')).
  { rewrite trimEnd_cons. rewrite Hc.
    destruct (trimEnd s'); cbn [trimStart]; rewrite Hc; reflexivity. }
  rewrite Hstart. apply trimEnd_idempotent.
Qed.

Lemma foldl_percentage_Qsum (mix : list KnowledgeAreaConfig.t) (acc : Q) :
  foldl (fun sum config => (sum + KnowledgeAreaConfig.percentage config)%Q) acc mix
  = foldl Qplus acc (List.map KnowledgeAreaConfig.percentage mix).
Proof.
  revert acc. induction mix as [|config mix IH]; intros acc; [reflexivity|].
  cbn [foldl List.map]. apply IH.
Qed.

Lemma Qlt_bool_iff (x y : Q) : Qlt_bool x y = true <-> (x < y)%Q.
Proof.
  split; [apply Qlt_bool_true|].
  intros Hlt. destruct (Qlt_bool x y) eqn:Hb; [reflexivity|].
  apply Qlt_bool_false in Hb. contradiction.
Qed.

Lemma Qlt_bool_ge (x y : Q) : Qlt_bool x y = false <-> (y <= x)%Q.
Proof.
  unfold Qlt_bool. rewrite negb_false_iff. apply Qle_bool_iff.
Qed.







(** ** Scoring Engine *)

(** C5, as the code has it. Two runs of the Scoring Engine on the same
    session and assessment agree on every field of the metrics except
    completedAt. They agree on completedAt too when the session carries a
    submission time; otherwise completedAt is the reading of the clock at
    each run. *)
Theorem scoring_deterministic_up_to_clock (session : CandidateSession.t)
    (assessment : Assessment.t) (now now' : string) :
  let m := calculatePerformanceMetrics session assessment now in
  let m' := calculatePerformanceMetrics session assessment now' in
  PerformanceMetrics.sessionId m = PerformanceMetrics.sessionId m'
  /\ PerformanceMetrics.assessmentId m = PerformanceMetrics.assessmentId m'
  /\ PerformanceMetrics.tenantId m = PerformanceMetrics.tenantId m'
  /\ PerformanceMetrics.overallScore m = PerformanceMetrics.overallScore m'
  /\ PerformanceMetrics.roleFitScore m = PerformanceMetrics.roleFitScore m'
  /\ PerformanceMetrics.passed m = PerformanceMetrics.passed m'
  /\ PerformanceMetrics.knowledgeAreaScores m = PerformanceMetrics.knowledgeAreaScores m'
  /\ PerformanceMetrics.strengths m = PerformanceMetrics.strengths m'
  /\ PerformanceMetrics.weaknesses m = PerformanceMetrics.weaknesses m'
  /\ (forall submittedAt,
        CandidateSession.submittedAt session = Some submittedAt -> submittedAt <> "" ->
        m = m' /\ PerformanceMetrics.completedAt m = submittedAt)
  /\ (truthyString (CandidateSession.submittedAt session) = None ->
      PerformanceMetrics.completedAt m = now /\ PerformanceMetrics.completedAt m' = now').
Proof.
  unfold calculatePerformanceMetrics. cbv zeta.
  destruct (identifyStrengthsAndWeaknesses _ _) as [strengths weaknesses].
  cbn [PerformanceMetrics.sessionId PerformanceMetrics.assessmentId
       PerformanceMetrics.tenantId PerformanceMetrics.overallScore
       PerformanceMetrics.roleFitScore PerformanceMetrics.passed
       PerformanceMetrics.knowledgeAreaScores PerformanceMetrics.strengths
       PerformanceMetrics.weaknesses PerformanceMetrics.completedAt].
  repeat (split; [reflexivity|]).
  split.
  - intros submittedAt Hs Hne. rewrite Hs. unfold string_or.
    rewrite (bool_decide_eq_false_2 _ Hne). split; reflexivity.
  - unfold truthyString, string_or.
    destruct (CandidateSession.submittedAt session) as [s|]; [|intros _; split; reflexivity].
    destruct (bool_decide (s = "")); [intros _; split; reflexivity | discriminate].
Qed.

(** The claim C5 as stated fails: a completed session without a submission
    time is scored with the clock of the call, so two runs at different
    times differ in completedAt. The same holds for the session as
    [submitSession] passes it to the engine: IN_PROGRESS, without a
    submission time. *)
Lemma scoring_reads_the_clock :
  CandidateSession.status (sampleSession COMPLETED threeCorrect None) = COMPLETED
  /\ PerformanceMetrics.completedAt
       (calculatePerformanceMetrics (sampleSession COMPLETED threeCorrect None)
                                    sampleAssessment "2024-05-01T11:00:00.000Z")
     = "2024-05-01T11:00:00.000Z"
  /\ PerformanceMetrics.completedAt
       (calculatePerformanceMetrics (sampleSession COMPLETED threeCorrect None)
                                    sampleAssessment "2024-05-01T11:00:07.000Z")
     = "2024-05-01T11:00:07.000Z"
  /\ calculatePerformanceMetrics (sampleSession COMPLETED threeCorrect None)
                                 sampleAssessment "2024-05-01T11:00:00.000Z"
     <> calculatePerformanceMetrics (sampleSession COMPLETED threeCorrect None)
                                    sampleAssessment "2024-05-01T11:00:07.000Z"
  /\ calculatePerformanceMetrics (sampleSessionOf threeAnswered)
                                 sampleAssessment "2024-05-01T11:00:00.000Z"
     <> calculatePerformanceMetrics (sampleSessionOf threeAnswered)
                                    sampleAssessment "2024-05-01T11:00:07.000Z".
Proof.
  split; [reflexivity|]. split; [vm_compute; reflexivity|].
  split; [vm_compute; reflexivity|].
  split; intros Heq; apply (f_equal PerformanceMetrics.completedAt) in Heq;
    vm_compute in Heq; discriminate.
Qed.

(** [submitSession] scores the session while it is still IN_PROGRESS and
    has no submission time: the metrics that it stores carry the clock of
    the scoring. *)
Example submitSession_stamps_the_clock :
  MetricsItem.completedAt
    <$> Store.METRICS
          (fst (submitSession (sampleSessionEvent "s1") noInsights
                  "2024-05-01T11:00:00.000Z" "2024-05-01T11:00:01.000Z" threeAnswered))
        !! ("acme", "s1")
  = Some "2024-05-01T11:00:00.000Z"
  /\ CandidateSession.status
       <$> Store.SESSIONS
             (fst (submitSession (sampleSessionEvent "s1") noInsights
                     "2024-05-01T11:00:00.000Z" "2024-05-01T11:00:01.000Z" threeAnswered))
           !! ("acme", "s1")
     = Some COMPLETED.
Proof. split; vm_compute; reflexivity. Qed.

(** *** Objects keyed by area *)

Lemma obj_get_set {V : Type} (o : JsObject V) (k k' : KnowledgeArea) (v : V) :
  obj_get (obj_set o k v) k' = if bool_decide (k = k') then Some v else obj_get o k'.
Proof.
  induction o as [|[k0 v0] o IH]; cbn [obj_set obj_get].
  - destruct (bool_decide (k = k')); reflexivity.
  - destruct (bool_decide_reflect (k0 = k)) as [-> | Hne]; cbn [obj_get].
    + destruct (bool_decide (k = k')); reflexivity.
    + rewrite IH. destruct (bool_decide_reflect (k0 = k')) as [-> | Hne'].
      * rewrite bool_decide_eq_false_2 by congruence. reflexivity.
      * reflexivity.
Qed.

Lemma obj_set_keys {V : Type} (o : JsObject V) (k x : KnowledgeArea) (v : V) :
  In x (List.map fst (obj_set o k v)) -> x = k \/ In x (List.map fst o).
Proof.
  induction o as [|[k0 v0] o IH]; cbn [obj_set].
  - intros [<- | []]. left; reflexivity.
  - destruct (bool_decide_reflect (k0 = k)) as [-> | Hne]; cbn [List.map fst In].
    + intros [<- | Hx]; [left; reflexivity | right; right; exact Hx].
    + intros [<- | Hx]; [right; left; reflexivity|].
      destruct (IH Hx) as [-> | Hin]; [left; reflexivity | right; right; exact Hin].
Qed.

Lemma obj_set_NoDup {V : Type} (o : JsObject V) (k : KnowledgeArea) (v : V) :
  List.NoDup (List.map fst o) -> List.NoDup (List.map fst (obj_set o k v)).
Proof.
  induction o as [|[k0 v0] o IH]; cbn [obj_set List.map fst]; intros Hnd.
  - constructor; [intros [] | constructor].
  - inversion Hnd as [|? ? Hnotin Hnd']; subst.
    destruct (bool_decide_reflect (k0 = k)) as [-> | Hne]; cbn [List.map fst].
    + constructor; assumption.
    + constructor; [|apply IH; exact Hnd'].
      intros Hin. apply obj_set_keys in Hin as [-> | Hin]; [congruence | contradiction].
Qed.

Lemma obj_get_None {V : Type} (o : JsObject V) (k : KnowledgeArea) :
  ~ In k (List.map fst o) -> obj_get o k = None.
Proof.
  induction o as [|[k0 v0] o IH]; cbn [obj_get List.map fst In]; [reflexivity|].
  intros Hnotin. rewrite bool_decide_eq_false_2 by tauto. apply IH. tauto.
Qed.

(** *** Grouping and scoring *)

Lemma initGroups_spec (mix : list KnowledgeAreaConfig.t)
    (groups : JsObject (list QuestionResponse.t)) (a : KnowledgeArea) :
  List.NoDup (List.map fst groups) ->
  let groups' :=
    foldl (fun areaGroups config => obj_set areaGroups (KnowledgeAreaConfig.area config) [])
          groups mix in
  List.NoDup (List.map fst groups')
  /\ (In a (List.map KnowledgeAreaConfig.area mix) \/ obj_get groups a = Some [] ->
      obj_get groups' a = Some []).
Proof.
  revert groups. induction mix as [|config mix IH]; intros groups Hnd; cbn [foldl List.map In].
  - split; [exact Hnd|]. intros [[] | H]. exact H.
  - destruct (IH (obj_set groups (KnowledgeAreaConfig.area config) [])
                 (obj_set_NoDup _ _ _ Hnd)) as [Hnd' Hget].
    split; [exact Hnd'|]. intros H. apply Hget.
    rewrite obj_get_set.
    destruct (bool_decide_reflect (KnowledgeAreaConfig.area config = a)) as [Heq | Hne].
    + right; reflexivity.
    + destruct H as [[Heq | Hin] | H]; [contradiction | left; exact Hin | right; exact H].
Qed.

Lemma responsesOf_cons (a : KnowledgeArea) (r : QuestionResponse.t)
    (log : list QuestionResponse.t) :
  responsesOf a (r :: log)
  = if bool_decide (QuestionResponse.knowledgeArea r = a)
    then r :: responsesOf a log else responsesOf a log.
Proof.
  unfold responsesOf, inArea. cbn [List.filter].
  destruct (bool_decide (QuestionResponse.knowledgeArea r = a)); reflexivity.
Qed.

Lemma pushResponses_spec (log : list QuestionResponse.t)
    (groups : JsObject (list QuestionResponse.t)) (a : KnowledgeArea) :
  List.NoDup (List.map fst groups) ->
  let groups' :=
    foldl (fun areaGroups response =>
             match obj_get areaGroups (QuestionResponse.knowledgeArea response) with
             | Some responses =>
                 obj_set areaGroups (QuestionResponse.knowledgeArea response)
                         (responses ++ [response])%list
             | None => areaGroups
             end)
          groups log in
  List.NoDup (List.map fst groups')
  /\ obj_get groups' a
     = (fun responses => (responses ++ responsesOf a log)%list) <$> obj_get groups a.
Proof.
  revert groups. induction log as [|r log IH]; intros groups Hnd; cbn [foldl].
  - split; [exact Hnd|].
    destruct (obj_get groups a); cbn; [rewrite app_nil_r|]; reflexivity.
  - set (groups1 :=
           match obj_get groups (QuestionResponse.knowledgeArea r) with
           | Some responses =>
               obj_set groups (QuestionResponse.knowledgeArea r) (responses ++ [r])%list
           | None => groups
           end).
    assert (Hnd1 : List.NoDup (List.map fst groups1)).
    { subst groups1. destruct (obj_get groups _); [apply obj_set_NoDup|]; exact Hnd. }
    destruct (IH groups1 Hnd1) as [Hnd' Hget].
    split; [exact Hnd'|]. rewrite Hget, responsesOf_cons. subst groups1.
    destruct (bool_decide_reflect (QuestionResponse.knowledgeArea r = a)) as [Heq | Hne].
    + rewrite Heq.
      destruct (obj_get groups a) as [responses|] eqn:Hg.
      * rewrite obj_get_set, bool_decide_eq_true_2 by reflexivity.
        cbn. rewrite <- app_assoc. reflexivity.
      * rewrite Hg. reflexivity.
    + destruct (obj_get groups (QuestionResponse.knowledgeArea r)); [|reflexivity].
      rewrite obj_get_set, bool_decide_eq_false_2 by exact Hne. reflexivity.
Qed.

(** The group of a configured area holds the responses of that area, in
    the order of the log. *)
Lemma groupByArea_spec (mix : list KnowledgeAreaConfig.t) (log : list QuestionResponse.t)
    (config : KnowledgeAreaConfig.t) :
  In config mix ->
  List.NoDup (List.map fst (groupByArea mix log))
  /\ obj_get (groupByArea mix log) (KnowledgeAreaConfig.area config)
     = Some (responsesOf (KnowledgeAreaConfig.area config) log).
Proof.
  intros Hin. unfold groupByArea.
  destruct (initGroups_spec mix [] (KnowledgeAreaConfig.area config) (List.NoDup_nil _))
    as [Hnd0 Hget0].
  destruct (pushResponses_spec log _ (KnowledgeAreaConfig.area config) Hnd0) as [Hnd Hget].
  split; [exact Hnd|]. rewrite Hget, Hget0; [reflexivity|].
  left. apply in_map. exact Hin.
Qed.

Lemma scoreAreas_spec (groups : JsObject (list QuestionResponse.t))
    (scores : JsObject AreaScore.t) (a : KnowledgeArea) :
  List.NoDup (List.map fst groups) ->
  obj_get
    (foldl (fun knowledgeAreaScores '(a, responses) =>
              if (length responses =? 0)%nat then knowledgeAreaScores
              else obj_set knowledgeAreaScores a (scoreArea responses))
           scores groups) a
  = match obj_get groups a with
    | Some responses =>
        if (length responses =? 0)%nat then obj_get scores a
        else Some (scoreArea responses)
    | None => obj_get scores a
    end.
Proof.
  revert scores. induction groups as [|[k responses] groups IH]; intros scores Hnd;
    cbn [foldl obj_get]; [reflexivity|].
  inversion Hnd as [|? ? Hnotin Hnd']; subst.
  rewrite (IH _ Hnd').
  destruct (bool_decide_reflect (k = a)) as [-> | Hne].
  - rewrite (obj_get_None groups a Hnotin).
    destruct (length responses =? 0)%nat; [reflexivity|].
    rewrite obj_get_set, bool_decide_eq_true_2 by reflexivity. reflexivity.
  - assert (Hscores : obj_get (if (length responses =? 0)%nat then scores
                               else obj_set scores k (scoreArea responses)) a
                      = obj_get scores a).
    { destruct (length responses =? 0)%nat; [reflexivity|].
      rewrite obj_get_set, bool_decide_eq_false_2 by exact Hne. reflexivity. }
    rewrite Hscores. reflexivity.
Qed.

(** The score that the engine holds for a configured area: the score of
    the area's responses when it has any, and none otherwise. *)
Lemma answeredScore_spec (mix : list KnowledgeAreaConfig.t) (log : list QuestionResponse.t)
    (config : KnowledgeAreaConfig.t) :
  In config mix ->
  answeredScore (scoreAreas (groupByArea mix log)) (KnowledgeAreaConfig.area config)
  = if (0 <? answeredInArea (KnowledgeAreaConfig.area config) log)%nat
    then Some (scoreArea (responsesOf (KnowledgeAreaConfig.area config) log))
    else None.
Proof.
  intros Hin. destruct (groupByArea_spec mix log config Hin) as [Hnd Hget].
  unfold answeredScore, scoreAreas. rewrite (scoreAreas_spec _ [] _ Hnd), Hget.
  unfold answeredInArea. cbn [obj_get].
  destruct (length (responsesOf (KnowledgeAreaConfig.area config) log)) as [|n] eqn:Hlen;
    [reflexivity|].
  cbn [Nat.eqb AreaScore.questionsAnswered scoreArea]. rewrite Hlen. reflexivity.
Qed.

(** *** Role-fit score *)

Lemma applyRoleMultiplier_roleWeight (s : SeniorityLevel) (config : KnowledgeAreaConfig.t) :
  (applyRoleMultiplier s (KnowledgeAreaConfig.area config)
                       (KnowledgeAreaConfig.percentage config / 100)
   == roleWeight s config / 100)%Q.
Proof.
  unfold applyRoleMultiplier, roleWeight, roleBoost.
  destruct s, (KnowledgeAreaConfig.area config); field.
Qed.

(** The two totals of the loop of [calculateRoleFitScore], in terms of the
    answered areas of the mix. *)
Lemma roleFitTotals_spec (mix : list KnowledgeAreaConfig.t) (log : list QuestionResponse.t)
    (targetRole : TargetRole.t) (l : list KnowledgeAreaConfig.t) (x y : Q) :
  incl l mix ->
  let s := TargetRole.seniorityLevel targetRole in
  let totals :=
    foldl (fun '(totalWeightedScore, totalWeight) config =>
             match answeredScore (scoreAreas (groupByArea mix log))
                                 (KnowledgeAreaConfig.area config) with
             | Some areaScore =>
                 let weight := (KnowledgeAreaConfig.percentage config / 100)%Q in
                 let weight :=
                   applyRoleMultiplier (TargetRole.seniorityLevel targetRole)
                                       (KnowledgeAreaConfig.area config) weight in
                 ((totalWeightedScore + AreaScore.score areaScore * weight)%Q,
                  (totalWeight + weight)%Q)
             | None => (totalWeightedScore, totalWeight)
             end)
          (x, y) l in
  (fst totals
   == x + Qtotal (List.map (fun config =>
                              areaScoreOf (KnowledgeAreaConfig.area config) log
                              * roleWeight s config)
                           (answeredConfigs l log)) / 100)%Q
  /\ (snd totals == y + Qtotal (List.map (roleWeight s) (answeredConfigs l log)) / 100)%Q.
Proof.
  intros Hincl s. revert x y.
  induction l as [|config l IH]; intros x y; cbn [foldl].
  - cbn. split; field.
  - assert (Hin : In config mix) by (apply Hincl; left; reflexivity).
    assert (Hl : incl l mix) by (intros c Hc; apply Hincl; right; exact Hc).
    specialize (IH Hl).
    rewrite (answeredScore_spec mix log config Hin).
    unfold answeredConfigs. cbn [List.filter]. fold (answeredConfigs l log).
    destruct (0 <? answeredInArea (KnowledgeAreaConfig.area config) log)%nat.
    + cbv zeta. cbn [List.map Qtotal fold_right].
      destruct (IH (x + AreaScore.score
                          (scoreArea (responsesOf (KnowledgeAreaConfig.area config) log))
                        * applyRoleMultiplier (TargetRole.seniorityLevel targetRole)
                            (KnowledgeAreaConfig.area config)
                            (KnowledgeAreaConfig.percentage config / 100))%Q
                   (y + applyRoleMultiplier (TargetRole.seniorityLevel targetRole)
                          (KnowledgeAreaConfig.area config)
                          (KnowledgeAreaConfig.percentage config / 100))%Q)
        as [Hfst Hsnd].
      split.
      * rewrite Hfst, applyRoleMultiplier_roleWeight.
        change (AreaScore.score (scoreArea (responsesOf (KnowledgeAreaConfig.area config) log)))
          with (areaScoreOf (KnowledgeAreaConfig.area config) log).
        fold s. unfold Qtotal. field.
      * rewrite Hsnd, applyRoleMultiplier_roleWeight. fold s. unfold Qtotal. field.
    + exact (IH x y).
Qed.


Lemma num_pos (n : nat) : (0 < n)%nat -> (0 < num n)%Q.
Proof.
  intros Hn. unfold num. change 0%Q with (inject_Z 0). rewrite <- Zlt_Qlt. lia.
Qed.






Lemma Math_round_comp (x y : Q) : (x == y)%Q -> Math_round x = Math_round y.
Proof.
  intros Heq. unfold Math_round. apply Qfloor_comp. rewrite Heq. reflexivity.
Qed.




Lemma calculatePerformanceMetrics_roleFitScore (session : CandidateSession.t)
    (assessment : Assessment.t) (now : string) :
  PerformanceMetrics.roleFitScore (calculatePerformanceMetrics session assessment now)
  = calculateRoleFitScore
      (scoreAreas (groupByArea (Assessment.knowledgeAreaMix assessment)
                               (CandidateSession.questionsAnswered session)))
      (Assessment.targetRole assessment) (Assessment.knowledgeAreaMix assessment).
Proof.
  unfold calculatePerformanceMetrics. cbv zeta.
  destruct (identifyStrengthsAndWeaknesses _ _). reflexivity.
Qed.


Lemma clamp_comp (x y : Q) :
  (x == y)%Q -> (Math_min 100 (Math_max 0 x) == Math_min 100 (Math_max 0 y))%Q.
Proof.
  intros Heq. unfold Math_min, Math_max.
  assert (H0 : Qle_bool 0 x = Qle_bool 0 y).
  { destruct (Qle_bool 0 x) eqn:Hx, (Qle_bool 0 y) eqn:Hy; try reflexivity.
    - apply Qle_bool_iff in Hx. apply Qle_bool_false in Hy. exfalso. apply Hy.
      rewrite <- Heq. exact Hx.
    - apply Qle_bool_iff in Hy. apply Qle_bool_false in Hx. exfalso. apply Hx.
      rewrite Heq. exact Hy. }
  rewrite <- H0. destruct (Qle_bool 0 x); [|reflexivity].
  assert (H1 : Qle_bool 100 x = Qle_bool 100 y).
  { destruct (Qle_bool 100 x) eqn:Hx, (Qle_bool 100 y) eqn:Hy; try reflexivity.
    - apply Qle_bool_iff in Hx. apply Qle_bool_false in Hy. exfalso. apply Hy.
      rewrite <- Heq. exact Hx.
    - apply Qle_bool_iff in Hy. apply Qle_bool_false in Hx. exfalso. apply Hx.
      rewrite Heq. exact Hy. }
  rewrite <- H1. destruct (Qle_bool 100 x); [reflexivity | exact Heq].
Qed.

(** The role-fit score of the engine, for every session and assessment:
    the weighted mean of the specification, clamped to 0..100 and rounded,
    and 0 when no answered area carries weight. *)
Lemma calculateRoleFitScore_clamped (session : CandidateSession.t) (assessment : Assessment.t) :
  let log := CandidateSession.questionsAnswered session in
  calculateRoleFitScore
      (scoreAreas (groupByArea (Assessment.knowledgeAreaMix assessment) log))
      (Assessment.targetRole assessment) (Assessment.knowledgeAreaMix assessment)
  = if Qeq_bool (roleFitWeight assessment log) 0 then 0
    else Math_round (Math_min 100 (Math_max 0 (roleFitMean assessment log))).
Proof.
  intros log.
  set (mix := Assessment.knowledgeAreaMix assessment).
  set (s := TargetRole.seniorityLevel (Assessment.targetRole assessment)).
  pose proof (roleFitTotals_spec mix log (Assessment.targetRole assessment) mix 0 0
                (incl_refl mix)) as Htotals.
  cbv zeta in Htotals. fold s in Htotals.
  unfold calculateRoleFitScore, roleFitTotals. fold mix.
  destruct (foldl _ (0%Q, 0%Q) mix) as [totalWeightedScore totalWeight].
  cbn [fst snd] in Htotals. destruct Htotals as [Hscore Hweight].
  unfold roleFitMean, roleFitWeight. fold mix s.
  set (T := Qtotal (List.map (roleWeight s) (answeredConfigs mix log))) in *.
  set (N := Qtotal (List.map (fun config =>
                                (areaScoreOf (KnowledgeAreaConfig.area config) log
                                 * roleWeight s config)%Q)
                             (answeredConfigs mix log))) in *.
  assert (Hdiv : (T / 100 == T * (1 # 100))%Q) by field.
  destruct (Qeq_bool T 0) eqn:HT0.
  - apply Qeq_bool_iff in HT0.
    assert (Hzero : Qeq_bool totalWeight 0 = true)
      by (apply Qeq_bool_iff; rewrite Hweight, HT0; field).
    rewrite Hzero. reflexivity.
  - assert (HTne : ~ (T == 0)%Q) by (intros H; apply Qeq_bool_iff in H; congruence).
    assert (Hne : Qeq_bool totalWeight 0 = false).
    { destruct (Qeq_bool totalWeight 0) eqn:Hb; [|reflexivity].
      apply Qeq_bool_iff in Hb. exfalso. apply HTne.
      rewrite Hweight, Hdiv in Hb. lra. }
    rewrite Hne. apply Math_round_comp, clamp_comp.
    rewrite Hscore, Hweight. field. exact HTne.
Qed.






(** The example of section 8 on a session: the log with 9 of 10 on systems,
    4 of 5 on algorithms and 1 of 2 on quantitative reasoning is scored
    with the role-fit score 78 and the overall score 75. *)
Example senior_session_scores :
  let m := calculatePerformanceMetrics (sampleSession IN_PROGRESS seniorLog None)
                                       seniorAssessment sampleClock in
  PerformanceMetrics.roleFitScore m = 78
  /\ (PerformanceMetrics.overallScore m == 75)%Q
  /\ PerformanceMetrics.passed m = true
  /\ PerformanceMetrics.strengths m = [SYSTEM_SCENARIO_DESIGN]
  /\ PerformanceMetrics.weaknesses m = [QUANTITATIVE_MATH].
Proof. cbv zeta. repeat split; vm_compute; reflexivity. Qed.

(** The second copy of the scoring engine adds an adjustment to the overall
    score: on the example it gives 81, which also exceeds the overall
    score, and which is not the weighted mean of the boosted weights. *)
Example second_copy_on_the_example :
  SecondCopy.calculateRoleFitScore (seniorScores QUANTITATIVE_MATH) seniorRole
                                   (seniorMix QUANTITATIVE_MATH) = 81
  /\ (calculateWeightedScore (seniorScores QUANTITATIVE_MATH) (seniorMix QUANTITATIVE_MATH)
      < 81)%Q.
Proof. split; vm_compute; reflexivity. Qed.

(** * Further properties of the code *)

(** ** More on the Difficulty Adjuster *)

Lemma calculateNextDifficulty_step (d : DifficultyLevel) (a : KnowledgeArea)
    (log : list QuestionResponse.t) :
  let d' := calculateNextDifficulty d a log in
  d' = d \/ (d' = d + 1 /\ d < 5) \/ (d' = d - 1 /\ d > 1).
Proof.
  unfold calculateNextDifficulty. cbv zeta.
  destruct (_ <? _)%nat; [left; reflexivity|].
  destruct (Qle_bool _ _); cbn [andb].
  - destruct (d <? MAX_DIFFICULTY) eqn:E.
    + right. left. apply Z.ltb_lt in E. unfold MAX_DIFFICULTY in E. lia.
    + destruct (Qlt_bool _ _); cbn [andb]; [|left; reflexivity].
      destruct (d >? MIN_DIFFICULTY) eqn:E'; [|left; reflexivity].
      right. right. apply Z.gtb_lt in E'. unfold MIN_DIFFICULTY in E'. lia.
  - destruct (Qlt_bool _ _); cbn [andb]; [|left; reflexivity].
    destruct (d >? MIN_DIFFICULTY) eqn:E'; [|left; reflexivity].
    right. right. apply Z.gtb_lt in E'. unfold MIN_DIFFICULTY in E'. lia.
Qed.


Lemma filter_isCorrect_map (l : list QuestionResponse.t) :
  length (List.filter QuestionResponse.isCorrect l)
  = length (List.filter (fun b : bool => b) (List.map QuestionResponse.isCorrect l)).
Proof.
  induction l as [|r l IH]; [reflexivity|]. cbn [List.map List.filter].
  destruct (QuestionResponse.isCorrect r); cbn [length]; congruence.
Qed.

(** X2. With three or more responses in the area, the Adjuster reads only
    the outcomes of the last three of them: two logs that agree on these
    give the same difficulty. *)
Theorem calculateNextDifficulty_window (d : DifficultyLevel) (a : KnowledgeArea)
    (log log' : list QuestionResponse.t) :
  (3 <= answeredInArea a log)%nat ->
  (3 <= answeredInArea a log')%nat ->
  List.map QuestionResponse.isCorrect (lastN 3 (responsesOf a log))
  = List.map QuestionResponse.isCorrect (lastN 3 (responsesOf a log')) ->
  calculateNextDifficulty d a log = calculateNextDifficulty d a log'.
Proof.
  intros Hlog Hlog' Hsame. unfold calculateNextDifficulty. cbv zeta.
  fold (responsesOf a log) (responsesOf a log').
  unfold answeredInArea in Hlog, Hlog'.
  assert (Hlen : forall l : list QuestionResponse.t,
             (3 <= length l)%nat -> (length l <? DIFFICULTY_STABLE_WINDOW)%nat = false).
  { intros l Hl. apply Nat.ltb_ge. exact Hl. }
  rewrite (Hlen _ Hlog), (Hlen _ Hlog').
  unfold DIFFICULTY_STABLE_WINDOW.
  rewrite !(slice_last_length 3) by assumption.
  rewrite !filter_isCorrect_map, !slice_last_lastN, Hsame. reflexivity.
Qed.

Lemma calculateNextDifficulty_window_witness :
  (3 <= answeredInArea ALGORITHMS_DATA_STRUCTURES threeCorrect)%nat
  /\ (3 <= answeredInArea ALGORITHMS_DATA_STRUCTURES fourOnAlgorithms)%nat
  /\ threeCorrect <> fourOnAlgorithms
  /\ calculateNextDifficulty 2 ALGORITHMS_DATA_STRUCTURES threeCorrect
     = calculateNextDifficulty 2 ALGORITHMS_DATA_STRUCTURES fourOnAlgorithms.
Proof.
  split; [vm_compute; lia|]. split; [vm_compute; lia|]. split; [discriminate|].
  apply calculateNextDifficulty_window; [vm_compute; lia | vm_compute; lia | reflexivity].
Defined.

Lemma updateSessionDifficulties_range (session : CandidateSession.t) :
  (forall a d, CandidateSession.currentDifficulty session !! a = Some d -> 1 <= d <= 5) ->
  forall a d, updateSessionDifficulties session !! a = Some d -> 1 <= d <= 5.
Proof.
  intros Hrange a d. rewrite updateSessionDifficulties_lookup.
  destruct (0 <? answeredInArea a _)%nat; [|apply Hrange].
  intros [= <-].
  set (d0 := or_default (CandidateSession.currentDifficulty session !! a) 3).
  assert (Hd0 : 1 <= d0 <= 5).
  { unfold d0, or_default.
    destruct (CandidateSession.currentDifficulty session !! a) as [v|] eqn:Hv; [|lia].
    destruct (v =? 0); [lia | exact (Hrange a v Hv)]. }
  destruct (calculateNextDifficulty_step d0 a (CandidateSession.questionsAnswered session))
    as [H|[[H ?]|[H ?]]]; lia.
Qed.

(** X3. [updateSessionDifficulties] keeps the difficulties of a session in
    1..5, and the areas of its result are those that had a difficulty and
    those that have a response. *)
Theorem updateSessionDifficulties_in_range (session : CandidateSession.t) :
  (forall a d, CandidateSession.currentDifficulty session !! a = Some d -> 1 <= d <= 5) ->
  forall a,
    (is_Some (updateSessionDifficulties session !! a)
     <-> is_Some (CandidateSession.currentDifficulty session !! a)
         \/ (0 < answeredInArea a (CandidateSession.questionsAnswered session))%nat)
    /\ forall d, updateSessionDifficulties session !! a = Some d -> 1 <= d <= 5.
Proof.
  intros Hrange a. split; [|apply updateSessionDifficulties_range; exact Hrange].
  rewrite updateSessionDifficulties_lookup.
  destruct (0 <? answeredInArea a _)%nat eqn:Hans.
  - apply Nat.ltb_lt in Hans.
    split; [intros _; right; exact Hans | intros _; eexists; reflexivity].
  - apply Nat.ltb_ge in Hans.
    split; [intros H; left; exact H | intros [H|H]; [exact H | lia]].
Qed.

Lemma updateSessionDifficulties_in_range_witness :
  (forall a d,
      CandidateSession.currentDifficulty (sampleSession IN_PROGRESS threeCorrect None) !! a
      = Some d -> 1 <= d <= 5)
  /\ updateSessionDifficulties (sampleSession IN_PROGRESS threeCorrect None)
       !! ALGORITHMS_DATA_STRUCTURES = Some 4
  /\ 1 <= 4 <= 5.
Proof.
  assert (H : forall a d,
             CandidateSession.currentDifficulty (sampleSession IN_PROGRESS threeCorrect None)
               !! a = Some d -> 1 <= d <= 5).
  { intros a d. destruct a; vm_compute; intros [= <-]; split; discriminate. }
  split; [exact H|].
  assert (H4 : updateSessionDifficulties (sampleSession IN_PROGRESS threeCorrect None)
                 !! ALGORITHMS_DATA_STRUCTURES = Some 4) by (vm_compute; reflexivity).
  split; [exact H4|].
  exact (proj2 (updateSessionDifficulties_in_range _ H ALGORITHMS_DATA_STRUCTURES) 4 H4).
Defined.

(** ** More on the Knowledge Area Selector *)




(** ** Weighted random selection *)

Lemma foldl_Qplus_shift (l : list Q) (x : Q) : (foldl Qplus x l == x + Qsum l)%Q.
Proof.
  unfold Qsum. revert x. induction l as [|y l IH]; intros x; cbn [foldl].
  - ring.
  - rewrite (IH (x + y)%Q), (IH (0 + y)%Q). ring.
Qed.

Lemma Qsum_cons (x : Q) (l : list Q) : (Qsum (x :: l) == x + Qsum l)%Q.
Proof. unfold Qsum at 1. cbn [foldl]. rewrite foldl_Qplus_shift. ring. Qed.





(** ** More on the Scoring Engine *)

Lemma weightedTotals_spec (mix : list KnowledgeAreaConfig.t) (log : list QuestionResponse.t)
    (l : list KnowledgeAreaConfig.t) (x y : Q) :
  incl l mix ->
  let totals :=
    foldl (fun '(totalWeightedScore, totalWeight) config =>
             match answeredScore (scoreAreas (groupByArea mix log))
                                 (KnowledgeAreaConfig.area config) with
             | Some areaScore =>
                 let weight := (KnowledgeAreaConfig.percentage config / 100)%Q in
                 ((totalWeightedScore + AreaScore.score areaScore * weight)%Q,
                  (totalWeight + weight)%Q)
             | None => (totalWeightedScore, totalWeight)
             end)
          (x, y) l in
  (fst totals
   == x + Qtotal (List.map (fun config =>
                              areaScoreOf (KnowledgeAreaConfig.area config) log
                              * KnowledgeAreaConfig.percentage config)
                           (answeredConfigs l log)) / 100)%Q
  /\ (snd totals
      == y + Qtotal (List.map KnowledgeAreaConfig.percentage (answeredConfigs l log)) / 100)%Q.
Proof.
  intros Hincl. revert x y.
  induction l as [|config l IH]; intros x y; cbn [foldl].
  - cbn. split; field.
  - assert (Hin : In config mix) by (apply Hincl; left; reflexivity).
    assert (Hl : incl l mix) by (intros c Hc; apply Hincl; right; exact Hc).
    specialize (IH Hl).
    rewrite (answeredScore_spec mix log config Hin).
    unfold answeredConfigs. cbn [List.filter]. fold (answeredConfigs l log).
    destruct (0 <? answeredInArea (KnowledgeAreaConfig.area config) log)%nat.
    + cbv zeta. cbn [List.map Qtotal fold_right].
      destruct (IH (x + AreaScore.score
                          (scoreArea (responsesOf (KnowledgeAreaConfig.area config) log))
                        * (KnowledgeAreaConfig.percentage config / 100))%Q
                   (y + KnowledgeAreaConfig.percentage config / 100)%Q)
        as [Hfst Hsnd].
      split.
      * rewrite Hfst.
        change (AreaScore.score (scoreArea (responsesOf (KnowledgeAreaConfig.area config) log)))
          with (areaScoreOf (KnowledgeAreaConfig.area config) log).
        unfold Qtotal. field.
      * rewrite Hsnd. unfold Qtotal. field.
    + exact (IH x y).
Qed.

Lemma calculatePerformanceMetrics_overallScore (session : CandidateSession.t)
    (assessment : Assessment.t) (now : string) :
  PerformanceMetrics.overallScore (calculatePerformanceMetrics session assessment now)
  = calculateWeightedScore
      (scoreAreas (groupByArea (Assessment.knowledgeAreaMix assessment)
                               (CandidateSession.questionsAnswered session)))
      (Assessment.knowledgeAreaMix assessment).
Proof.
  unfold calculatePerformanceMetrics. cbv zeta.
  destruct (identifyStrengthsAndWeaknesses _ _). reflexivity.
Qed.

Lemma calculateWeightedScore_mean (mix : list KnowledgeAreaConfig.t)
    (log : list QuestionResponse.t) :
  (calculateWeightedScore (scoreAreas (groupByArea mix log)) mix
   == if Qlt_bool 0 (overallWeight mix log) then overallMean mix log else 0)%Q.
Proof.
  pose proof (weightedTotals_spec mix log mix 0 0 (incl_refl mix)) as Htotals.
  cbv zeta in Htotals. unfold calculateWeightedScore.
  destruct (foldl _ (0%Q, 0%Q) mix) as [totalWeightedScore totalWeight].
  cbn [fst snd] in Htotals. destruct Htotals as [Hscore Hweight].
  unfold overallMean, overallWeight.
  set (T := Qtotal (List.map KnowledgeAreaConfig.percentage (answeredConfigs mix log))) in *.
  set (N := Qtotal (List.map (fun config =>
                                (areaScoreOf (KnowledgeAreaConfig.area config) log
                                 * KnowledgeAreaConfig.percentage config)%Q)
                             (answeredConfigs mix log))) in *.
  assert (Hdiv : (T / 100 == T * (1 # 100))%Q) by field.
  assert (Hsame : Qlt_bool 0 totalWeight = Qlt_bool 0 T).
  { destruct (Qlt_bool 0 T) eqn:E.
    - apply Qlt_bool_iff. apply Qlt_bool_iff in E. rewrite Hweight, Hdiv. lra.
    - apply Qlt_bool_ge. apply Qlt_bool_ge in E. rewrite Hweight, Hdiv. lra. }
  rewrite Hsame. destruct (Qlt_bool 0 T) eqn:E; [|reflexivity].
  apply Qlt_bool_iff in E.
  rewrite Hscore, Hweight. field. intros H0. rewrite H0 in E. apply (Qlt_irrefl 0). exact E.
Qed.









Lemma calculatePerformanceMetrics_passed (session : CandidateSession.t)
    (assessment : Assessment.t) (now : string) :
  PerformanceMetrics.passed (calculatePerformanceMetrics session assessment now)
  = Qle_bool
      (number_or (Assessment.passThreshold assessment)
         (getDefaultPassThreshold
            (TargetRole.seniorityLevel (Assessment.targetRole assessment))))
      (inject_Z (PerformanceMetrics.roleFitScore
                   (calculatePerformanceMetrics session assessment now))).
Proof.
  unfold calculatePerformanceMetrics. cbv zeta.
  destruct (identifyStrengthsAndWeaknesses _ _). reflexivity.
Qed.



Lemma initGroups_None (mix : list KnowledgeAreaConfig.t)
    (groups : JsObject (list QuestionResponse.t)) (a : KnowledgeArea) :
  ~ In a (List.map KnowledgeAreaConfig.area mix) ->
  obj_get groups a = None ->
  obj_get (foldl (fun areaGroups config =>
                    obj_set areaGroups (KnowledgeAreaConfig.area config) [])
                 groups mix) a = None.
Proof.
  revert groups. induction mix as [|config mix IH]; intros groups Hnot Hget; cbn [foldl].
  - exact Hget.
  - apply IH.
    + intros Hin. apply Hnot. right. exact Hin.
    + rewrite obj_get_set.
      destruct (bool_decide_reflect (KnowledgeAreaConfig.area config = a)) as [Heq | Hne];
        [|exact Hget].
      exfalso. apply Hnot. left. exact Heq.
Qed.

Lemma groupByArea_lookup (mix : list KnowledgeAreaConfig.t) (log : list QuestionResponse.t)
    (a : KnowledgeArea) :
  List.NoDup (List.map fst (groupByArea mix log))
  /\ (In a (List.map KnowledgeAreaConfig.area mix) ->
      obj_get (groupByArea mix log) a = Some (responsesOf a log))
  /\ (~ In a (List.map KnowledgeAreaConfig.area mix) ->
      obj_get (groupByArea mix log) a = None).
Proof.
  unfold groupByArea.
  destruct (initGroups_spec mix [] a (List.NoDup_nil _)) as [Hnd0 Hget0].
  destruct (pushResponses_spec log _ a Hnd0) as [Hnd Hget].
  split; [exact Hnd|]. split.
  - intros Hin. rewrite Hget, Hget0; [reflexivity | left; exact Hin].
  - intros Hnot. rewrite Hget, (initGroups_None mix [] a Hnot); reflexivity.
Qed.

Lemma scoreAreas_lookup (mix : list KnowledgeAreaConfig.t) (log : list QuestionResponse.t)
    (a : KnowledgeArea) :
  obj_get (scoreAreas (groupByArea mix log)) a
  = if bool_decide (a ∈ List.map KnowledgeAreaConfig.area mix)
       && (0 <? answeredInArea a log)%nat
    then Some (scoreArea (responsesOf a log))
    else None.
Proof.
  destruct (groupByArea_lookup mix log a) as (Hnd & Hin & Hnot).
  unfold scoreAreas. rewrite (scoreAreas_spec _ [] _ Hnd). cbn [obj_get].
  destruct (bool_decide_reflect (a ∈ List.map KnowledgeAreaConfig.area mix)) as [Ha | Ha].
  - rewrite Hin by (apply list_elem_of_In; exact Ha). cbn [andb].
    unfold answeredInArea. destruct (length (responsesOf a log)); reflexivity.
  - rewrite Hnot by (intros H; apply Ha, list_elem_of_In; exact H). reflexivity.
Qed.

Lemma calculatePerformanceMetrics_knowledgeAreaScores (session : CandidateSession.t)
    (assessment : Assessment.t) (now : string) :
  PerformanceMetrics.knowledgeAreaScores (calculatePerformanceMetrics session assessment now)
  = scoreAreas (groupByArea (Assessment.knowledgeAreaMix assessment)
                            (CandidateSession.questionsAnswered session)).
Proof.
  unfold calculatePerformanceMetrics. cbv zeta.
  destruct (identifyStrengthsAndWeaknesses _ _). reflexivity.
Qed.

(** X8. The breakdown by area of the metrics has an entry exactly for the
    areas of the mix that have an answer; the entry counts the answers of
    the area and the correct ones, and its score is their ratio times 100.
    Answers in an area outside the mix are not scored. *)
Theorem knowledgeAreaScores_breakdown (session : CandidateSession.t)
    (assessment : Assessment.t) (now : string) (a : KnowledgeArea) :
  let mix := Assessment.knowledgeAreaMix assessment in
  let log := CandidateSession.questionsAnswered session in
  let breakdown :=
    PerformanceMetrics.knowledgeAreaScores
      (calculatePerformanceMetrics session assessment now) in
  (In a (List.map KnowledgeAreaConfig.area mix) /\ (0 < answeredInArea a log)%nat ->
   exists areaScore,
     obj_get breakdown a = Some areaScore
     /\ AreaScore.questionsAnswered areaScore = answeredInArea a log
     /\ AreaScore.correctAnswers areaScore = correctInArea a log
     /\ AreaScore.score areaScore = areaScoreOf a log)
  /\ (~ In a (List.map KnowledgeAreaConfig.area mix) \/ answeredInArea a log = 0%nat ->
      obj_get breakdown a = None).
Proof.
  intros mix log breakdown. subst breakdown.
  rewrite calculatePerformanceMetrics_knowledgeAreaScores. fold mix log.
  rewrite scoreAreas_lookup. split.
  - intros [Hin Hpos].
    rewrite (bool_decide_eq_true_2 _ (proj2 (list_elem_of_In _ _) Hin)).
    rewrite (proj2 (Nat.ltb_lt _ _) Hpos). cbn [andb].
    eexists. split; [reflexivity|]. split; [reflexivity|]. split; reflexivity.
  - intros [Hnot | Hzero].
    + rewrite bool_decide_eq_false_2; [reflexivity|].
      intros H. apply Hnot, list_elem_of_In. exact H.
    + rewrite Hzero. rewrite andb_false_r. reflexivity.
Qed.

(** ** Strengths and weaknesses *)



Lemma obj_get_In {V : Type} (o : JsObject V) (k : KnowledgeArea) (v : V) :
  obj_get o k = Some v -> In v (List.map snd o).
Proof.
  induction o as [|[k' v'] o IH]; cbn [obj_get List.map In snd]; [discriminate|].
  destruct (bool_decide (k' = k)); [intros [= <-]; left; reflexivity|].
  intros H. right. exact (IH H).
Qed.

Lemma answeredScore_In (areaScores : JsObject AreaScore.t) (a : KnowledgeArea)
    (areaScore : AreaScore.t) :
  answeredScore areaScores a = Some areaScore ->
  In (AreaScore.score areaScore) (answeredScores areaScores).
Proof.
  unfold answeredScore, answeredScores.
  destruct (obj_get areaScores a) as [s|] eqn:Hget; [|discriminate].
  destruct (0 <? AreaScore.questionsAnswered s)%nat eqn:Hpos; [|discriminate].
  intros [= <-]. apply in_map. apply filter_In. split; [|exact Hpos].
  exact (obj_get_In _ _ _ Hget).
Qed.

Lemma Qsum_constant (k : Q) (l : list Q) :
  (forall x, In x l -> (x == k)%Q) -> (Qsum l == num (length l) * k)%Q.
Proof.
  induction l as [|x l IH]; intros Hall.
  - unfold Qsum, num. cbn. ring.
  - rewrite Qsum_cons, IH by (intros y Hy; apply Hall; right; exact Hy).
    rewrite (Hall x (or_introl eq_refl)).
    cbn [length]. unfold num. rewrite Nat2Z.inj_succ. unfold Z.succ.
    rewrite inject_Z_plus. ring.
Qed.

(** X10. When the answered areas all have the same score, no area is a
    strength and none is a weakness; this is the case of a session with
    answers in one area only. *)
Theorem no_strengths_when_scores_agree (areaScores : JsObject AreaScore.t)
    (mix : list KnowledgeAreaConfig.t) (k : Q) :
  (forall score, In score (answeredScores areaScores) -> (score == k)%Q) ->
  identifyStrengthsAndWeaknesses areaScores mix = ([], []).
Proof.
  intros Hall. unfold identifyStrengthsAndWeaknesses. cbv zeta.
  fold (answeredScores areaScores).
  set (avgScore := if (0 <? length (answeredScores areaScores))%nat
                   then (Qsum (answeredScores areaScores)
                         / num (length (answeredScores areaScores)))%Q
                   else 0%Q).
  assert (Hstep : forall config areaScore,
             answeredScore areaScores (KnowledgeAreaConfig.area config) = Some areaScore ->
             Qle_bool (avgScore + 10) (AreaScore.score areaScore) = false
             /\ Qle_bool (AreaScore.score areaScore) (avgScore - 15) = false).
  { intros config s Hs. apply answeredScore_In in Hs.
    assert (Hk := Hall _ Hs).
    assert (Havg : (avgScore == k)%Q).
    { unfold avgScore. destruct (answeredScores areaScores) as [|x l] eqn:Hl; [destruct Hs|].
      rewrite <- Hl in *. replace (0 <? length (answeredScores areaScores))%nat with true
        by (rewrite Hl; reflexivity).
      rewrite (Qsum_constant k _ Hall). field.
      assert (Hpos : (0 < num (length (answeredScores areaScores)))%Q)
        by (apply num_pos; rewrite Hl; cbn; lia).
      intros H0. rewrite H0 in Hpos. exact (Qlt_irrefl 0 Hpos). }
    split.
    - destruct (Qle_bool (avgScore + 10) (AreaScore.score s)) eqn:E; [|reflexivity].
      apply Qle_bool_iff in E. rewrite Havg, Hk in E. exfalso. lra.
    - destruct (Qle_bool (AreaScore.score s) (avgScore - 15)) eqn:E; [|reflexivity].
      apply Qle_bool_iff in E. rewrite Havg, Hk in E. exfalso. lra. }
  induction mix as [|config mix IH]; cbn [foldl]; [reflexivity|].
  destruct (answeredScore areaScores (KnowledgeAreaConfig.area config)) as [s|] eqn:Hs;
    [|exact IH].
  destruct (Hstep config s Hs) as [-> ->]. exact IH.
Qed.

Lemma no_strengths_when_scores_agree_witness :
  (forall score,
      In score (answeredScores
                  (scoreAreas (groupByArea sampleMix fiveInAlgorithms))) ->
      (score == 60)%Q)
  /\ identifyStrengthsAndWeaknesses (scoreAreas (groupByArea sampleMix fiveInAlgorithms))
                                    sampleMix = ([], []).
Proof.
  assert (H : forall score,
             In score (answeredScores
                         (scoreAreas (groupByArea sampleMix fiveInAlgorithms))) ->
             (score == 60)%Q).
  { intros score [<- | []]. reflexivity. }
  split; [exact H|].
  exact (no_strengths_when_scores_agree _ sampleMix 60 H).
Defined.

(** ** More on answer grading *)

(** X11. An answer that repeats the answer key is graded as correct,
    whether the key is a string or an array. *)
Theorem checkAnswer_refl (key : Answer) : checkAnswer key key = true.
Proof.
  unfold checkAnswer. destruct key as [s | l].
  - apply bool_decide_eq_true_2. reflexivity.
  - assert (H : forallb (fun ans => includes l ans) l = true).
    { apply forallb_forall. intros x Hx. apply includes_In. exact Hx. }
    rewrite H. reflexivity.
Qed.

(** ** Questions per area *)



(** ** The effect of the session handlers on the store *)

Lemma invalidTenantId_trim (t : string) : invalidTenantId t = bool_decide (trim t = "").
Proof.
  unfold invalidTenantId.
  destruct (bool_decide_reflect (t = "")) as [-> | Hne]; [reflexivity|]. reflexivity.
Qed.

Lemma invalidTenantId_trimmed (t : string) : invalidTenantId (trim t) = invalidTenantId t.
Proof. rewrite !invalidTenantId_trim, trim_idempotent. reflexivity. Qed.

(** What [submitAnswer] does: it fails and leaves the store as it is, or it
    has found an IN_PROGRESS session and a question not answered before,
    and rewrites the answer log and the difficulties of the session. *)
Lemma submitAnswer_cases (event : AnswerEvent.t) (now : string) (st : Store.t) :
  (exists error, submitAnswer event now st = (st, Failure error))
  \/ exists sessionId questionId answer timeSpentSeconds session question body,
       AnswerEvent.sessionId event = Some sessionId
       /\ AnswerEvent.questionId event = Some questionId
       /\ AnswerEvent.answer event = Some answer
       /\ AnswerEvent.timeSpentSeconds event = Some timeSpentSeconds
       /\ sessionId <> "" /\ questionId <> ""
       /\ Store.SESSIONS st !! (default "" (AnswerEvent.tenantId event), sessionId)
          = Some session
       /\ CandidateSession.status session = IN_PROGRESS
       /\ invalidTenantId (CandidateSession.tenantId session) = false
       /\ resolveQuestion session questionId st = (st, Return (Some question))
       /\ answered questionId (CandidateSession.questionsAnswered session) = false
       /\ let log' :=
            (CandidateSession.questionsAnswered session
             ++ [makeResponse questionId question answer
                   (checkAnswer answer (Question.correctAnswer question))
                   timeSpentSeconds now])%list in
          submitAnswer event now st
          = (setSESSIONS
               (alter (setAnswered log'
                         (updateSessionDifficulties (withQuestionsAnswered session log')))
                      (trim (CandidateSession.tenantId session), sessionId)) st,
             Success 200 body).
Proof.
  unfold submitAnswer, respond, submitAnswer_try, bind, throwIf.
  destruct (AnswerEvent.sessionId event) as [sessionId|]; [|left; eexists; reflexivity].
  change (blank (Some sessionId)) with (bool_decide (sessionId = "")).
  destruct (bool_decide_reflect (sessionId = "")) as [Hs | Hs]; [left; eexists; reflexivity|].
  simpl.
  destruct (AnswerEvent.questionId event) as [questionId|]; [|left; eexists; reflexivity].
  destruct (AnswerEvent.answer event) as [answer|]; [|left; eexists; reflexivity].
  destruct (AnswerEvent.timeSpentSeconds event) as [timeSpentSeconds|];
    [|left; eexists; reflexivity].
  destruct (bool_decide_reflect (questionId = "")) as [Hq | Hq]; [left; eexists; reflexivity|].
  simpl. rewrite findSessionById_lookup.
  destruct (Store.SESSIONS st !! (default "" (AnswerEvent.tenantId event), sessionId))
    as [session|] eqn:Hfound; [|left; eexists; reflexivity].
  destruct (bool_decide_reflect (CandidateSession.status session = IN_PROGRESS))
    as [Hstatus | Hstatus]; [|left; eexists; reflexivity].
  simpl.
  destruct (invalidTenantId (CandidateSession.tenantId session)) eqn:Htenant;
    [left; eexists; reflexivity|].
  simpl.
  destruct (resolveQuestion_cases session questionId st) as [Hr | [found Hr]]; rewrite Hr;
    [left; eexists; reflexivity|].
  destruct found as [question|]; [|left; eexists; reflexivity].
  destruct (answered questionId (CandidateSession.questionsAnswered session)) eqn:Hnew;
    [left; eexists; reflexivity|].
  simpl. unfold updateSession, getItem.
  rewrite invalidTenantId_trimmed, Htenant, trim_idempotent.
  right. exists sessionId, questionId, answer, timeSpentSeconds, session, question.
  eexists. repeat (split; [first [reflexivity | assumption]|]). reflexivity.
Qed.

(** What [getNextQuestion] does: it fails and leaves the store as it is, or
    it has found an IN_PROGRESS session and stores the generated question
    as its current question. *)
Lemma getNextQuestion_cases (event : SessionEvent.t)
    (generateAdaptiveQuestion : QuestionProvider) (Math_random : Q) (st : Store.t) :
  (exists error,
      getNextQuestion event generateAdaptiveQuestion Math_random st = (st, Failure error))
  \/ exists sessionId session assessment nextArea question,
       SessionEvent.sessionId event = Some sessionId
       /\ sessionId <> ""
       /\ Store.SESSIONS st !! (default "" (SessionEvent.tenantId event), sessionId)
          = Some session
       /\ CandidateSession.status session = IN_PROGRESS
       /\ invalidTenantId (CandidateSession.tenantId session) = false
       /\ Store.ASSESSMENTS st !! (CandidateSession.tenantId session,
                                   CandidateSession.assessmentId session) = Some assessment
       /\ selectNextKnowledgeArea (Assessment.knowledgeAreaMix assessment)
            (CandidateSession.questionsAnswered session)
            (CandidateSession.currentDifficulty session) Math_random = Some nextArea
       /\ generateAdaptiveQuestion assessment nextArea
            (or_default (CandidateSession.currentDifficulty session !! nextArea)
                        (Assessment.initialDifficulty assessment))
            (let recentResponses :=
               slice_last 10 (CandidateSession.questionsAnswered session) in
             if (0 <? length recentResponses)%nat
             then Some (length (List.filter QuestionResponse.isCorrect recentResponses),
                        length recentResponses)
             else None)
          = inr question
       /\ Question.questionId question <> ""
       /\ Question.questionText question <> ""
       /\ getNextQuestion event generateAdaptiveQuestion Math_random st
          = (setSESSIONS
               (alter (setCurrentQuestion question)
                      (trim (CandidateSession.tenantId session), sessionId)) st,
             Success 200
               {| NextQuestionResult.question := withoutCorrectAnswer question;
                  NextQuestionResult.sessionId := sessionId;
                  NextQuestionResult.questionsAnswered :=
                    length (CandidateSession.questionsAnswered session);
                  NextQuestionResult.maxQuestions :=
                    number_or (Assessment.maxQuestions assessment) 10;
                  NextQuestionResult.durationMinutes :=
                    truthyNumber (Assessment.durationMinutes assessment);
                  NextQuestionResult.startedAt :=
                    truthyString (Some (CandidateSession.startedAt session)) |}).
Proof.
  unfold getNextQuestion, respond, getNextQuestion_try, bind, throwIf.
  destruct (SessionEvent.sessionId event) as [sessionId|]; [|left; eexists; reflexivity].
  change (blank (Some sessionId)) with (bool_decide (sessionId = "")).
  destruct (bool_decide_reflect (sessionId = "")) as [Hs | Hs]; [left; eexists; reflexivity|].
  simpl. rewrite findSessionById_lookup.
  destruct (Store.SESSIONS st !! (default "" (SessionEvent.tenantId event), sessionId))
    as [session|] eqn:Hfound; [|left; eexists; reflexivity].
  destruct (bool_decide_reflect (CandidateSession.status session = IN_PROGRESS))
    as [Hstatus | Hstatus]; [|left; eexists; reflexivity].
  simpl. unfold getItem.
  destruct (Store.ASSESSMENTS st !! (CandidateSession.tenantId session,
                                     CandidateSession.assessmentId session))
    as [assessment|] eqn:Hassessment; [|left; eexists; reflexivity].
  destruct (selectNextKnowledgeArea _ _ _ _) as [nextArea|] eqn:Hnext;
    [|left; eexists; reflexivity].
  destruct (generateAdaptiveQuestion _ _ _ _) as [message | question] eqn:Hgenerated;
    [left; eexists; reflexivity|].
  destruct (bool_decide_reflect (Question.questionId question = "")) as [Hqid | Hqid];
    [left; eexists; reflexivity|].
  destruct (bool_decide_reflect (Question.questionText question = "")) as [Htext | Htext];
    [left; eexists; reflexivity|].
  simpl. unfold updateSession.
  destruct (invalidTenantId (CandidateSession.tenantId session)) eqn:Htenant;
    [left; eexists; reflexivity|].
  right. exists sessionId, session, assessment, nextArea, question.
  repeat (split; [first [reflexivity | assumption]|]). reflexivity.
Qed.

(** What [submitSession] does: it fails and leaves the store as it is, or it
    has found an IN_PROGRESS session with its assessment, and stores the
    metrics and marks the session as completed. *)
Lemma submitSession_cases (event : SessionEvent.t) (generateInsights : InsightsProvider)
    (now now' : string) (st : Store.t) :
  (exists error, submitSession event generateInsights now now' st = (st, Failure error))
  \/ exists sessionId session assessment,
       SessionEvent.sessionId event = Some sessionId
       /\ sessionId <> ""
       /\ Store.SESSIONS st !! (default "" (SessionEvent.tenantId event), sessionId)
          = Some session
       /\ CandidateSession.status session = IN_PROGRESS
       /\ invalidTenantId (CandidateSession.tenantId session) = false
       /\ Store.ASSESSMENTS st !! (CandidateSession.tenantId session,
                                   CandidateSession.assessmentId session) = Some assessment
       /\ let metrics := calculatePerformanceMetrics session assessment now in
          submitSession event generateInsights now now' st
          = (submitted session assessment generateInsights sessionId now now' st,
             Success 200
               {| SubmitResult.sessionId := sessionId;
                  SubmitResult.status := COMPLETED;
                  SubmitResult.overallScore := PerformanceMetrics.overallScore metrics;
                  SubmitResult.roleFitScore := PerformanceMetrics.roleFitScore metrics;
                  SubmitResult.insightsAvailable :=
                    bool_decide (is_Some (generateInsights metrics assessment)) |}).
Proof.
  unfold submitSession, respond, submitSession_try, bind, throwIf.
  destruct (SessionEvent.sessionId event) as [sessionId|]; [|left; eexists; reflexivity].
  change (blank (Some sessionId)) with (bool_decide (sessionId = "")).
  destruct (bool_decide_reflect (sessionId = "")) as [Hs | Hs]; [left; eexists; reflexivity|].
  simpl. rewrite findSessionById_lookup.
  destruct (Store.SESSIONS st !! (default "" (SessionEvent.tenantId event), sessionId))
    as [session|] eqn:Hfound; [|left; eexists; reflexivity].
  destruct (bool_decide_reflect (CandidateSession.status session = IN_PROGRESS))
    as [Hstatus | Hstatus]; [|left; eexists; reflexivity].
  simpl. unfold getItem.
  destruct (Store.ASSESSMENTS st !! (CandidateSession.tenantId session,
                                     CandidateSession.assessmentId session))
    as [assessment|] eqn:Hassessment; [|left; eexists; reflexivity].
  unfold putItem, tryPutInsights, putItem, updateSession, ret.
  rewrite !invalidTenantId_trimmed, !trim_idempotent.
  destruct (invalidTenantId (CandidateSession.tenantId session)) eqn:Htenant;
    [left; eexists; reflexivity|].
  right. exists sessionId, session, assessment.
  repeat (split; [first [reflexivity | assumption]|]).
  cbv zeta. unfold submitted. cbv zeta.
  destruct (generateInsights _ assessment) as [generated|]; reflexivity.
Qed.

(** ** Starting a session *)

Lemma sessionTenantIdOf_Some (bodyTenantId : option string) (assessment : Assessment.t)
    (t : string) :
  sessionTenantIdOf bodyTenantId assessment = Some t -> trim t = t /\ t <> "".
Proof.
  unfold sessionTenantIdOf.
  assert (Hof : forall x : string,
             (if negb (bool_decide (trim x = "")) then Some (trim x) else None) = Some t ->
             trim t = t /\ t <> "").
  { intros x. destruct (bool_decide_reflect (trim x = "")) as [He | He]; [discriminate|].
    cbn [negb]. intros [= <-]. split; [apply trim_idempotent | exact He]. }
  assert (Hassessment :
            (if negb (bool_decide (Assessment.tenantId assessment = ""))
                && negb (bool_decide (trim (Assessment.tenantId assessment) = ""))
             then Some (trim (Assessment.tenantId assessment)) else None) = Some t ->
            trim t = t /\ t <> "").
  { destruct (bool_decide (Assessment.tenantId assessment = "")); [discriminate|].
    cbn [negb andb]. apply Hof. }
  destruct (truthyString bodyTenantId) as [b|]; [|exact Hassessment].
  destruct (bool_decide_reflect (trim b = "")) as [He | He]; [exact Hassessment|].
  cbn [negb]. intros [= <-]. split; [apply trim_idempotent | exact He].
Qed.

(** [findAssessmentById] does not write; what it finds is an item of the
    table, up to its tenant id, which is trimmed, and its cap and pass
    threshold, which are dropped when the table is scanned. *)
Lemma findAssessmentById_spec (assessmentId : string) (tenantId : option string)
    (st : Store.t) :
  exists outcome,
    findAssessmentById assessmentId tenantId st = (st, outcome)
    /\ forall assessment,
         outcome = Return (Some assessment) ->
         exists key item,
           Store.ASSESSMENTS st !! key = Some item
           /\ Assessment.knowledgeAreaMix assessment = Assessment.knowledgeAreaMix item
           /\ Assessment.initialDifficulty assessment = Assessment.initialDifficulty item
           /\ Assessment.isActive assessment = Assessment.isActive item
           /\ (forall t, truthyString tenantId = Some t ->
                 key = (t, assessmentId) /\ assessment = item).
Proof.
  unfold findAssessmentById.
  destruct (truthyString tenantId) as [t|].
  - unfold getItem. eexists. split; [reflexivity|].
    intros assessment [= Hfound]. exists (t, assessmentId), assessment.
    split; [exact Hfound|].
    split; [reflexivity|]. split; [reflexivity|]. split; [reflexivity|].
    intros t' [= <-]. split; reflexivity.
  - unfold bind, scanTable, throwIf, ret, throw.
    destruct (head _) as [item|] eqn:Hhead.
    + assert (Hin : In item (List.map snd (map_to_list (Store.ASSESSMENTS st)))).
      { destruct (List.filter _ _) as [|x l] eqn:Hl; [discriminate|].
        injection Hhead as ->.
        assert (Hx : In item (item :: l)) by (left; reflexivity).
        rewrite <- Hl in Hx. apply filter_In in Hx as [Hx _]. exact Hx. }
      apply in_map_iff in Hin as ([key item'] & Heq & Hin). cbn [snd] in Heq. subst item'.
      apply list_elem_of_In, elem_of_map_to_list in Hin.
      destruct (bool_decide (Assessment.tenantId item = "")
                || bool_decide (trim (Assessment.tenantId item) = ""));
        [eexists; split; [reflexivity | intros ? [=]]|].
      destruct (bool_decide (trim (Assessment.tenantId item) = ""));
        [eexists; split; [reflexivity | intros ? [=]]|].
      eexists. split; [reflexivity|].
      intros assessment [= <-]. exists key, item.
      split; [exact Hin|].
      split; [reflexivity|]. split; [reflexivity|]. split; [reflexivity|].
      intros t' [=].
    + eexists. split; [reflexivity|]. intros assessment [=].
Qed.

Lemma initialDifficulties_lookup (assessment : Assessment.t) (a : KnowledgeArea) :
  initialDifficulties assessment !! a
  = if bool_decide (a ∈ List.map KnowledgeAreaConfig.area
                          (Assessment.knowledgeAreaMix assessment))
    then Some (Assessment.initialDifficulty assessment)
    else None.
Proof.
  unfold initialDifficulties.
  assert (Hgen : forall (l : list KnowledgeAreaConfig.t)
                        (acc : gmap KnowledgeArea DifficultyLevel),
             foldl (fun (initialDifficulties : gmap KnowledgeArea DifficultyLevel) config =>
                      <[KnowledgeAreaConfig.area config
                        := Assessment.initialDifficulty assessment]> initialDifficulties)
                   acc l !! a
             = if bool_decide (a ∈ List.map KnowledgeAreaConfig.area l)
               then Some (Assessment.initialDifficulty assessment)
               else acc !! a).
  { induction l as [|config l IH]; intros acc; cbn [foldl List.map].
    - rewrite bool_decide_eq_false_2 by (apply not_elem_of_nil). reflexivity.
    - rewrite IH.
      destruct (bool_decide_reflect (a ∈ List.map KnowledgeAreaConfig.area l)) as [Hin | Hin].
      + rewrite bool_decide_eq_true_2 by (right; exact Hin). reflexivity.
      + destruct (decide (KnowledgeAreaConfig.area config = a)) as [Heq | Hne].
        * rewrite bool_decide_eq_true_2 by (rewrite <- Heq; left).
          rewrite Heq, lookup_insert_eq. reflexivity.
        * rewrite bool_decide_eq_false_2.
          -- rewrite lookup_insert_ne by exact Hne. reflexivity.
          -- intros H. apply elem_of_cons in H as [H | H]; [congruence | contradiction]. }
  rewrite Hgen, lookup_empty. reflexivity.
Qed.

(** What [startSession] does: it fails and leaves the store as it is, or it
    has found an active assessment and stores a new session under the
    fresh identifier. *)
Lemma startSession_cases (body : string + StartBody.t) (uuid now : string) (st : Store.t) :
  (exists error, startSession body uuid now st = (st, Failure error))
  \/ exists startBody assessmentId assessment t,
       body = inr startBody
       /\ StartBody.assessmentId startBody = Some assessmentId
       /\ assessmentId <> ""
       /\ findAssessmentById assessmentId (StartBody.tenantId startBody) st
          = (st, Return (Some assessment))
       /\ Assessment.isActive assessment = true
       /\ sessionTenantIdOf (StartBody.tenantId startBody) assessment = Some t
       /\ trim t = t /\ t <> "" /\ trim uuid <> ""
       /\ startSession body uuid now st
          = (setSESSIONS (insert (t, uuid) (startedSession startBody assessment t uuid now)) st,
             Success 201 {| StartResult.sessionId := uuid;
                            StartResult.assessmentId := assessmentId;
                            StartResult.startedAt := now |}).
Proof.
  unfold startSession, respond, startSession_try, bind, throwIf.
  destruct body as [message | startBody]; [left; eexists; reflexivity|].
  destruct (StartBody.assessmentId startBody) as [assessmentId|] eqn:Hid;
    [|left; eexists; reflexivity].
  change (blank (Some assessmentId)) with (bool_decide (assessmentId = "")).
  destruct (bool_decide_reflect (assessmentId = "")) as [Ha | Ha]; [left; eexists; reflexivity|].
  simpl.
  destruct (findAssessmentById_spec assessmentId (StartBody.tenantId startBody) st)
    as (outcome & Hfind & _).
  rewrite Hfind.
  destruct outcome as [[assessment|] | e]; [|left; eexists; reflexivity..].
  destruct (Assessment.isActive assessment) eqn:Hactive; [|left; eexists; reflexivity].
  simpl.
  destruct (sessionTenantIdOf (StartBody.tenantId startBody) assessment) as [t|] eqn:Ht;
    [|left; eexists; reflexivity].
  destruct (sessionTenantIdOf_Some _ _ _ Ht) as [Htrim Hne].
  rewrite (invalidTenantId_false _ Hne Htrim). simpl.
  destruct (bool_decide_reflect (uuid = "")) as [Hu | Hu]; [left; eexists; reflexivity|].
  destruct (bool_decide_reflect (trim uuid = "")) as [Hu' | Hu']; [left; eexists; reflexivity|].
  simpl. unfold putItem. rewrite (invalidTenantId_false _ Hne Htrim), Htrim.
  right. exists startBody, assessmentId, assessment, t.
  repeat (split; [first [reflexivity | assumption]|]).
  unfold startedSession. rewrite Hid. reflexivity.
Qed.

(** ** Requests that fail *)

(** X13. A request on a session that is answered with an error leaves
    every table as it was: [submitAnswer], [getNextQuestion],
    [submitSession] and [startSession] write nothing before their last
    check has passed. *)
Theorem failed_session_request_writes_nothing (st : Store.t) :
  (forall event now error,
      snd (submitAnswer event now st) = Failure error ->
      fst (submitAnswer event now st) = st)
  /\ (forall event generateAdaptiveQuestion Math_random error,
        snd (getNextQuestion event generateAdaptiveQuestion Math_random st) = Failure error ->
        fst (getNextQuestion event generateAdaptiveQuestion Math_random st) = st)
  /\ (forall event generateInsights now now' error,
        snd (submitSession event generateInsights now now' st) = Failure error ->
        fst (submitSession event generateInsights now now' st) = st)
  /\ (forall body uuid now error,
        snd (startSession body uuid now st) = Failure error ->
        fst (startSession body uuid now st) = st).
Proof.
  split; [|split; [|split]].
  - intros event now error Hfail.
    destruct (submitAnswer_cases event now st)
      as [[e He] | (sid & qid & ans & time & session & question & body & H)].
    + rewrite He. reflexivity.
    + decompose [and] H. clear H.
      match goal with Heq : let _ := _ in _ |- _ => cbv zeta in Heq; rewrite Heq in Hfail end.
      discriminate.
  - intros event provider random error Hfail.
    destruct (getNextQuestion_cases event provider random st)
      as [[e He] | (sid & session & assessment & area & question & H)].
    + rewrite He. reflexivity.
    + decompose [and] H. clear H.
      match goal with Heq : getNextQuestion _ _ _ _ = _ |- _ => rewrite Heq in Hfail end.
      discriminate.
  - intros event insights now now' error Hfail.
    destruct (submitSession_cases event insights now now' st)
      as [[e He] | (sid & session & assessment & H)].
    + rewrite He. reflexivity.
    + decompose [and] H. clear H.
      match goal with Heq : let _ := _ in _ |- _ => cbv zeta in Heq; rewrite Heq in Hfail end.
      discriminate.
  - intros body uuid now error Hfail.
    destruct (startSession_cases body uuid now st)
      as [[e He] | (startBody & aid & assessment & t & H)].
    + rewrite He. reflexivity.
    + decompose [and] H. clear H.
      match goal with Heq : startSession _ _ _ _ = _ |- _ => rewrite Heq in Hfail end.
      discriminate.
Qed.

(** ** Invariants of the session handlers *)

Lemma submitted_SESSIONS (session : CandidateSession.t) (assessment : Assessment.t)
    (generateInsights : InsightsProvider) (sessionId now now' : string) (st : Store.t) :
  Store.SESSIONS (submitted session assessment generateInsights sessionId now now' st)
  = alter (setCompleted now') (trim (CandidateSession.tenantId session), sessionId)
          (Store.SESSIONS st).
Proof.
  unfold submitted. cbv zeta. destruct (generateInsights _ _); reflexivity.
Qed.

Lemma altered_invariant (P : string * string -> CandidateSession.t -> Prop)
    (f : CandidateSession.t -> CandidateSession.t) (target : string * string)
    (m : gmap (string * string) CandidateSession.t) :
  (forall key session, m !! key = Some session -> P key session) ->
  (forall session, m !! target = Some session -> P target (f session)) ->
  forall key session, alter f target m !! key = Some session -> P key session.
Proof.
  intros Hall Hf key session.
  destruct (decide (target = key)) as [<- | Hne].
  - rewrite lookup_alter_eq.
    destruct (m !! target) as [before|] eqn:Hbefore; [|discriminate].
    intros [= <-]. exact (Hf before eq_refl).
  - rewrite lookup_alter_ne by exact Hne. apply Hall.
Qed.

Lemma inserted_invariant (P : string * string -> CandidateSession.t -> Prop)
    (new : CandidateSession.t) (target : string * string)
    (m : gmap (string * string) CandidateSession.t) :
  (forall key session, m !! key = Some session -> P key session) ->
  P target new ->
  forall key session, <[target := new]> m !! key = Some session -> P key session.
Proof.
  intros Hall Hnew key session.
  destruct (decide (target = key)) as [<- | Hne].
  - rewrite lookup_insert_eq. intros [= <-]. exact Hnew.
  - rewrite lookup_insert_ne by exact Hne. apply Hall.
Qed.

(** An invariant of the sessions that the three updates of a session
    respect is an invariant of the three handlers that update a session. *)
Lemma session_updates_invariant (P : string * string -> CandidateSession.t -> Prop)
    (st : Store.t) :
  (forall key session, Store.SESSIONS st !! key = Some session -> P key session) ->
  (forall key found session log questionId question answer isCorrect time now,
      Store.SESSIONS st !! key = Some found -> P key found ->
      CandidateSession.status found = IN_PROGRESS ->
      answered questionId (CandidateSession.questionsAnswered found) = false ->
      log = (CandidateSession.questionsAnswered found
             ++ [makeResponse questionId question answer isCorrect time now])%list ->
      forall target, Store.SESSIONS st !! target = Some session -> P target session ->
      P target (setAnswered log (updateSessionDifficulties (withQuestionsAnswered found log))
                            session)) ->
  (forall key session question, P key session -> P key (setCurrentQuestion question session)) ->
  (forall key session now, P key session -> P key (setCompleted now session)) ->
  (forall event now key session,
      Store.SESSIONS (fst (submitAnswer event now st)) !! key = Some session -> P key session)
  /\ (forall event generateAdaptiveQuestion Math_random key session,
        Store.SESSIONS (fst (getNextQuestion event generateAdaptiveQuestion Math_random st))
          !! key = Some session -> P key session)
  /\ (forall event generateInsights now now' key session,
        Store.SESSIONS (fst (submitSession event generateInsights now now' st))
          !! key = Some session -> P key session).
Proof.
  intros Hall Hanswered Hcurrent Hcompleted.
  split; [|split].
  - intros event now.
    destruct (submitAnswer_cases event now st)
      as [[e He] | (sid & qid & ans & time & found & question & body & H)].
    + rewrite He. exact Hall.
    + destruct H as (_ & _ & _ & _ & _ & _ & Hfound & Hstatus & _ & _ & Hnew & Heq).
      cbv zeta in Heq. rewrite Heq. cbn [fst setSESSIONS Store.SESSIONS].
      apply altered_invariant; [exact Hall|].
      intros session Hsession.
      eapply Hanswered; eauto.
  - intros event provider random.
    destruct (getNextQuestion_cases event provider random st)
      as [[e He] | (sid & found & assessment & area & question & H)].
    + rewrite He. exact Hall.
    + destruct H as (_ & _ & _ & _ & _ & _ & _ & _ & _ & _ & Heq).
      rewrite Heq. cbn [fst setSESSIONS Store.SESSIONS].
      apply altered_invariant; [exact Hall|].
      intros session Hsession. apply Hcurrent. exact (Hall _ _ Hsession).
  - intros event insights now now'.
    destruct (submitSession_cases event insights now now' st)
      as [[e He] | (sid & found & assessment & H)].
    + rewrite He. exact Hall.
    + destruct H as (_ & _ & _ & _ & _ & _ & Heq).
      cbv zeta in Heq. rewrite Heq. cbn [fst]. rewrite submitted_SESSIONS.
      apply altered_invariant; [exact Hall|].
      intros session Hsession. apply Hcompleted. exact (Hall _ _ Hsession).
Qed.

(** An invariant of the sessions that the new session of [startSession]
    has is an invariant of [startSession]. *)
Lemma startSession_invariant (P : string * string -> CandidateSession.t -> Prop)
    (st : Store.t) :
  (forall key session, Store.SESSIONS st !! key = Some session -> P key session) ->
  (forall body assessment key item t uuid now,
      Store.ASSESSMENTS st !! key = Some item ->
      Assessment.knowledgeAreaMix assessment = Assessment.knowledgeAreaMix item ->
      Assessment.initialDifficulty assessment = Assessment.initialDifficulty item ->
      trim t = t -> t <> "" ->
      P (t, uuid) (startedSession body assessment t uuid now)) ->
  forall body uuid now key session,
    Store.SESSIONS (fst (startSession body uuid now st)) !! key = Some session ->
    P key session.
Proof.
  intros Hall Hstarted body uuid now.
  destruct (startSession_cases body uuid now st)
    as [[e He] | (startBody & aid & assessment & t & H)].
  - rewrite He. exact Hall.
  - destruct H as (_ & _ & _ & Hfind & _ & _ & Htrim & Hne & _ & Heq).
    rewrite Heq. cbn [fst setSESSIONS Store.SESSIONS].
    apply inserted_invariant; [exact Hall|].
    destruct (findAssessmentById_spec aid (StartBody.tenantId startBody) st)
      as (outcome & Hfind' & Hitem).
    rewrite Hfind in Hfind'. injection Hfind' as <-.
    destruct (Hitem assessment eq_refl) as (key & item & Hkey & Hmix & Hinitial & _).
    eapply Hstarted; eauto.
Qed.

(** X14. The four session handlers keep every session under its own key:
    after any request, each session is still stored under its tenant id
    and session id, and the tenant id is trimmed and not empty. *)
Theorem session_handlers_keep_consistency (st : Store.t) :
  consistentSessions st ->
  (forall event now, consistentSessions (fst (submitAnswer event now st)))
  /\ (forall event generateAdaptiveQuestion Math_random,
        consistentSessions
          (fst (getNextQuestion event generateAdaptiveQuestion Math_random st)))
  /\ (forall event generateInsights now now',
        consistentSessions (fst (submitSession event generateInsights now now' st)))
  /\ (forall body uuid now, consistentSessions (fst (startSession body uuid now st))).
Proof.
  intros Hst.
  pose (P := fun (key : string * string) (session : CandidateSession.t) =>
               CandidateSession.tenantId session = fst key
               /\ CandidateSession.sessionId session = snd key
               /\ trim (fst key) = fst key /\ fst key <> "").
  assert (Hall : forall key session,
             Store.SESSIONS st !! key = Some session -> P key session).
  { intros [t sid] session H. exact (Hst t sid session H). }
  destruct (session_updates_invariant P st Hall) as (Ha & Hq & Hs);
    [intros; assumption..|].
  assert (Hn := startSession_invariant P st Hall).
  assert (Hn' : forall body uuid now key session,
             Store.SESSIONS (fst (startSession body uuid now st)) !! key = Some session ->
             P key session).
  { apply Hn. intros. unfold P. cbn. tauto. }
  clear Hn.
  split; [|split; [|split]].
  - intros event now t sid session H. exact (Ha event now (t, sid) session H).
  - intros event provider random t sid session H.
    exact (Hq event provider random (t, sid) session H).
  - intros event insights now now' t sid session H.
    exact (Hs event insights now now' (t, sid) session H).
  - intros body uuid now t sid session H. exact (Hn' body uuid now (t, sid) session H).
Qed.

Lemma sampleStore_consistent (session : CandidateSession.t) :
  CandidateSession.tenantId session = "acme" ->
  CandidateSession.sessionId session = "s1" ->
  consistentSessions (sampleStore session).
Proof.
  intros Htenant Hid t sid found H. cbn [sampleStore Store.SESSIONS] in H.
  apply lookup_singleton_Some in H as [[= <- <-] <-].
  split; [exact Htenant|]. split; [exact Hid|].
  split; [vm_compute; reflexivity | discriminate].
Qed.

Lemma session_handlers_keep_consistency_witness :
  consistentSessions (sampleStore (sampleSession IN_PROGRESS [] None))
  /\ consistentSessions oneAnswered.
Proof.
  assert (H : consistentSessions (sampleStore (sampleSession IN_PROGRESS [] None)))
    by (apply sampleStore_consistent; reflexivity).
  split; [exact H|].
  exact (proj1 (session_handlers_keep_consistency _ H) (sampleAnswerEvent "q1") sampleClock).
Defined.

(** X15. The difficulties stay in 1..5: if they do for every session of
    the store, they still do after any answer, next-question or submit
    request; and a session that [startSession] creates has them in 1..5
    when the initial difficulty of the assessment is, which
    [createAssessment] does not check. *)
Theorem session_handlers_keep_difficulties_in_range (st : Store.t) :
  difficultiesInRange st ->
  (forall event now, difficultiesInRange (fst (submitAnswer event now st)))
  /\ (forall event generateAdaptiveQuestion Math_random,
        difficultiesInRange
          (fst (getNextQuestion event generateAdaptiveQuestion Math_random st)))
  /\ (forall event generateInsights now now',
        difficultiesInRange (fst (submitSession event generateInsights now now' st)))
  /\ (initialDifficultiesInRange st ->
      forall body uuid now, difficultiesInRange (fst (startSession body uuid now st))).
Proof.
  intros Hst.
  pose (P := fun (key : string * string) (session : CandidateSession.t) =>
               forall a d, CandidateSession.currentDifficulty session !! a = Some d ->
                           1 <= d <= 5).
  assert (Hall : forall key session,
             Store.SESSIONS st !! key = Some session -> P key session).
  { intros key session H a d. exact (Hst key session a d H). }
  destruct (session_updates_invariant P st Hall) as (Ha & Hq & Hs).
  - intros key found session log qid question answer isCorrect time now Hfound HP _ _ _
           target _ _.
    unfold P. cbn [setAnswered CandidateSession.currentDifficulty].
    apply updateSessionDifficulties_range. exact HP.
  - intros; assumption.
  - intros; assumption.
  - split; [|split; [|split]].
    + intros event now key session a d H. exact (Ha event now key session H a d).
    + intros event provider random key session a d H.
      exact (Hq event provider random key session H a d).
    + intros event insights now now' key session a d H.
      exact (Hs event insights now now' key session H a d).
    + intros Hinitial body uuid now key session a d H.
      refine (startSession_invariant P st Hall _ body uuid now key session H a d).
      intros startBody assessment akey item t sid clock Hitem _ Hsame _ _ b db.
      cbn [startedSession CandidateSession.currentDifficulty].
      rewrite initialDifficulties_lookup.
      destruct (bool_decide _); [|discriminate].
      intros [= <-]. rewrite Hsame. exact (Hinitial akey item Hitem).
Qed.

Lemma sampleStore_in_range :
  difficultiesInRange (sampleStore (sampleSession IN_PROGRESS [] None)).
Proof.
  intros key session a d H. cbn [sampleStore Store.SESSIONS] in H.
  apply lookup_singleton_Some in H as [_ <-].
  destruct a; vm_compute; intros [= <-]; split; discriminate.
Qed.

Lemma session_handlers_keep_difficulties_in_range_witness :
  difficultiesInRange (sampleStore (sampleSession IN_PROGRESS [] None))
  /\ difficultiesInRange oneAnswered.
Proof.
  split; [exact sampleStore_in_range|].
  exact (proj1 (session_handlers_keep_difficulties_in_range _ sampleStore_in_range)
               (sampleAnswerEvent "q1") sampleClock).
Defined.

Lemma answered_false_not_In (questionId : string) (log : list QuestionResponse.t) :
  answered questionId log = false ->
  ~ In questionId (List.map QuestionResponse.questionId log).
Proof.
  unfold answered. intros Hnew Hin.
  apply in_map_iff in Hin as (r & Hr & Hin).
  assert (Htrue : existsb (fun r => bool_decide (QuestionResponse.questionId r = questionId))
                          log = true).
  { apply existsb_exists. exists r. split; [exact Hin|].
    apply bool_decide_eq_true_2. exact Hr. }
  congruence.
Qed.

(** X16. No question is answered twice: if the answer log of every session
    of the store has distinct question ids, it still has after any request
    to the session handlers. *)
Theorem session_handlers_keep_answers_distinct (st : Store.t) :
  distinctAnswers st ->
  (forall event now, distinctAnswers (fst (submitAnswer event now st)))
  /\ (forall event generateAdaptiveQuestion Math_random,
        distinctAnswers (fst (getNextQuestion event generateAdaptiveQuestion Math_random st)))
  /\ (forall event generateInsights now now',
        distinctAnswers (fst (submitSession event generateInsights now now' st)))
  /\ (forall body uuid now, distinctAnswers (fst (startSession body uuid now st))).
Proof.
  intros Hst.
  pose (P := fun (key : string * string) (session : CandidateSession.t) =>
               List.NoDup (List.map QuestionResponse.questionId
                             (CandidateSession.questionsAnswered session))).
  assert (Hall : forall key session,
             Store.SESSIONS st !! key = Some session -> P key session)
    by exact Hst.
  destruct (session_updates_invariant P st Hall) as (Ha & Hq & Hs).
  - intros key found session log qid question answer isCorrect time now Hfound HP _ Hnew ->
           target _ _.
    unfold P in *. cbn [setAnswered CandidateSession.questionsAnswered].
    rewrite List.map_app. cbn [List.map makeResponse QuestionResponse.questionId].
    apply List.NoDup_app; [exact HP | repeat constructor; intros [] |].
    intros x Hx [<- | []]. exact (answered_false_not_In _ _ Hnew Hx).
  - intros; assumption.
  - intros; assumption.
  - split; [exact Ha|]. split; [exact Hq|]. split; [exact Hs|].
    intros body uuid now key session H.
    refine (startSession_invariant P st Hall _ body uuid now key session H).
    intros. constructor.
Qed.

Lemma sampleStore_distinct :
  distinctAnswers (sampleStore (sampleSession IN_PROGRESS [] None)).
Proof.
  intros key session H. cbn [sampleStore Store.SESSIONS] in H.
  apply lookup_singleton_Some in H as [_ <-]. constructor.
Qed.

Lemma session_handlers_keep_answers_distinct_witness :
  distinctAnswers (sampleStore (sampleSession IN_PROGRESS [] None))
  /\ distinctAnswers threeAnswered.
Proof.
  split; [exact sampleStore_distinct|].
  unfold threeAnswered, storeAfter. cbn [foldl]. unfold answerSample.
  apply session_handlers_keep_answers_distinct.
  apply session_handlers_keep_answers_distinct.
  apply session_handlers_keep_answers_distinct.
  exact sampleStore_distinct.
Defined.

(** ** Sessions that are not in progress *)

Lemma getNextQuestion_not_in_progress (st : Store.t) (event : SessionEvent.t)
    (generateAdaptiveQuestion : QuestionProvider) (Math_random : Q) (sessionId : string)
    (session : CandidateSession.t) :
  SessionEvent.sessionId event = Some sessionId -> sessionId <> "" ->
  Store.SESSIONS st !! (default "" (SessionEvent.tenantId event), sessionId) = Some session ->
  CandidateSession.status session <> IN_PROGRESS ->
  getNextQuestion event generateAdaptiveQuestion Math_random st
  = (st, Failure (formatErrorResponse (ValidationError "Session is not in progress"))).
Proof.
  intros Hsid Hs Hfound Hstatus.
  unfold getNextQuestion, respond, getNextQuestion_try, bind, throwIf.
  rewrite Hsid, (blank_Some _ Hs). simpl.
  rewrite findSessionById_lookup, Hfound.
  rewrite (bool_decide_eq_false_2 _ Hstatus). reflexivity.
Qed.

Lemma submitSession_not_in_progress (st : Store.t) (event : SessionEvent.t)
    (generateInsights : InsightsProvider) (now now' sessionId : string)
    (session : CandidateSession.t) :
  SessionEvent.sessionId event = Some sessionId -> sessionId <> "" ->
  Store.SESSIONS st !! (default "" (SessionEvent.tenantId event), sessionId) = Some session ->
  CandidateSession.status session <> IN_PROGRESS ->
  submitSession event generateInsights now now' st
  = (st, Failure (formatErrorResponse (ValidationError "Session already submitted"))).
Proof.
  intros Hsid Hs Hfound Hstatus.
  unfold submitSession, respond, submitSession_try, bind, throwIf.
  rewrite Hsid, (blank_Some _ Hs). simpl.
  rewrite findSessionById_lookup, Hfound.
  rewrite (bool_decide_eq_false_2 _ Hstatus). reflexivity.
Qed.

(** In a consistent store the key that a handler updates is the key under
    which it has read the session. *)
Lemma updated_key (st : Store.t) (t sessionId : string) (found : CandidateSession.t) :
  consistentSessions st ->
  Store.SESSIONS st !! (t, sessionId) = Some found ->
  (trim (CandidateSession.tenantId found), sessionId) = (t, sessionId).
Proof.
  intros Hst Hfound. destruct (Hst t sessionId found Hfound) as (-> & _ & -> & _).
  reflexivity.
Qed.

Lemma other_session_untouched (st : Store.t) (t sessionId : string)
    (found : CandidateSession.t) (f : CandidateSession.t -> CandidateSession.t)
    (key : string * string) (session : CandidateSession.t) :
  consistentSessions st ->
  Store.SESSIONS st !! (t, sessionId) = Some found ->
  CandidateSession.status found = IN_PROGRESS ->
  Store.SESSIONS st !! key = Some session ->
  CandidateSession.status session <> IN_PROGRESS ->
  alter f (trim (CandidateSession.tenantId found), sessionId) (Store.SESSIONS st) !! key
  = Some session.
Proof.
  intros Hst Hfound Hstatus Hsession Hterminal.
  rewrite (updated_key st t sessionId found Hst Hfound).
  rewrite lookup_alter_ne; [exact Hsession|].
  intros <-. rewrite Hfound in Hsession. injection Hsession as <-. contradiction.
Qed.

(** X17. A session that is COMPLETED or ABANDONED is never written again.
    In a consistent store it is the same after any answer, next-question
    or submit request, whichever session the request names, and after any
    [startSession] whose fresh identifier is not the session's own. *)
Theorem terminal_session_is_frozen (st : Store.t) (key : string * string)
    (session : CandidateSession.t) :
  consistentSessions st ->
  Store.SESSIONS st !! key = Some session ->
  CandidateSession.status session <> IN_PROGRESS ->
  (forall event now, Store.SESSIONS (fst (submitAnswer event now st)) !! key = Some session)
  /\ (forall event generateAdaptiveQuestion Math_random,
        Store.SESSIONS (fst (getNextQuestion event generateAdaptiveQuestion Math_random st))
          !! key = Some session)
  /\ (forall event generateInsights now now',
        Store.SESSIONS (fst (submitSession event generateInsights now now' st)) !! key
        = Some session)
  /\ (forall body uuid now,
        uuid <> snd key ->
        Store.SESSIONS (fst (startSession body uuid now st)) !! key = Some session).
Proof.
  intros Hst Hsession Hterminal. split; [|split; [|split]].
  - intros event now.
    destruct (submitAnswer_cases event now st)
      as [[e He] | (sid & qid & ans & time & found & question & body & H)].
    + rewrite He. exact Hsession.
    + destruct H as (_ & _ & _ & _ & _ & _ & Hfound & Hstatus & _ & _ & _ & Heq).
      cbv zeta in Heq. rewrite Heq. cbn [fst setSESSIONS Store.SESSIONS].
      eapply other_session_untouched; eauto.
  - intros event provider random.
    destruct (getNextQuestion_cases event provider random st)
      as [[e He] | (sid & found & assessment & area & question & H)].
    + rewrite He. exact Hsession.
    + destruct H as (_ & _ & Hfound & Hstatus & _ & _ & _ & _ & _ & _ & Heq).
      rewrite Heq. cbn [fst setSESSIONS Store.SESSIONS].
      eapply other_session_untouched; eauto.
  - intros event insights now now'.
    destruct (submitSession_cases event insights now now' st)
      as [[e He] | (sid & found & assessment & H)].
    + rewrite He. exact Hsession.
    + destruct H as (_ & _ & Hfound & Hstatus & _ & _ & Heq).
      cbv zeta in Heq. rewrite Heq. cbn [fst]. rewrite submitted_SESSIONS.
      eapply other_session_untouched; eauto.
  - intros body uuid now Hfresh.
    destruct (startSession_cases body uuid now st)
      as [[e He] | (startBody & aid & assessment & t & H)].
    + rewrite He. exact Hsession.
    + destruct H as (_ & _ & _ & _ & _ & _ & _ & _ & _ & Heq).
      rewrite Heq. cbn [fst setSESSIONS Store.SESSIONS].
      rewrite lookup_insert_ne; [exact Hsession|].
      intros <-. apply Hfresh. reflexivity.
Qed.

Lemma terminal_session_is_frozen_witness :
  consistentSessions (sampleStore (sampleSession COMPLETED threeCorrect None))
  /\ CandidateSession.status (sampleSession COMPLETED threeCorrect None) <> IN_PROGRESS
  /\ Store.SESSIONS
       (fst (answerSample "q2" (sampleStore (sampleSession COMPLETED threeCorrect None))))
       !! ("acme", "s1")
     = Some (sampleSession COMPLETED threeCorrect None).
Proof.
  assert (Hst : consistentSessions (sampleStore (sampleSession COMPLETED threeCorrect None)))
    by (apply sampleStore_consistent; reflexivity).
  assert (Hterminal : CandidateSession.status (sampleSession COMPLETED threeCorrect None)
                      <> IN_PROGRESS) by discriminate.
  split; [exact Hst|]. split; [exact Hterminal|].
  apply (terminal_session_is_frozen _ ("acme", "s1") _ Hst); [|exact Hterminal].
  apply lookup_singleton_eq.
Defined.

(** X18. A request touches one session only. In a consistent store, an
    answer, next-question or submit request leaves every session other
    than the one that it names as it was, and never writes to the
    assessments or the questions; answers and next-question requests
    write no metrics and no insights either. *)
Theorem session_request_frame (st : Store.t) :
  consistentSessions st ->
  (forall event now,
      let st' := fst (submitAnswer event now st) in
      Store.QUESTIONS st' = Store.QUESTIONS st
      /\ Store.ASSESSMENTS st' = Store.ASSESSMENTS st
      /\ Store.METRICS st' = Store.METRICS st
      /\ Store.INSIGHTS st' = Store.INSIGHTS st
      /\ forall key,
           key <> (default "" (AnswerEvent.tenantId event),
                   default "" (AnswerEvent.sessionId event)) ->
           Store.SESSIONS st' !! key = Store.SESSIONS st !! key)
  /\ (forall event generateAdaptiveQuestion Math_random,
        let st' := fst (getNextQuestion event generateAdaptiveQuestion Math_random st) in
        Store.QUESTIONS st' = Store.QUESTIONS st
        /\ Store.ASSESSMENTS st' = Store.ASSESSMENTS st
        /\ Store.METRICS st' = Store.METRICS st
        /\ Store.INSIGHTS st' = Store.INSIGHTS st
        /\ forall key,
             key <> (default "" (SessionEvent.tenantId event),
                     default "" (SessionEvent.sessionId event)) ->
             Store.SESSIONS st' !! key = Store.SESSIONS st !! key)
  /\ (forall event generateInsights now now',
        let st' := fst (submitSession event generateInsights now now' st) in
        Store.QUESTIONS st' = Store.QUESTIONS st
        /\ Store.ASSESSMENTS st' = Store.ASSESSMENTS st
        /\ forall key,
             key <> (default "" (SessionEvent.tenantId event),
                     default "" (SessionEvent.sessionId event)) ->
             Store.SESSIONS st' !! key = Store.SESSIONS st !! key
             /\ Store.METRICS st' !! key = Store.METRICS st !! key).
Proof.
  intros Hst. split; [|split].
  - intros event now st'. subst st'.
    destruct (submitAnswer_cases event now st)
      as [[e He] | (sid & qid & ans & time & found & question & body & H)].
    + rewrite He. cbn [fst]. tauto.
    + destruct H as (Hsid & _ & _ & _ & _ & _ & Hfound & _ & _ & _ & _ & Heq).
      cbv zeta in Heq. rewrite Heq, Hsid. cbn [fst default].
      rewrite (updated_key st _ sid found Hst Hfound).
      repeat (split; [reflexivity|]).
      intros key Hkey. cbn [setSESSIONS Store.SESSIONS].
      apply lookup_alter_ne. intros <-. apply Hkey. reflexivity.
  - intros event provider random st'. subst st'.
    destruct (getNextQuestion_cases event provider random st)
      as [[e He] | (sid & found & assessment & area & question & H)].
    + rewrite He. cbn [fst]. tauto.
    + destruct H as (Hsid & _ & Hfound & _ & _ & _ & _ & _ & _ & _ & Heq).
      rewrite Heq, Hsid. cbn [fst default].
      rewrite (updated_key st _ sid found Hst Hfound).
      repeat (split; [reflexivity|]).
      intros key Hkey. cbn [setSESSIONS Store.SESSIONS].
      apply lookup_alter_ne. intros <-. apply Hkey. reflexivity.
  - intros event insights now now' st'. subst st'.
    destruct (submitSession_cases event insights now now' st)
      as [[e He] | (sid & found & assessment & H)].
    + rewrite He. cbn [fst]. tauto.
    + destruct H as (Hsid & _ & Hfound & _ & _ & _ & Heq).
      cbv zeta in Heq. rewrite Heq, Hsid. cbn [fst default].
      pose proof (updated_key st _ sid found Hst Hfound) as Hkey.
      destruct (Hst _ _ _ Hfound) as (_ & Hid & _ & _).
      split; [unfold submitted; cbv zeta; destruct (insights _ _); reflexivity|].
      split; [unfold submitted; cbv zeta; destruct (insights _ _); reflexivity|].
      intros key Hne. split.
      * rewrite submitted_SESSIONS, Hkey. apply lookup_alter_ne.
        intros <-. apply Hne. reflexivity.
      * unfold submitted. cbv zeta.
        assert (Hmetrics : forall m : gmap (string * string) MetricsItem.t,
                   forall item, <[(trim (CandidateSession.tenantId found),
                                   PerformanceMetrics.sessionId
                                     (calculatePerformanceMetrics found assessment now))
                                  := item]> m !! key = m !! key).
        { intros m item. apply lookup_insert_ne.
          replace (PerformanceMetrics.sessionId
                     (calculatePerformanceMetrics found assessment now))
            with sid.
          - injection Hkey as Hkey. rewrite Hkey. intros <-. apply Hne. reflexivity.
          - rewrite <- Hid. unfold calculatePerformanceMetrics. cbv zeta.
            destruct (identifyStrengthsAndWeaknesses _ _). reflexivity. }
        destruct (insights _ _); cbn [setSESSIONS setINSIGHTS setMETRICS Store.METRICS];
          apply Hmetrics.
Qed.

Lemma session_request_frame_witness :
  consistentSessions (sampleStore (sampleSession IN_PROGRESS [] None))
  /\ Store.QUESTIONS oneAnswered
     = Store.QUESTIONS (sampleStore (sampleSession IN_PROGRESS [] None))
  /\ Store.SESSIONS oneAnswered !! ("acme", "s1")
     <> Store.SESSIONS (sampleStore (sampleSession IN_PROGRESS [] None)) !! ("acme", "s1").
Proof.
  assert (Hst : consistentSessions (sampleStore (sampleSession IN_PROGRESS [] None)))
    by (apply sampleStore_consistent; reflexivity).
  split; [exact Hst|].
  split; [|vm_compute; discriminate].
  exact (proj1 (proj1 (session_request_frame _ Hst) (sampleAnswerEvent "q1") sampleClock)).
Defined.

(** ** Submitting a session *)

Lemma calculatePerformanceMetrics_sessionId (session : CandidateSession.t)
    (assessment : Assessment.t) (now : string) :
  PerformanceMetrics.sessionId (calculatePerformanceMetrics session assessment now)
  = CandidateSession.sessionId session.
Proof.
  unfold calculatePerformanceMetrics. cbv zeta.
  destruct (identifyStrengthsAndWeaknesses _ _). reflexivity.
Qed.

Lemma submitted_METRICS (session : CandidateSession.t) (assessment : Assessment.t)
    (generateInsights : InsightsProvider) (sessionId now now' : string) (st : Store.t) :
  Store.METRICS (submitted session assessment generateInsights sessionId now now' st)
  = <[(trim (CandidateSession.tenantId session), CandidateSession.sessionId session)
      := metricsItem (calculatePerformanceMetrics session assessment now)
                     (trim (CandidateSession.tenantId session))]> (Store.METRICS st).
Proof.
  unfold submitted. cbv zeta. rewrite calculatePerformanceMetrics_sessionId.
  destruct (generateInsights _ _); reflexivity.
Qed.

(** X19. Submitting an IN_PROGRESS session of a consistent store succeeds:
    the response carries the scores of the Scoring Engine, the metrics are
    stored under the key of the session, and the session becomes COMPLETED
    with the time of the update as its submission time, its answer log
    unchanged. From then on the session refuses a second submit, any
    answer and any request for a next question, and these leave the store
    as it is. *)
Theorem submitSession_completes (st : Store.t) (event : SessionEvent.t)
    (generateInsights : InsightsProvider) (now now' t sessionId : string)
    (session : CandidateSession.t) (assessment : Assessment.t) :
  consistentSessions st ->
  SessionEvent.sessionId event = Some sessionId -> sessionId <> "" ->
  SessionEvent.tenantId event = Some t ->
  Store.SESSIONS st !! (t, sessionId) = Some session ->
  CandidateSession.status session = IN_PROGRESS ->
  Store.ASSESSMENTS st !! (t, CandidateSession.assessmentId session) = Some assessment ->
  let metrics := calculatePerformanceMetrics session assessment now in
  let st' := fst (submitSession event generateInsights now now' st) in
  snd (submitSession event generateInsights now now' st)
  = Success 200
      {| SubmitResult.sessionId := sessionId;
         SubmitResult.status := COMPLETED;
         SubmitResult.overallScore := PerformanceMetrics.overallScore metrics;
         SubmitResult.roleFitScore := PerformanceMetrics.roleFitScore metrics;
         SubmitResult.insightsAvailable :=
           bool_decide (is_Some (generateInsights metrics assessment)) |}
  /\ Store.SESSIONS st' !! (t, sessionId) = Some (setCompleted now' session)
  /\ Store.METRICS st' !! (t, sessionId) = Some (metricsItem metrics t)
  /\ (forall generateInsights2 now2 now2',
        submitSession event generateInsights2 now2 now2' st'
        = (st', Failure (formatErrorResponse (ValidationError "Session already submitted"))))
  /\ (forall generateAdaptiveQuestion Math_random,
        getNextQuestion event generateAdaptiveQuestion Math_random st'
        = (st', Failure (formatErrorResponse (ValidationError "Session is not in progress"))))
  /\ (forall answerEvent now3,
        AnswerEvent.sessionId answerEvent = Some sessionId ->
        AnswerEvent.tenantId answerEvent = Some t ->
        exists error, submitAnswer answerEvent now3 st' = (st', Failure error)).
Proof.
  intros Hst Hsid Hs Htid Hfound Hstatus Hassessment metrics st'.
  destruct (Hst t sessionId session Hfound) as (Htenant & Hid & Htrim & Hne).
  assert (Hrun : submitSession event generateInsights now now' st
                 = (submitted session assessment generateInsights sessionId now now' st,
                    Success 200
                      {| SubmitResult.sessionId := sessionId;
                         SubmitResult.status := COMPLETED;
                         SubmitResult.overallScore := PerformanceMetrics.overallScore metrics;
                         SubmitResult.roleFitScore := PerformanceMetrics.roleFitScore metrics;
                         SubmitResult.insightsAvailable :=
                           bool_decide (is_Some (generateInsights metrics assessment)) |})).
  { destruct (submitSession_cases event generateInsights now now' st)
      as [[e He] | (sid & found & assessment' & H)].
    - exfalso. revert He.
      unfold submitSession, respond, submitSession_try, bind, throwIf.
      rewrite Hsid, Htid, (blank_Some _ Hs). simpl.
      rewrite findSessionById_lookup. simpl. rewrite Hfound, Hstatus.
      rewrite bool_decide_eq_true_2 by reflexivity. simpl.
      unfold getItem. rewrite Htenant, Hassessment.
      unfold putItem, tryPutInsights, putItem, updateSession, ret.
      rewrite !Htrim, (invalidTenantId_false _ Hne Htrim).
      destruct (generateInsights _ _); discriminate.
    - destruct H as (Hsid' & _ & Hfound' & _ & _ & Hassessment' & Heq).
      rewrite Hsid in Hsid'. injection Hsid' as <-.
      rewrite Htid in Hfound'. cbn [default] in Hfound'.
      change (Store.SESSIONS st !! (t, sessionId) = Some found) in Hfound'.
      rewrite Hfound in Hfound'. injection Hfound' as <-.
      rewrite Htenant, Hassessment in Hassessment'. injection Hassessment' as <-.
      exact Heq. }
  subst st'. rewrite Hrun. cbn [fst snd].
  assert (Hnow : Store.SESSIONS
                   (submitted session assessment generateInsights sessionId now now' st)
                   !! (t, sessionId) = Some (setCompleted now' session)).
  { rewrite submitted_SESSIONS, Htenant, Htrim, lookup_alter_eq, Hfound. reflexivity. }
  assert (Hdone : CandidateSession.status (setCompleted now' session) <> IN_PROGRESS)
    by discriminate.
  split; [reflexivity|]. split; [exact Hnow|]. split.
  { rewrite submitted_METRICS, Htenant, Htrim, Hid. apply lookup_insert_eq. }
  split.
  { intros insights2 now2 now2'.
    apply (submitSession_not_in_progress _ _ _ _ _ sessionId (setCompleted now' session));
      [exact Hsid | exact Hs | rewrite Htid; exact Hnow | exact Hdone]. }
  split.
  { intros provider random.
    apply (getNextQuestion_not_in_progress _ _ _ _ sessionId (setCompleted now' session));
      [exact Hsid | exact Hs | rewrite Htid; exact Hnow | exact Hdone]. }
  intros answerEvent now3 Hasid Hatid.
  destruct (submitAnswer_cases answerEvent now3
              (submitted session assessment generateInsights sessionId now now' st))
    as [Hfail | (sid & qid & ans & time & found & question & body & H)]; [exact Hfail|].
  exfalso. destruct H as (Hsid' & _ & _ & _ & _ & _ & Hfound' & Hstatus' & _).
  rewrite Hasid in Hsid'. injection Hsid' as <-.
  rewrite Hatid in Hfound'.
  change (Store.SESSIONS (submitted session assessment generateInsights sessionId now now' st)
            !! (t, sessionId) = Some found) in Hfound'.
  rewrite Hnow in Hfound'. injection Hfound' as <-. discriminate.
Qed.

Lemma submitSession_completes_witness :
  consistentSessions (sampleStore (sampleSession IN_PROGRESS threeCorrect None))
  /\ snd (submitSession (sampleSessionEvent "s1") noInsights
            "2024-05-01T11:00:00.000Z" "2024-05-01T11:00:01.000Z"
            (sampleStore (sampleSession IN_PROGRESS threeCorrect None)))
     = Success 200
         {| SubmitResult.sessionId := "s1";
            SubmitResult.status := COMPLETED;
            SubmitResult.overallScore :=
              PerformanceMetrics.overallScore
                (calculatePerformanceMetrics (sampleSession IN_PROGRESS threeCorrect None)
                   sampleAssessment "2024-05-01T11:00:00.000Z");
            SubmitResult.roleFitScore := 66;
            SubmitResult.insightsAvailable := false |}
  /\ CandidateSession.status
       <$> Store.SESSIONS
             (fst (submitSession (sampleSessionEvent "s1") noInsights
                     "2024-05-01T11:00:00.000Z" "2024-05-01T11:00:01.000Z"
                     (sampleStore (sampleSession IN_PROGRESS threeCorrect None))))
           !! ("acme", "s1")
     = Some COMPLETED.
Proof.
  assert (Hst : consistentSessions (sampleStore (sampleSession IN_PROGRESS threeCorrect None)))
    by (apply sampleStore_consistent; reflexivity).
  destruct (submitSession_completes
              (sampleStore (sampleSession IN_PROGRESS threeCorrect None))
              (sampleSessionEvent "s1") noInsights
              "2024-05-01T11:00:00.000Z" "2024-05-01T11:00:01.000Z" "acme" "s1"
              (sampleSession IN_PROGRESS threeCorrect None) sampleAssessment Hst
              eq_refl ltac:(discriminate) eq_refl (lookup_singleton_eq _ _) eq_refl
              (lookup_singleton_eq _ _))
    as (Hresponse & Hsession & _).
  split; [exact Hst|]. split.
  - rewrite Hresponse. reflexivity.
  - rewrite Hsession. reflexivity.
Defined.

(** ** A question and its answer *)



(** ** Requests without a tenant *)

Lemma authorize_state (authorization : option string) (getUserFromToken : TokenVerifier)
    (st : Store.t) :
  (exists e, authorize authorization getUserFromToken st = (st, Throw e))
  \/ exists authHeader user,
       authorization = Some authHeader
       /\ authHeader <> ""
       /\ getUserFromToken (removeFirst "Bearer " authHeader) = inr user
       /\ (CognitoUserAttributes.role user = TENANT \/ CognitoUserAttributes.role user = ADMIN)
       /\ authorize authorization getUserFromToken st = (st, Return user).
Proof.
  unfold authorize, bind, throwIf, throw, ret.
  destruct authorization as [authHeader|]; [|left; eexists; reflexivity].
  destruct (bool_decide_reflect (authHeader = "")) as [He | He]; [left; eexists; reflexivity|].
  destruct (getUserFromToken (removeFirst "Bearer " authHeader)) as [e | user] eqn:Huser;
    [left; eexists; reflexivity|].
  unfold hasRole.
  destruct (bool_decide_reflect (CognitoUserAttributes.role user = TENANT)) as [Ht | Ht].
  - right. exists authHeader, user. cbn [negb andb]. tauto.
  - destruct (bool_decide_reflect (CognitoUserAttributes.role user = ADMIN)) as [Ha | Ha].
    + right. exists authHeader, user. cbn [negb andb]. tauto.
    + left. eexists. reflexivity.
Qed.

(** X21. No session is found without a tenant id. The handlers search the
    partition of the empty tenant id, which holds no session in a
    consistent store: an answer, next-question or submit request that
    names no tenant fails, and [getSession], which never passes one, fails
    for every request; the store is unchanged. *)
Theorem request_without_tenant_finds_no_session (st : Store.t) :
  consistentSessions st ->
  (forall event now,
      default "" (AnswerEvent.tenantId event) = "" ->
      exists error, submitAnswer event now st = (st, Failure error))
  /\ (forall event generateAdaptiveQuestion Math_random,
        default "" (SessionEvent.tenantId event) = "" ->
        exists error,
          getNextQuestion event generateAdaptiveQuestion Math_random st
          = (st, Failure error))
  /\ (forall event generateInsights now now',
        default "" (SessionEvent.tenantId event) = "" ->
        exists error,
          submitSession event generateInsights now now' st = (st, Failure error))
  /\ (forall event getUserFromToken,
        exists error, getSession event getUserFromToken st = (st, Failure error)).
Proof.
  intros Hst.
  assert (Hnone : forall sessionId session,
             Store.SESSIONS st !! ("", sessionId) = Some session -> False).
  { intros sid session H. destruct (Hst _ _ _ H) as (_ & _ & _ & Hne). apply Hne. reflexivity. }
  split; [|split; [|split]].
  - intros event now Htenant.
    destruct (submitAnswer_cases event now st)
      as [Hfail | (sid & qid & ans & time & found & question & body & H)]; [exact Hfail|].
    exfalso. destruct H as (_ & _ & _ & _ & _ & _ & Hfound & _).
    rewrite Htenant in Hfound. exact (Hnone _ _ Hfound).
  - intros event provider random Htenant.
    destruct (getNextQuestion_cases event provider random st)
      as [Hfail | (sid & found & assessment & area & question & H)]; [exact Hfail|].
    exfalso. destruct H as (_ & _ & Hfound & _).
    rewrite Htenant in Hfound. exact (Hnone _ _ Hfound).
  - intros event insights now now' Htenant.
    destruct (submitSession_cases event insights now now' st)
      as [Hfail | (sid & found & assessment & H)]; [exact Hfail|].
    exfalso. destruct H as (_ & _ & Hfound & _).
    rewrite Htenant in Hfound. exact (Hnone _ _ Hfound).
  - intros event getUserFromToken.
    unfold getSession, respond, getSession_try, bind.
    destruct (authorize_state (ResultsEvent.authorization event) getUserFromToken st)
      as [[e He] | (authHeader & user & _ & _ & _ & _ & He)]; rewrite He;
      [eexists; reflexivity|].
    unfold throwIf.
    destruct (blank (ResultsEvent.sessionId event)); [eexists; reflexivity|].
    cbn [ret]. rewrite findSessionById_lookup. cbn [default].
    destruct (Store.SESSIONS st !! ("", default "" (ResultsEvent.sessionId event)))
      as [session|] eqn:Hfound; [|eexists; reflexivity].
    exfalso. exact (Hnone _ _ Hfound).
Qed.

Lemma request_without_tenant_finds_no_session_witness :
  consistentSessions (sampleStore (sampleSession IN_PROGRESS [] None))
  /\ (exists error,
        getSession {| ResultsEvent.authorization := Some "Bearer token-1";
                      ResultsEvent.sessionId := Some "s1" |}
                   sampleVerifier (sampleStore (sampleSession IN_PROGRESS [] None))
        = (sampleStore (sampleSession IN_PROGRESS [] None), Failure error))
  /\ snd (getSession {| ResultsEvent.authorization := Some "Bearer token-1";
                        ResultsEvent.sessionId := Some "s1" |}
                     sampleVerifier (sampleStore (sampleSession IN_PROGRESS [] None)))
     = Failure (formatErrorResponse (NotFoundError "Session")).
Proof.
  assert (Hst : consistentSessions (sampleStore (sampleSession IN_PROGRESS [] None)))
    by (apply sampleStore_consistent; reflexivity).
  split; [exact Hst|].
  split; [|reflexivity].
  exact (proj2 (proj2 (proj2 (request_without_tenant_finds_no_session _ Hst))) _ sampleVerifier).
Defined.

(** ** Starting a session on an assessment *)

Lemma findAssessmentById_tenant (assessmentId t : string) (st : Store.t) :
  t <> "" ->
  findAssessmentById assessmentId (Some t) st
  = (st, Return (Store.ASSESSMENTS st !! (t, assessmentId))).
Proof.
  intros Hne. unfold findAssessmentById, truthyString.
  rewrite (bool_decide_eq_false_2 _ Hne). reflexivity.
Qed.

Lemma trim_nonempty (t : string) : trim t <> "" -> t <> "".
Proof. intros H ->. apply H. reflexivity. Qed.

Lemma startSession_with_tenant (st : Store.t) (body : StartBody.t)
    (uuid now assessmentId t : string) :
  StartBody.assessmentId body = Some assessmentId -> assessmentId <> "" ->
  StartBody.tenantId body = Some t -> trim t <> "" ->
  trim uuid <> "" ->
  startSession (inr body) uuid now st
  = match Store.ASSESSMENTS st !! (t, assessmentId) with
    | None => (st, Failure (formatErrorResponse (NotFoundError "Assessment")))
    | Some assessment =>
        if Assessment.isActive assessment
        then (setSESSIONS
                (insert (trim t, uuid)
                        (startedSession body assessment (trim t) uuid now)) st,
              Success 201 {| StartResult.sessionId := uuid;
                             StartResult.assessmentId := assessmentId;
                             StartResult.startedAt := now |})
        else (st, Failure (formatErrorResponse
                             (ValidationError "Assessment is not active")))
    end.
Proof.
  intros Hid Ha Htid Ht Huuid.
  pose proof (trim_nonempty _ Ht) as Hne.
  pose proof (trim_nonempty _ Huuid) as Hune.
  unfold startSession, respond, startSession_try, bind, throwIf.
  rewrite Hid, (blank_Some _ Ha), Htid. simpl.
  rewrite (findAssessmentById_tenant _ _ _ Hne).
  destruct (Store.ASSESSMENTS st !! (t, assessmentId)) as [assessment|]; [|reflexivity].
  destruct (Assessment.isActive assessment); [|reflexivity].
  simpl. unfold sessionTenantIdOf, truthyString.
  rewrite (bool_decide_eq_false_2 _ Hne), (bool_decide_eq_false_2 _ Ht). simpl.
  rewrite invalidTenantId_trimmed, invalidTenantId_trim, (bool_decide_eq_false_2 _ Ht).
  simpl.
  rewrite (bool_decide_eq_false_2 _ Hune), (bool_decide_eq_false_2 _ Huuid). simpl.
  unfold putItem.
  rewrite invalidTenantId_trimmed, invalidTenantId_trim, (bool_decide_eq_false_2 _ Ht).
  rewrite trim_idempotent. unfold startedSession. rewrite Hid. reflexivity.
Qed.

(** X22. [startSession] with the tenant id of the link. When the
    assessment is stored under that tenant id and is active, the request
    succeeds with status 201 and stores a new session under the trimmed
    tenant id and the fresh identifier: the session is IN_PROGRESS, its
    answer log is empty, it has no current question, and its difficulty is
    the initial difficulty of the assessment for every area of the mix and
    undefined for every other area. An assessment that is missing or not
    active is refused with 404 and 400. *)
Theorem startSession_seeds_the_session (st : Store.t) (body : StartBody.t)
    (uuid now assessmentId t : string) :
  StartBody.assessmentId body = Some assessmentId -> assessmentId <> "" ->
  StartBody.tenantId body = Some t -> trim t <> "" ->
  trim uuid <> "" ->
  (forall assessment,
      Store.ASSESSMENTS st !! (t, assessmentId) = Some assessment ->
      Assessment.isActive assessment = true ->
      exists session,
        startSession (inr body) uuid now st
        = (setSESSIONS (insert (trim t, uuid) session) st,
           Success 201 {| StartResult.sessionId := uuid;
                          StartResult.assessmentId := assessmentId;
                          StartResult.startedAt := now |})
        /\ CandidateSession.tenantId session = trim t
        /\ CandidateSession.sessionId session = uuid
        /\ CandidateSession.status session = IN_PROGRESS
        /\ CandidateSession.questionsAnswered session = []
        /\ CandidateSession.currentQuestion session = None
        /\ forall a,
             CandidateSession.currentDifficulty session !! a
             = if bool_decide (a ∈ List.map KnowledgeAreaConfig.area
                                     (Assessment.knowledgeAreaMix assessment))
               then Some (Assessment.initialDifficulty assessment)
               else None)
  /\ (forall assessment,
        Store.ASSESSMENTS st !! (t, assessmentId) = Some assessment ->
        Assessment.isActive assessment = false ->
        startSession (inr body) uuid now st
        = (st, Failure (formatErrorResponse (ValidationError "Assessment is not active"))))
  /\ (Store.ASSESSMENTS st !! (t, assessmentId) = None ->
      startSession (inr body) uuid now st
      = (st, Failure (formatErrorResponse (NotFoundError "Assessment")))).
Proof.
  intros Hid Ha Htid Ht Huuid.
  pose proof (startSession_with_tenant st body uuid now assessmentId t Hid Ha Htid Ht Huuid)
    as Hstart.
  split; [|split].
  - intros assessment Hfound Hactive. rewrite Hstart, Hfound, Hactive.
    eexists. split; [reflexivity|].
    repeat (split; [reflexivity|]).
    intros a. apply initialDifficulties_lookup.
  - intros assessment Hfound Hactive. rewrite Hstart, Hfound, Hactive. reflexivity.
  - intros Hfound. rewrite Hstart, Hfound. reflexivity.
Qed.

Lemma startSession_seeds_the_session_witness :
  trim "acme" <> "" /\ trim "s2" <> ""
  /\ exists session,
       startSession (inr sampleStartBody) "s2" sampleClock
                    (sampleStore (sampleSession COMPLETED threeCorrect None))
       = (setSESSIONS (insert (trim "acme", "s2") session)
                      (sampleStore (sampleSession COMPLETED threeCorrect None)),
          Success 201 {| StartResult.sessionId := "s2";
                         StartResult.assessmentId := "a1";
                         StartResult.startedAt := sampleClock |})
       /\ CandidateSession.tenantId session = trim "acme"
       /\ CandidateSession.sessionId session = "s2"
       /\ CandidateSession.status session = IN_PROGRESS
       /\ CandidateSession.questionsAnswered session = []
       /\ CandidateSession.currentQuestion session = None
       /\ forall a,
            CandidateSession.currentDifficulty session !! a
            = if bool_decide (a ∈ List.map KnowledgeAreaConfig.area
                                    (Assessment.knowledgeAreaMix sampleAssessment))
              then Some (Assessment.initialDifficulty sampleAssessment)
              else None.
Proof.
  assert (Ht : trim "acme" <> "") by (vm_compute; discriminate).
  assert (Hu : trim "s2" <> "") by (vm_compute; discriminate).
  split; [exact Ht|]. split; [exact Hu|].
  apply (proj1 (startSession_seeds_the_session
                  (sampleStore (sampleSession COMPLETED threeCorrect None))
                  sampleStartBody "s2" sampleClock "a1" "acme"
                  eq_refl ltac:(discriminate) eq_refl Ht Hu) sampleAssessment);
    [apply lookup_singleton_eq | reflexivity].
Defined.

(** ** Creating an assessment *)

(** What [createAssessment] does: it fails and leaves the store as it is,
    or the request carries the token of a tenant or an admin and a valid
    body, and the assessment is stored under the trimmed tenant id and the
    fresh identifier. *)
Lemma createAssessment_cases (event : AssessmentEvent.t) (getUserFromToken : TokenVerifier)
    (uuid now : string) (st : Store.t) :
  (exists error, createAssessment event getUserFromToken uuid now st = (st, Failure error))
  \/ exists authHeader user body title mix cap tenant assessment stored,
       AssessmentEvent.authorization event = Some authHeader
       /\ getUserFromToken (removeFirst "Bearer " authHeader) = inr user
       /\ (CognitoUserAttributes.role user = TENANT \/ CognitoUserAttributes.role user = ADMIN)
       /\ (is_Some (getTenantId user) \/ CognitoUserAttributes.role user = ADMIN)
       /\ AssessmentEvent.body event = Some body
       /\ AssessmentBody.title body = Some title /\ title <> ""
       /\ AssessmentBody.knowledgeAreaMix body = FieldArray mix /\ mix <> []
       /\ sumsTo100 mix
       /\ (1 <= cap)%Q /\ (cap <= 50)%Q
       /\ finalTenantIdOf user (AssessmentBody.tenantId body) = Some tenant
       /\ trim tenant <> ""
       /\ createAssessment event getUserFromToken uuid now st
          = (setASSESSMENTS (insert (trim tenant, uuid) stored) st, Success 201 assessment)
       /\ (Assessment.assessmentId assessment = uuid
           /\ Assessment.tenantId assessment = tenant
           /\ Assessment.knowledgeAreaMix assessment = mix
           /\ Assessment.initialDifficulty assessment
              = default 3 (AssessmentBody.initialDifficulty body)
           /\ Assessment.maxQuestions assessment = Some (Math_max 1 (Math_min 50 cap))
           /\ Assessment.isActive assessment = true)
       /\ (Assessment.assessmentId stored = uuid
           /\ Assessment.tenantId stored = trim tenant
           /\ Assessment.knowledgeAreaMix stored = mix
           /\ Assessment.initialDifficulty stored
              = default 3 (AssessmentBody.initialDifficulty body)
           /\ Assessment.maxQuestions stored = Some (Math_max 1 (Math_min 50 cap))
           /\ Assessment.isActive stored = true).
Proof.
  unfold createAssessment, respond, createAssessment_try, bind, throwIf.
  destruct (AssessmentEvent.authorization event) as [authHeader|];
    [|left; eexists; reflexivity].
  destruct (bool_decide_reflect (authHeader = "")) as [Hheader | Hheader];
    [left; eexists; reflexivity|].
  cbn [ret].
  destruct (getUserFromToken (removeFirst "Bearer " authHeader)) as [e | user] eqn:Htoken;
    [left; eexists; reflexivity|].
  assert (Hrole : negb (hasRole user TENANT) && negb (hasRole user ADMIN) = false ->
                  CognitoUserAttributes.role user = TENANT
                  \/ CognitoUserAttributes.role user = ADMIN).
  { unfold hasRole.
    destruct (bool_decide_reflect (CognitoUserAttributes.role user = TENANT)); [tauto|].
    destruct (bool_decide_reflect (CognitoUserAttributes.role user = ADMIN)); [tauto|].
    discriminate. }
  destruct (negb (hasRole user TENANT) && negb (hasRole user ADMIN)) eqn:Hallowed;
    [left; eexists; reflexivity|].
  specialize (Hrole eq_refl). cbn [ret].
  assert (Htenant : negb (bool_decide (is_Some (getTenantId user)))
                    && negb (hasRole user ADMIN) = false ->
                    is_Some (getTenantId user) \/ CognitoUserAttributes.role user = ADMIN).
  { unfold hasRole.
    destruct (bool_decide_reflect (is_Some (getTenantId user))); [tauto|].
    destruct (bool_decide_reflect (CognitoUserAttributes.role user = ADMIN)); [tauto|].
    discriminate. }
  destruct (negb (bool_decide (is_Some (getTenantId user))) && negb (hasRole user ADMIN))
    eqn:Hhas; [left; eexists; reflexivity|].
  specialize (Htenant eq_refl). cbn [ret].
  destruct (AssessmentEvent.body event) as [body|]; [|left; eexists; reflexivity].
  destruct (AssessmentBody.title body) as [title|] eqn:Htitle; [|left; eexists; reflexivity].
  destruct (AssessmentBody.targetRole body) as [targetRole|];
    [|left; eexists; reflexivity].
  destruct (AssessmentBody.knowledgeAreaMix body) as [|mix|] eqn:Hmix;
    [left; eexists; reflexivity | | ].
  2:{ destruct (bool_decide (title = "")); left; eexists; reflexivity. }
  destruct (bool_decide_reflect (title = "")) as [Hempty | Hempty];
    [left; eexists; reflexivity|].
  cbn [ret].
  destruct (length mix =? 0)%nat eqn:Hlen; [left; eexists; reflexivity|].
  assert (Hmixne : mix <> []) by (intros ->; discriminate).
  cbn [ret].
  assert (Hfinish : forall cap,
             Qlt_bool cap 1 || Qlt_bool 50 cap = false ->
             sumsTo100 mix ->
             forall tenant,
               finalTenantIdOf user (AssessmentBody.tenantId body) = Some tenant ->
               trim tenant <> "" ->
               invalidTenantId (trim tenant) = false /\ (1 <= cap)%Q /\ (cap <= 50)%Q).
  { intros cap Hcap _ tenant _ Htrim. split.
    - rewrite invalidTenantId_trimmed, invalidTenantId_trim.
      apply bool_decide_eq_false_2. exact Htrim.
    - apply orb_false_iff in Hcap as [Hlow Hhigh].
      apply Qlt_bool_ge in Hlow, Hhigh. split; assumption. }
  destruct (AssessmentBody.maxQuestions body) as [|q|] eqn:Hmax;
    [| |left; eexists; reflexivity].
  - change (Qlt_bool 10 1 || Qlt_bool 50 10) with false. cbn [ret].
    destruct (Qlt_bool (1 # 100) _) eqn:Hsum; [left; eexists; reflexivity|].
    rewrite foldl_percentage_Qsum in Hsum. apply Qlt_bool_ge in Hsum. cbn [ret].
    destruct (finalTenantIdOf user (AssessmentBody.tenantId body)) as [tenant|] eqn:Hfinal;
      [|left; eexists; reflexivity].
    destruct (bool_decide_reflect (trim tenant = "")) as [Htrim | Htrim];
      [left; eexists; reflexivity|].
    cbn [ret]. unfold putItem.
    destruct (Hfinish 10%Q eq_refl Hsum tenant eq_refl Htrim) as (Hput & Hlow & Hhigh).
    rewrite Hput, trim_idempotent.
    right. exists authHeader, user, body, title, mix, 10%Q, tenant.
    eexists. eexists.
    repeat (split; [first [reflexivity | assumption]|]).
    split; repeat (split; [reflexivity|]); reflexivity.
  - destruct (Qlt_bool q 1 || Qlt_bool 50 q) eqn:Hcap; [left; eexists; reflexivity|].
    cbn [ret].
    destruct (Qlt_bool (1 # 100) _) eqn:Hsum; [left; eexists; reflexivity|].
    rewrite foldl_percentage_Qsum in Hsum. apply Qlt_bool_ge in Hsum. cbn [ret].
    destruct (finalTenantIdOf user (AssessmentBody.tenantId body)) as [tenant|] eqn:Hfinal;
      [|left; eexists; reflexivity].
    destruct (bool_decide_reflect (trim tenant = "")) as [Htrim | Htrim];
      [left; eexists; reflexivity|].
    cbn [ret]. unfold putItem.
    destruct (Hfinish q Hcap Hsum tenant eq_refl Htrim) as (Hput & Hlow & Hhigh).
    rewrite Hput, trim_idempotent.
    right. exists authHeader, user, body, title, mix, q, tenant.
    eexists. eexists.
    repeat (split; [first [reflexivity | assumption]|]).
    split; repeat (split; [reflexivity|]); reflexivity.
Qed.

Lemma cap_clamped (cap : Q) :
  (1 <= cap)%Q -> (cap <= 50)%Q ->
  (1 <= Math_max 1 (Math_min 50 cap))%Q /\ (Math_max 1 (Math_min 50 cap) <= 50)%Q.
Proof.
  intros Hlow Hhigh. unfold Math_max, Math_min.
  destruct (Qle_bool 50 cap) eqn:E.
  - change (Qle_bool 1 50) with true. cbn iota. split; [discriminate | apply Qle_refl].
  - apply Qle_bool_iff in Hlow. rewrite Hlow. apply Qle_bool_iff in Hlow. tauto.
Qed.

(** X23. An assessment is created only for the holder of a valid token of
    a tenant or an admin, and it is written under the tenant of the token:
    when the token carries a tenant id, a tenant id in the request body is
    ignored, so a tenant user cannot create an assessment for another
    tenant. The assessment is stored under the trimmed tenant id and the
    fresh identifier, active, and with a question cap in 1..50. *)
Theorem createAssessment_writes_for_the_token_tenant (st st' : Store.t)
    (event : AssessmentEvent.t) (getUserFromToken : TokenVerifier) (uuid now : string)
    (statusCode : Z) (assessment : Assessment.t) :
  createAssessment event getUserFromToken uuid now st
  = (st', Success statusCode assessment) ->
  exists authHeader user stored cap,
    AssessmentEvent.authorization event = Some authHeader
    /\ getUserFromToken (removeFirst "Bearer " authHeader) = inr user
    /\ CognitoUserAttributes.role user <> CANDIDATE
    /\ statusCode = 201
    /\ (forall t, getTenantId user = Some t -> Assessment.tenantId assessment = t)
    /\ (CognitoUserAttributes.role user = TENANT ->
        CognitoUserAttributes.tenantId user = Some (Assessment.tenantId assessment))
    /\ st' = setASSESSMENTS (insert (trim (Assessment.tenantId assessment), uuid) stored) st
    /\ Assessment.assessmentId stored = uuid
    /\ Assessment.tenantId stored = trim (Assessment.tenantId assessment)
    /\ Assessment.isActive stored = true
    /\ Assessment.maxQuestions stored = Some cap
    /\ (1 <= cap)%Q /\ (cap <= 50)%Q.
Proof.
  intros Hcreated.
  destruct (createAssessment_cases event getUserFromToken uuid now st)
    as [[e He] | (authHeader & user & body & title & mix & cap & tenant & created & stored
                  & H)];
    [rewrite He in Hcreated; discriminate|].
  destruct H as (Hauth & Htoken & Hrole & Htenant & _ & _ & _ & _ & _ & _ & Hlow & Hhigh
                 & Hfinal & _ & Heq & Hfields & Hstored).
  rewrite Heq in Hcreated. injection Hcreated as <- <- <-.
  destruct Hfields as (_ & Htid & _). destruct Hstored as (Hsid & Hstid & _ & _ & Hcap & Hactive).
  assert (Hown : forall t, getTenantId user = Some t -> Assessment.tenantId created = t).
  { intros t Ht. unfold finalTenantIdOf in Hfinal. rewrite Ht in Hfinal.
    injection Hfinal as <-. exact Htid. }
  exists authHeader, user, stored, (Math_max 1 (Math_min 50 cap)).
  split; [exact Hauth|]. split; [exact Htoken|].
  split; [destruct Hrole as [-> | ->]; discriminate|].
  split; [reflexivity|]. split; [exact Hown|].
  split.
  { intros Hten. destruct Htenant as [[t Ht] | Hadmin]; [|congruence].
    rewrite (Hown t Ht). unfold getTenantId, truthyString in Ht.
    destruct (CognitoUserAttributes.tenantId user) as [t'|]; [|discriminate].
    destruct (bool_decide (t' = "")); [discriminate|]. exact Ht. }
  rewrite Htid. split; [reflexivity|]. split; [exact Hsid|]. split; [exact Hstid|].
  split; [exact Hactive|]. split; [exact Hcap|].
  apply cap_clamped; assumption.
Qed.

Lemma createAssessment_writes_for_the_token_tenant_witness :
  let created :=
    {| Assessment.assessmentId := "uuid-1";
       Assessment.tenantId := "acme";
       Assessment.title := "Backend engineer";
       Assessment.description := None;
       Assessment.targetRole :=
         {| TargetRole.name := "Backend engineer"; TargetRole.seniorityLevel := SENIOR |};
       Assessment.knowledgeAreaMix := sampleMix;
       Assessment.initialDifficulty := 2;
       Assessment.durationMinutes := None;
       Assessment.maxQuestions := Some 10%Q;
       Assessment.passThreshold := None;
       Assessment.createdAt := sampleClock;
       Assessment.updatedAt := sampleClock;
       Assessment.createdBy := "user-1";
       Assessment.isActive := true |} in
  let st' :=
    fst (createAssessment (sampleCreateEvent (Some 2)) sampleVerifier "uuid-1" sampleClock
                          emptyStore) in
  createAssessment (sampleCreateEvent (Some 2)) sampleVerifier "uuid-1" sampleClock emptyStore
  = (st', Success 201 created)
  /\ exists stored cap,
       st' = setASSESSMENTS (insert (trim "acme", "uuid-1") stored) emptyStore
       /\ Assessment.tenantId stored = trim "acme"
       /\ Assessment.maxQuestions stored = Some cap
       /\ (1 <= cap)%Q /\ (cap <= 50)%Q.
Proof.
  intros created st'.
  assert (H : createAssessment (sampleCreateEvent (Some 2)) sampleVerifier "uuid-1"
                               sampleClock emptyStore
              = (st', Success 201 created)) by reflexivity.
  split; [exact H|].
  destruct (createAssessment_writes_for_the_token_tenant _ _ _ _ _ _ _ _ H)
    as (authHeader & user & stored & cap & _ & _ & _ & _ & _ & _ & Hst & _ & Htenant & _
        & Hcap & Hlow & Hhigh).
  exists stored, cap. tauto.
Defined.

(** X24. What the handlers of the assessments leave alone. A request to
    create an assessment that is answered with an error writes nothing,
    and [getAssessment], [listAssessments] and [getSession] never write,
    whatever they answer. *)
Theorem assessment_requests_write_nothing (st : Store.t) :
  (forall event getUserFromToken uuid now error,
      snd (createAssessment event getUserFromToken uuid now st) = Failure error ->
      fst (createAssessment event getUserFromToken uuid now st) = st)
  /\ (forall event getUserFromToken, fst (getAssessment event getUserFromToken st) = st)
  /\ (forall event getUserFromToken, fst (listAssessments event getUserFromToken st) = st)
  /\ (forall event getUserFromToken, fst (getSession event getUserFromToken st) = st).
Proof.
  assert (Hcheck : forall user requested,
             (exists e, checkTenant user requested st = (st, Throw e))
             \/ checkTenant user requested st = (st, Return tt)).
  { intros user requested. unfold checkTenant, bind, throwIf, throw, ret.
    destruct (negb (bool_decide (is_Some requested)) && negb (hasRole user ADMIN));
      [left; eexists; reflexivity|].
    destruct requested as [t|]; [|right; reflexivity].
    destruct (negb (hasRole user ADMIN) && negb (belongsToTenant user t));
      [left; eexists; reflexivity | right; reflexivity]. }
  split; [|split; [|split]].
  - intros event verifier uuid now error Hfail.
    destruct (createAssessment_cases event verifier uuid now st)
      as [[e He] | (authHeader & user & body & title & mix & cap & tenant & created & stored
                    & H)].
    + rewrite He. reflexivity.
    + destruct H as (_ & _ & _ & _ & _ & _ & _ & _ & _ & _ & _ & _ & _ & _ & Heq & _).
      rewrite Heq in Hfail. discriminate.
  - intros event verifier. unfold getAssessment, respond, getAssessment_try, bind.
    destruct (authorize_state (ReadEvent.authorization event) verifier st)
      as [[e He] | (authHeader & user & _ & _ & _ & _ & He)]; rewrite He; [reflexivity|].
    unfold throwIf.
    destruct (blank (ReadEvent.assessmentId event)); [reflexivity|]. cbn [ret].
    destruct (negb (bool_decide (is_Some (getTenantId user))) && negb (hasRole user ADMIN));
      [reflexivity|].
    cbn [ret].
    destruct (Hcheck user (requestedTenantIdOf (ReadEvent.tenantId event) (getTenantId user)))
      as [[e He'] | He']; rewrite He'; [reflexivity|].
    destruct (requestedTenantIdOf _ _) as [t|].
    + unfold getItem. destruct (Store.ASSESSMENTS st !! _); reflexivity.
    + unfold scanTable, ret. destruct (head _); reflexivity.
  - intros event verifier. unfold listAssessments, respond, listAssessments_try, bind.
    destruct (authorize_state (ReadEvent.authorization event) verifier st)
      as [[e He] | (authHeader & user & _ & _ & _ & _ & He)]; rewrite He; [reflexivity|].
    destruct (Hcheck user (requestedTenantIdOf (ReadEvent.tenantId event) (getTenantId user)))
      as [[e He'] | He']; rewrite He'; [reflexivity|].
    destruct (requestedTenantIdOf _ _) as [t|]; reflexivity.
  - intros event verifier. unfold getSession, respond, getSession_try, bind.
    destruct (authorize_state (ResultsEvent.authorization event) verifier st)
      as [[e He] | (authHeader & user & _ & _ & _ & _ & He)]; rewrite He; [reflexivity|].
    unfold throwIf.
    destruct (blank (ResultsEvent.sessionId event)); [reflexivity|]. cbn [ret].
    rewrite findSessionById_lookup.
    destruct (Store.SESSIONS st !! _) as [session|]; [|reflexivity].
    destruct (negb (hasRole user ADMIN) && negb (belongsToTenant user _)); reflexivity.
Qed.

(** ** Tenant isolation of the reads *)

Lemma checkTenant_passed (user : CognitoUserAttributes.t) (requested : option string)
    (st st' : Store.t) :
  checkTenant user requested st = (st', Return tt) ->
  CognitoUserAttributes.role user = ADMIN
  \/ exists t, requested = Some t /\ CognitoUserAttributes.tenantId user = Some t.
Proof.
  unfold checkTenant, bind, throwIf, throw, ret, belongsToTenant, hasRole.
  destruct (bool_decide_reflect (CognitoUserAttributes.role user = ADMIN)) as [Hadmin | Hadmin];
    [left; exact Hadmin|].
  cbn [negb andb]. rewrite andb_true_r.
  destruct requested as [t|].
  - rewrite (bool_decide_eq_true_2 (is_Some (Some t))) by (eexists; reflexivity).
    cbn [negb].
    destruct (bool_decide_reflect (CognitoUserAttributes.tenantId user = Some t)) as [Ht | Ht];
      [|discriminate].
    intros _. right. exists t. split; [reflexivity | exact Ht].
  - rewrite (bool_decide_eq_false_2 (is_Some None)) by (intros [x Hx]; discriminate).
    discriminate.
Qed.

Lemma checkTenant_state (user : CognitoUserAttributes.t) (requested : option string)
    (st st' : Store.t) (outcome : Outcome unit) :
  checkTenant user requested st = (st', outcome) -> st' = st.
Proof.
  unfold checkTenant, bind, throwIf, throw, ret.
  destruct (_ && _); [intros [= <- _]; reflexivity|].
  destruct requested; [|intros [= <- _]; reflexivity].
  destruct (_ && _); intros [= <- _]; reflexivity.
Qed.



Lemma partition_items (m : gmap (string * string) Assessment.t) (t : string)
    (a : Assessment.t) :
  In a (List.map snd
          (List.filter (fun kv : string * string * Assessment.t =>
                          bool_decide (fst (fst kv) = t))
                       (map_to_list m)))
  <-> exists sortKey, m !! (t, sortKey) = Some a.
Proof.
  split.
  - intros Hin. apply in_map_iff in Hin as ([[t' sk] a'] & Heq & Hin).
    cbn [snd] in Heq. subst a'.
    apply filter_In in Hin as [Hin Hkey]. cbn [fst] in Hkey.
    apply bool_decide_eq_true_1 in Hkey. subst t'.
    apply list_elem_of_In, elem_of_map_to_list in Hin. exists sk. exact Hin.
  - intros [sk Hfound]. apply in_map_iff. exists ((t, sk), a). split; [reflexivity|].
    apply filter_In. split.
    + apply list_elem_of_In, elem_of_map_to_list. exact Hfound.
    + cbn [fst]. apply bool_decide_eq_true_2. reflexivity.
Qed.

(** X26. Tenant isolation of [listAssessments]. A successful response to a
    user who is not an admin lists exactly the assessments stored under
    the tenant id of the user's token, or only the active ones among them
    when the query asks for [activeOnly=true]: no assessment of another
    tenant appears in it and none of the user's own is left out. *)
Theorem listAssessments_isolation (st st' : Store.t) (event : ReadEvent.t)
    (getUserFromToken : TokenVerifier) (statusCode : Z) (assessments : list Assessment.t) :
  listAssessments event getUserFromToken st = (st', Success statusCode assessments) ->
  exists authHeader user,
    ReadEvent.authorization event = Some authHeader
    /\ getUserFromToken (removeFirst "Bearer " authHeader) = inr user
    /\ (CognitoUserAttributes.role user = ADMIN
        \/ exists t,
             CognitoUserAttributes.role user = TENANT
             /\ CognitoUserAttributes.tenantId user = Some t
             /\ forall a,
                  In a assessments
                  <-> (exists sortKey, Store.ASSESSMENTS st !! (t, sortKey) = Some a)
                      /\ (ReadEvent.activeOnly event = Some "true" ->
                          Assessment.isActive a = true)).
Proof.
  unfold listAssessments, respond, listAssessments_try, bind.
  destruct (authorize_state (ReadEvent.authorization event) getUserFromToken st)
    as [[e He] | (authHeader & user & Hauth & _ & Htoken & Hrole & He)]; rewrite He;
    [discriminate|].
  destruct (checkTenant user _ st) as [st1 [[]|e]] eqn:Hcheck; [|discriminate].
  pose proof (checkTenant_passed _ _ _ _ Hcheck) as Hpassed.
  intros Hresult.
  exists authHeader, user.
  split; [exact Hauth|]. split; [exact Htoken|].
  destruct Hpassed as [Hadmin | (t & Hrequested & Htenant)]; [left; exact Hadmin|].
  destruct Hrole as [Hten | Hadmin]; [|left; exact Hadmin].
  right. exists t. split; [exact Hten|]. split; [exact Htenant|].
  pose proof (checkTenant_state _ _ _ _ _ Hcheck) as ->.
  rewrite Hrequested in Hresult. unfold queryByPartitionKey, ret in Hresult.
  injection Hresult as _ _ <-.
  intros a.
  destruct (bool_decide_reflect (ReadEvent.activeOnly event = Some "true")) as [Hactive | Hall].
  - rewrite filter_In, partition_items. split; [intros [H1 H2]; tauto | intros [H1 H2]; tauto].
  - rewrite partition_items. split; [intros H; split; [exact H | intros; contradiction] | tauto].
Qed.

Lemma listAssessments_isolation_witness :
  listAssessments {| ReadEvent.authorization := Some "Bearer token-1";
                     ReadEvent.assessmentId := None;
                     ReadEvent.tenantId := None;
                     ReadEvent.activeOnly := Some "true" |}
                  sampleVerifier (sampleStore (sampleSession IN_PROGRESS [] None))
  = (sampleStore (sampleSession IN_PROGRESS [] None), Success 200 [sampleAssessment])
  /\ exists authHeader user,
       Some "Bearer token-1" = Some authHeader
       /\ sampleVerifier (removeFirst "Bearer " authHeader) = inr user
       /\ (CognitoUserAttributes.role user = ADMIN
           \/ exists t,
                CognitoUserAttributes.role user = TENANT
                /\ CognitoUserAttributes.tenantId user = Some t
                /\ forall a,
                     In a [sampleAssessment]
                     <-> (exists sortKey,
                             Store.ASSESSMENTS (sampleStore (sampleSession IN_PROGRESS [] None))
                               !! (t, sortKey) = Some a)
                         /\ (Some "true" = Some "true" -> Assessment.isActive a = true)).
Proof.
  assert (H : listAssessments {| ReadEvent.authorization := Some "Bearer token-1";
                                 ReadEvent.assessmentId := None;
                                 ReadEvent.tenantId := None;
                                 ReadEvent.activeOnly := Some "true" |}
                              sampleVerifier (sampleStore (sampleSession IN_PROGRESS [] None))
              = (sampleStore (sampleSession IN_PROGRESS [] None),
                 Success 200 [sampleAssessment])) by (vm_compute; reflexivity).
  split; [exact H|].
  exact (listAssessments_isolation _ _ _ _ _ _ H).
Defined.

(** ** From an assessment to a session *)

(** X27. A session can be started on an assessment that has just been
    created: with the identifier of the new assessment and its trimmed
    tenant id, [startSession] succeeds, and the difficulty of the new
    session is, for every area of the mix, the initial difficulty that the
    request to create the assessment asked for, and 3 when it asked for
    none. *)
Theorem created_assessment_can_be_started (st st' : Store.t) (event : AssessmentEvent.t)
    (getUserFromToken : TokenVerifier) (uuid now : string) (assessment : Assessment.t)
    (body : StartBody.t) (uuid' now' : string) :
  createAssessment event getUserFromToken uuid now st = (st', Success 201 assessment) ->
  uuid <> "" -> trim uuid' <> "" ->
  StartBody.assessmentId body = Some (Assessment.assessmentId assessment) ->
  StartBody.tenantId body = Some (trim (Assessment.tenantId assessment)) ->
  exists session requested,
    startSession (inr body) uuid' now' st'
    = (setSESSIONS (insert (trim (Assessment.tenantId assessment), uuid') session) st',
       Success 201 {| StartResult.sessionId := uuid';
                      StartResult.assessmentId := uuid;
                      StartResult.startedAt := now' |})
    /\ CandidateSession.status session = IN_PROGRESS
    /\ CandidateSession.questionsAnswered session = []
    /\ AssessmentEvent.body event = Some requested
    /\ forall a,
         CandidateSession.currentDifficulty session !! a
         = if bool_decide (a ∈ List.map KnowledgeAreaConfig.area
                                 (Assessment.knowledgeAreaMix assessment))
           then Some (default 3 (AssessmentBody.initialDifficulty requested))
           else None.
Proof.
  intros Hcreated Huuid Huuid' Hid Htid.
  destruct (createAssessment_cases event getUserFromToken uuid now st)
    as [[e He] | (authHeader & user & requested & title & mix & cap & tenant & created
                  & stored & H)];
    [rewrite He in Hcreated; discriminate|].
  destruct H as (_ & _ & _ & _ & Hbody & _ & _ & _ & _ & _ & _ & _ & _ & Htrim & Heq
                 & Hfields & Hstored).
  rewrite Heq in Hcreated. injection Hcreated as <- <-.
  destruct Hfields as (Haid & Hten & Hmix & Hinitial & _).
  destruct Hstored as (_ & _ & Hsmix & Hsinitial & _ & Hactive).
  rewrite Haid in Hid. rewrite Hten in Htid |- *.
  assert (Htrim' : trim (trim tenant) <> "") by (rewrite trim_idempotent; exact Htrim).
  rewrite (startSession_with_tenant _ body uuid' now' uuid (trim tenant)
             Hid Huuid Htid Htrim' Huuid').
  cbn [setASSESSMENTS Store.ASSESSMENTS]. rewrite lookup_insert_eq, Hactive.
  rewrite trim_idempotent.
  eexists. exists requested.
  split; [reflexivity|]. split; [reflexivity|]. split; [reflexivity|].
  split; [exact Hbody|].
  intros a. cbn [startedSession CandidateSession.currentDifficulty].
  rewrite initialDifficulties_lookup, Hsmix, Hsinitial, Hmix. reflexivity.
Qed.

Lemma created_assessment_can_be_started_witness :
  let created :=
    createAssessment (sampleCreateEvent (Some 9)) sampleVerifier "a1" sampleClock emptyStore in
  exists assessment session,
    created = (fst created, Success 201 assessment)
    /\ Assessment.assessmentId assessment = "a1"
    /\ trim (Assessment.tenantId assessment) = "acme"
    /\ fst (startSession (inr sampleStartBody) "s2" sampleClock (fst created))
       = setSESSIONS (insert ("acme", "s2") session) (fst created)
    /\ CandidateSession.currentDifficulty session !! ALGORITHMS_DATA_STRUCTURES = Some 9.
Proof.
  intros created.
  assert (H : created
              = (fst created,
                 Success 201
                   {| Assessment.assessmentId := "a1";
                      Assessment.tenantId := "acme";
                      Assessment.title := "Backend engineer";
                      Assessment.description := None;
                      Assessment.targetRole :=
                        {| TargetRole.name := "Backend engineer";
                           TargetRole.seniorityLevel := SENIOR |};
                      Assessment.knowledgeAreaMix := sampleMix;
                      Assessment.initialDifficulty := 9;
                      Assessment.durationMinutes := None;
                      Assessment.maxQuestions := Some 10%Q;
                      Assessment.passThreshold := None;
                      Assessment.createdAt := sampleClock;
                      Assessment.updatedAt := sampleClock;
                      Assessment.createdBy := "user-1";
                      Assessment.isActive := true |})) by reflexivity.
  destruct (created_assessment_can_be_started emptyStore (fst created)
              (sampleCreateEvent (Some 9)) sampleVerifier "a1" sampleClock _
              sampleStartBody "s2" sampleClock H)
    as (session & requested & Hstart & _ & _ & Hbody & Hdifficulty);
    [discriminate | vm_compute; discriminate | reflexivity | reflexivity |].
  eexists. exists session.
  split; [exact H|]. split; [reflexivity|]. split; [vm_compute; reflexivity|].
  split; [rewrite Hstart; reflexivity|].
  rewrite Hdifficulty. injection Hbody as <-. reflexivity.
Defined.

(** ** When an answer is accepted *)

(** X28. [submitAnswer] on a consistent store succeeds exactly for the
    accepted answers: the request is complete, it names an IN_PROGRESS
    session under its tenant, its question is the current question of the
    session or a stored question of the assessment, and the question id is
    not yet in the answer log. Every other request is answered with an
    error. *)
Theorem answer_accepted_iff (st : Store.t) (event : AnswerEvent.t) (now : string) :
  consistentSessions st ->
  (exists body, snd (submitAnswer event now st) = Success 200 body)
  <-> exists t sessionId questionId answer timeSpentSeconds session question,
        AcceptedAnswer st event t sessionId questionId answer timeSpentSeconds
                       session question.
Proof.
  intros Hst. split.
  - intros [body Hbody].
    destruct (submitAnswer_cases event now st)
      as [[e He] | (sid & qid & ans & time & found & question & body' & H)];
      [rewrite He in Hbody; discriminate|].
    destruct H as (Hsid & Hqid & Hans & Htime & Hs & Hq & Hfound & Hstatus & _ & Hres & Hnew
                   & _).
    destruct (Hst _ _ _ Hfound) as (Ht & _ & Htrim & Hne).
    set (t := default "" (AnswerEvent.tenantId event)) in *.
    assert (Htid : AnswerEvent.tenantId event = Some t).
    { unfold t in *. destruct (AnswerEvent.tenantId event); [reflexivity|].
      exfalso. apply Hne. reflexivity. }
    exists t, sid, qid, ans, time, found, question. constructor; assumption.
  - intros (t & sid & qid & ans & time & session & question & Haccepted).
    rewrite (submitAnswer_accepts _ _ now _ _ _ _ _ _ _ Haccepted).
    eexists. reflexivity.
Qed.

Lemma answer_accepted_iff_witness :
  consistentSessions (sampleStore (sampleSession IN_PROGRESS [] None))
  /\ AcceptedAnswer (sampleStore (sampleSession IN_PROGRESS [] None))
                    (sampleAnswerEvent "q1") "acme" "s1" "q1" (AnswerString "a") 20%Q
                    (sampleSession IN_PROGRESS [] None)
                    (sampleQuestion "q1" ALGORITHMS_DATA_STRUCTURES)
  /\ exists body,
       snd (submitAnswer (sampleAnswerEvent "q1") sampleClock
                         (sampleStore (sampleSession IN_PROGRESS [] None)))
       = Success 200 body.
Proof.
  assert (Hst : consistentSessions (sampleStore (sampleSession IN_PROGRESS [] None)))
    by (apply sampleStore_consistent; reflexivity).
  assert (Haccepted :
            AcceptedAnswer (sampleStore (sampleSession IN_PROGRESS [] None))
                           (sampleAnswerEvent "q1") "acme" "s1" "q1" (AnswerString "a") 20%Q
                           (sampleSession IN_PROGRESS [] None)
                           (sampleQuestion "q1" ALGORITHMS_DATA_STRUCTURES)).
  { constructor; try reflexivity; discriminate. }
  split; [exact Hst|]. split; [exact Haccepted|].
  apply (proj2 (answer_accepted_iff _ (sampleAnswerEvent "q1") sampleClock Hst)).
  do 7 eexists. exact Haccepted.
Defined.

(** ** The order of the answers *)

Lemma filter_length_Permutation {A : Type} (f : A -> bool) (l l' : list A) :
  Permutation l l' -> length (List.filter f l) = length (List.filter f l').
Proof.
  induction 1 as [|x l l' _ IH|x y l|l l' l'' _ IH _ IH']; cbn [List.filter].
  - reflexivity.
  - destruct (f x); cbn [length]; congruence.
  - destruct (f x), (f y); reflexivity.
  - congruence.
Qed.

Lemma answeredInArea_Permutation (a : KnowledgeArea) (log log' : list QuestionResponse.t) :
  Permutation log log' -> answeredInArea a log = answeredInArea a log'.
Proof. apply filter_length_Permutation. Qed.

Lemma correctInArea_Permutation (a : KnowledgeArea) (log log' : list QuestionResponse.t) :
  Permutation log log' -> correctInArea a log = correctInArea a log'.
Proof.
  intros Hperm. unfold correctInArea, responsesOf.
  assert (Hboth : forall l : list QuestionResponse.t,
             length (List.filter QuestionResponse.isCorrect (List.filter (inArea a) l))
             = length (List.filter (fun r => inArea a r && QuestionResponse.isCorrect r) l)).
  { induction l as [|r l IH]; [reflexivity|]. cbn [List.filter].
    destruct (inArea a r); cbn [andb List.filter]; [|exact IH].
    destruct (QuestionResponse.isCorrect r); cbn [length]; congruence. }
  rewrite !Hboth. apply filter_length_Permutation. exact Hperm.
Qed.

Lemma answeredConfigs_Permutation (mix : list KnowledgeAreaConfig.t)
    (log log' : list QuestionResponse.t) :
  Permutation log log' -> answeredConfigs mix log = answeredConfigs mix log'.
Proof.
  intros Hperm. unfold answeredConfigs. apply List.filter_ext. intros config.
  rewrite (answeredInArea_Permutation _ _ _ Hperm). reflexivity.
Qed.

Lemma areaScoreOf_Permutation (a : KnowledgeArea) (log log' : list QuestionResponse.t) :
  Permutation log log' -> areaScoreOf a log = areaScoreOf a log'.
Proof.
  intros Hperm. unfold areaScoreOf.
  rewrite (answeredInArea_Permutation _ _ _ Hperm), (correctInArea_Permutation _ _ _ Hperm).
  reflexivity.
Qed.

(** X29. The scores do not depend on the order of the answers. Two
    sessions on the same assessment whose answer logs are permutations of
    each other get the same role-fit score, the same overall score and the
    same verdict, although their difficulties may differ. *)
Theorem scores_ignore_answer_order (session session' : CandidateSession.t)
    (assessment : Assessment.t) (now now' : string) :
  Permutation (CandidateSession.questionsAnswered session)
              (CandidateSession.questionsAnswered session') ->
  let m := calculatePerformanceMetrics session assessment now in
  let m' := calculatePerformanceMetrics session' assessment now' in
  PerformanceMetrics.roleFitScore m = PerformanceMetrics.roleFitScore m'
  /\ (PerformanceMetrics.overallScore m == PerformanceMetrics.overallScore m')%Q
  /\ PerformanceMetrics.passed m = PerformanceMetrics.passed m'.
Proof.
  intros Hperm m m'. subst m m'.
  set (mix := Assessment.knowledgeAreaMix assessment).
  set (log := CandidateSession.questionsAnswered session) in *.
  set (log' := CandidateSession.questionsAnswered session') in *.
  assert (Hconfigs : answeredConfigs mix log = answeredConfigs mix log')
    by (apply answeredConfigs_Permutation; exact Hperm).
  assert (Hscores : forall (weight : KnowledgeAreaConfig.t -> Q) l,
             List.map (fun config =>
                         (areaScoreOf (KnowledgeAreaConfig.area config) log
                          * weight config)%Q) l
             = List.map (fun config =>
                           (areaScoreOf (KnowledgeAreaConfig.area config) log'
                            * weight config)%Q) l).
  { intros weight l. apply List.map_ext. intros config.
    rewrite (areaScoreOf_Permutation _ _ _ Hperm). reflexivity. }
  assert (Hfit : PerformanceMetrics.roleFitScore
                   (calculatePerformanceMetrics session assessment now)
                 = PerformanceMetrics.roleFitScore
                     (calculatePerformanceMetrics session' assessment now')).
  { rewrite !calculatePerformanceMetrics_roleFitScore, !calculateRoleFitScore_clamped.
    cbv zeta. fold log log'.
    unfold roleFitMean, roleFitWeight. fold mix. rewrite Hconfigs, Hscores. reflexivity. }
  split; [exact Hfit|]. split.
  - rewrite !calculatePerformanceMetrics_overallScore. fold mix log log'.
    rewrite !calculateWeightedScore_mean.
    unfold overallMean, overallWeight. rewrite Hconfigs, Hscores. reflexivity.
  - rewrite !calculatePerformanceMetrics_passed, Hfit. reflexivity.
Qed.

Lemma scores_ignore_answer_order_witness :
  Permutation threeCorrect (rev threeCorrect)
  /\ threeCorrect <> rev threeCorrect
  /\ PerformanceMetrics.roleFitScore
       (calculatePerformanceMetrics (sampleSession IN_PROGRESS threeCorrect None)
                                    sampleAssessment sampleClock)
     = PerformanceMetrics.roleFitScore
         (calculatePerformanceMetrics (sampleSession IN_PROGRESS (rev threeCorrect) None)
                                      sampleAssessment sampleClock).
Proof.
  assert (Hperm : Permutation threeCorrect (rev threeCorrect)) by apply Permutation_rev.
  split; [exact Hperm|]. split; [discriminate|].
  exact (proj1 (scores_ignore_answer_order
                  (sampleSession IN_PROGRESS threeCorrect None)
                  (sampleSession IN_PROGRESS (rev threeCorrect) None)
                  sampleAssessment sampleClock sampleClock Hperm)).
Defined.

(** ** From a new session to its first question *)

(** X30. A session that has just been started is offered a question. With
    the tenant id under which the assessment is stored, [getNextQuestion]
    on the new session asks the Question Provider for an area of the mix,
    which the Selector picks on the empty log, at the initial difficulty
    of the assessment and without previous performance; when the provider
    returns a question, the request succeeds, the response carries this
    question without its answer key, and it reports no answered question. *)
Theorem fresh_session_is_served (st : Store.t) (body : StartBody.t)
    (uuid now assessmentId t : string) (assessment : Assessment.t)
    (event : SessionEvent.t) (generateAdaptiveQuestion : QuestionProvider)
    (Math_random : Q) :
  StartBody.assessmentId body = Some assessmentId -> trim assessmentId <> "" ->
  StartBody.tenantId body = Some t -> t <> "" -> trim t = t ->
  trim uuid <> "" ->
  Store.ASSESSMENTS st !! (t, assessmentId) = Some assessment ->
  Assessment.isActive assessment = true ->
  Assessment.knowledgeAreaMix assessment <> [] ->
  SessionEvent.sessionId event = Some uuid ->
  SessionEvent.tenantId event = Some t ->
  let st' := fst (startSession (inr body) uuid now st) in
  exists nextArea,
    selectNextKnowledgeArea (Assessment.knowledgeAreaMix assessment) []
                            (initialDifficulties assessment) Math_random = Some nextArea
    /\ In nextArea (List.map KnowledgeAreaConfig.area (Assessment.knowledgeAreaMix assessment))
    /\ forall question,
         generateAdaptiveQuestion assessment nextArea
                                  (Assessment.initialDifficulty assessment) None
         = inr question ->
         Question.questionId question <> "" ->
         Question.questionText question <> "" ->
         snd (getNextQuestion event generateAdaptiveQuestion Math_random st')
         = Success 200
             {| NextQuestionResult.question := withoutCorrectAnswer question;
                NextQuestionResult.sessionId := uuid;
                NextQuestionResult.questionsAnswered := 0;
                NextQuestionResult.maxQuestions :=
                  number_or (Assessment.maxQuestions assessment) 10;
                NextQuestionResult.durationMinutes :=
                  truthyNumber (Assessment.durationMinutes assessment);
                NextQuestionResult.startedAt := truthyString (Some (dropBlank now)) |}.
Proof.
  intros Hid Ha Htid Hne Htrim Huuid Hfound Hactive Hmix Hsid Hetid st'.
  assert (Htrim' : trim t <> "") by (rewrite Htrim; exact Hne).
  pose proof (trim_nonempty _ Ha) as Ha'.
  pose proof (trim_nonempty _ Huuid) as Huuid'.
  subst st'.
  rewrite (startSession_with_tenant st body uuid now assessmentId t Hid Ha' Htid Htrim' Huuid),
    Hfound, Hactive, Htrim.
  cbn [fst].
  destruct (selectNextKnowledgeArea_cases (Assessment.knowledgeAreaMix assessment) []
              (initialDifficulties assessment) Math_random Hmix)
    as (nextArea & Hnext & Hin & _).
  exists nextArea. split; [exact Hnext|]. split; [exact Hin|].
  intros question Hgenerated Hqid Htext.
  unfold getNextQuestion, respond, getNextQuestion_try, bind, throwIf.
  rewrite Hsid, Hetid, (blank_Some _ Huuid'). simpl.
  rewrite findSessionById_lookup. simpl. rewrite lookup_insert_eq.
  unfold startedSession at 1. cbn [CandidateSession.status].
  rewrite bool_decide_eq_true_2 by reflexivity. simpl.
  unfold getItem. cbn [startedSession CandidateSession.tenantId CandidateSession.assessmentId
                       CandidateSession.questionsAnswered CandidateSession.currentDifficulty
                       CandidateSession.startedAt].
  rewrite Hid. change (default "" (Some assessmentId)) with assessmentId.
  unfold dropBlank at 1.
  rewrite (bool_decide_eq_false_2 _ Ha), Hfound, Hnext.
  rewrite initialDifficulties_lookup.
  rewrite (bool_decide_eq_true_2 _ (proj2 (list_elem_of_In _ _) Hin)).
  assert (Hdefault : or_default (Some (Assessment.initialDifficulty assessment))
                                (Assessment.initialDifficulty assessment)
                     = Assessment.initialDifficulty assessment).
  { unfold or_default. destruct (_ =? 0); reflexivity. }
  rewrite Hdefault. cbn [slice_last length Nat.sub skipn Nat.ltb Nat.leb].
  rewrite Hgenerated.
  rewrite (bool_decide_eq_false_2 _ Hqid), (bool_decide_eq_false_2 _ Htext). simpl.
  unfold updateSession. rewrite (invalidTenantId_false _ Hne Htrim). reflexivity.
Qed.

Lemma fresh_session_is_served_witness :
  trim "a1" <> "" /\ trim "acme" = "acme" /\ trim "s2" <> ""
  /\ Assessment.knowledgeAreaMix sampleAssessment <> []
  /\ exists nextArea,
       selectNextKnowledgeArea (Assessment.knowledgeAreaMix sampleAssessment) []
                               (initialDifficulties sampleAssessment) (1 # 2)
       = Some nextArea
       /\ In nextArea (List.map KnowledgeAreaConfig.area
                         (Assessment.knowledgeAreaMix sampleAssessment))
       /\ snd (getNextQuestion
                 {| SessionEvent.sessionId := Some "s2"; SessionEvent.tenantId := Some "acme" |}
                 sampleProvider (1 # 2)
                 (fst (startSession (inr sampleStartBody) "s2" sampleClock
                         (sampleStore (sampleSession COMPLETED threeCorrect None)))))
          = Success 200
              {| NextQuestionResult.question := withoutCorrectAnswer generatedQuestion;
                 NextQuestionResult.sessionId := "s2";
                 NextQuestionResult.questionsAnswered := 0;
                 NextQuestionResult.maxQuestions :=
                   number_or (Assessment.maxQuestions sampleAssessment) 10;
                 NextQuestionResult.durationMinutes :=
                   truthyNumber (Assessment.durationMinutes sampleAssessment);
                 NextQuestionResult.startedAt := truthyString (Some (dropBlank sampleClock)) |}.
Proof.
  assert (Ha : trim "a1" <> "") by (vm_compute; discriminate).
  assert (Ht : trim "acme" = "acme") by (vm_compute; reflexivity).
  assert (Hu : trim "s2" <> "") by (vm_compute; discriminate).
  assert (Hmix : Assessment.knowledgeAreaMix sampleAssessment <> []) by discriminate.
  split; [exact Ha|]. split; [exact Ht|]. split; [exact Hu|]. split; [exact Hmix|].
  destruct (fresh_session_is_served
              (sampleStore (sampleSession COMPLETED threeCorrect None))
              sampleStartBody "s2" sampleClock "a1" "acme" sampleAssessment
              {| SessionEvent.sessionId := Some "s2"; SessionEvent.tenantId := Some "acme" |}
              sampleProvider (1 # 2)
              eq_refl Ha eq_refl ltac:(discriminate) Ht Hu (lookup_singleton_eq _ _)
              eq_refl Hmix eq_refl eq_refl)
    as (nextArea & Hnext & Hin & Hserved).
  exists nextArea. split; [exact Hnext|]. split; [exact Hin|].
  apply Hserved; [reflexivity | discriminate | discriminate].
Defined.
